(** * Proactive routing controller for the 14-node NSFNET backbone

    A shallow embedding of [ryu_app.py] (class [ProactiveRouting] and the
    REST handlers of class [RestAPI]) together with the properties its
    specification states about route installation, host-port deduction,
    link statistics and the REST boundary.  The backbone table of
    [topo_nsfnet.py] and the statistics summary of [web_app.py] are embedded
    next to it, for the properties that relate them to the controller.

    Conventions of the embedding.
    - Python [int] is [Z]; Python [float] is idealised as an exact rational
      [Q] (timestamps, edge weights, megabit rates).  [round(x, 2)] gives a
      hundredth nearest to that rational; where the rational lies exactly
      halfway between two hundredths, the side Python takes depends on the
      binary double it rounds, which the idealisation does not see: the
      model takes that side from a parameter [tie_up].
    - A Python [dict] whose iteration order is observed ([G.nodes],
      [adj.keys()], [datapaths.items()]) is an insertion-ordered association
      list; a dict that is only looked up is a [gmap]; a Python [set] is a
      [gset].
    - The controller object is a record [State]; every method returns the
      new state and the trace of what it did: the OpenFlow messages handed
      to [dp.send_msg] and the lines handed to [self.logger].
    - [networkx.shortest_path] belongs to an external library: the
      controller is parameterised by it (variable [shortest_path], [None]
      standing for the exception [NetworkXNoPath]); [dijkstra] below is a
      reference instance used on concrete topologies. *)

From Stdlib Require Import ZArith QArith Qround Qabs Lqa String Ascii List Lia.
From stdpp Require Import gmap strings list pretty.

Local Open Scope string_scope.
Local Open Scope list_scope.
Local Open Scope Z_scope.

(** ** Insertion-ordered dictionaries *)

Section odict.
Context {K V : Type} `{EqDecision K}.

(** [d.get(k)] *)
Fixpoint od_get (d : list (K * V)) (k : K) : option V :=
  match d with
  | [] => None
  | (k', v) :: r => if decide (k = k') then Some v else od_get r k
  end.

(** [d[k] = v]: an existing key keeps its position, a new key goes last. *)
Fixpoint od_set (d : list (K * V)) (k : K) (v : V) : list (K * V) :=
  match d with
  | [] => [(k, v)]
  | (k', v') :: r =>
      if decide (k = k') then (k, v) :: r else (k', v') :: od_set r k v
  end.

(** [list(d.keys())] *)
Definition od_keys (d : list (K * V)) : list K := map fst d.

(** [k in d] *)
Definition od_mem (d : list (K * V)) (k : K) : bool :=
  match od_get d k with Some _ => true | None => false end.
End odict.

(** ** The switch graph ([networkx.Graph]) *)

(** Edge attributes [bw=..., weight=...]. *)
Record EdgeData := mkEdgeData { e_bw : Z; e_weight : Q }.

(** The adjacency dict-of-dicts [G._adj]; its keys, in insertion order, are
    the nodes. *)
Definition Graph : Type := list (Z * list (Z * EdgeData)).

Module nx.
(** [nx.Graph()] and the result of [G.clear()] *)
Definition empty : Graph := [].

(** [n in G] *)
Definition has_node (g : Graph) (n : Z) : bool := od_mem g n.

(** [G.nodes] *)
Definition nodes (g : Graph) : list Z := od_keys g.

(** [G.number_of_nodes()] *)
Definition number_of_nodes (g : Graph) : Z := Z.of_nat (length g).

(** [G.add_node(n)] *)
Definition add_node (g : Graph) (n : Z) : Graph :=
  if has_node g n then g else g ++ [(n, [])].

(** [G._adj[u][v] = datadict] *)
Definition set_nbr (g : Graph) (u v : Z) (d : EdgeData) : Graph :=
  od_set g u (od_set (default [] (od_get g u)) v d).

(** [G.add_edge(u, v, bw=..., weight=...)] *)
Definition add_edge (g : Graph) (u v : Z) (d : EdgeData) : Graph :=
  let g := add_node g u in
  let g := add_node g v in
  let g := set_nbr g u v d in
  set_nbr g v u d.

(** [G.get_edge_data(u, v)] *)
Definition get_edge_data (g : Graph) (u v : Z) : option EdgeData :=
  nbrs ← od_get g u; od_get nbrs v.

(** [G.edges(data=True)]: every edge once, from the endpoint met first. *)
Fixpoint edges_from (g : Graph) (seen : list Z) : list (Z * Z * EdgeData) :=
  match g with
  | [] => []
  | (n, nbrs) :: r =>
      map (λ '(nbr, dd), (n, nbr, dd))
          (filter (λ '(nbr, _), nbr ∉ seen) nbrs)
      ++ edges_from r (n :: seen)
  end.
Definition edges (g : Graph) : list (Z * Z * EdgeData) := edges_from g [].

(** [G.number_of_edges()] *)
Definition number_of_edges (g : Graph) : Z := Z.of_nat (length (edges g)).
End nx.

(** ** OpenFlow messages and log lines *)

Inductive Action :=
| ActionOutput (port : Z)         (* OFPActionOutput(port) *)
| ActionController.               (* OFPActionOutput(OFPP_CONTROLLER, OFPCML_NO_BUFFER) *)

Inductive Instruction :=
| ApplyActions (actions : list Action).

(** [OFPMatch(...)]: an absent field is a wildcard. *)
Record Match := mkMatch {
  eth_type : option Z;
  ipv4_dst : option string;
  arp_tpa  : option string
}.

Inductive FlowMod :=
| FlowDelete                      (* command=OFPFC_DELETE, out_port=OFPP_ANY, out_group=OFPG_ANY *)
| FlowAdd (priority : Z) (m : Match) (inst : list Instruction).

Inductive LogLine :=
| InfoGraphReady (n_nodes n_edges : Z) (mode : string)
| WarnEmptyGraph
| WarnMultipleCandidates (dpid : Z) (cand : gset Z) (hp : Z)
| WarnNoCandidate (dpid : Z)
| InfoHostPort (dpid hp : Z)
| WarnDestinationNotInGraph (dst_sw : Z) (dst_ip : string)
| WarnNoRoute (u dst_sw : Z) (dst_ip : string)
| WarnUnknownPort (u v : Z) (dst_ip : string)
| InfoInstalled
| InfoModeChanged (mode : string).

Inductive Event :=
| Send (dpid : Z) (m : FlowMod)   (* dp.send_msg(m) on the datapath of switch dpid *)
| Log (l : LogLine).

Definition Trace := list Event.

(** ** Constants and helpers of the module *)

Definition NUM_HOSTS : Z := 14.

Definition ip_of (i : Z) : string := "10.0.0." +:+ pretty i.

Definition undirected_key (a b : Z) : Z * Z :=
  if decide (a < b) then (a, b) else (b, a).

Definition link_bw_table : list ((Z * Z) * Z) :=
  [ (undirected_key 1 2, 50);   (undirected_key 1 5, 30);
    (undirected_key 2 3, 20);   (undirected_key 2 6, 40);
    (undirected_key 3 4, 25);   (undirected_key 3 7, 35);
    (undirected_key 4 8, 45);   (undirected_key 5 6, 10);
    (undirected_key 5 9, 20);   (undirected_key 6 7, 50);
    (undirected_key 6 10, 8);   (undirected_key 7 11, 40);
    (undirected_key 8 12, 30);  (undirected_key 9 10, 40);
    (undirected_key 9 13, 35);  (undirected_key 10 11, 20);
    (undirected_key 10 14, 30); (undirected_key 11 12, 45);
    (undirected_key 12 14, 25); (undirected_key 13 14, 15);
    (undirected_key 8 11, 20) ].

Definition default_bw : Z := 10.

(** [self.link_bw.get(undirected_key(u, v), self.default_bw)] *)
Definition link_bw_get (u v : Z) : Z :=
  default default_bw (od_get link_bw_table (undirected_key u v)).

(** Priorities written in the flow-mods. *)
Definition PRIO_LLDP : Z := 500.
Definition PRIO_TABLE_MISS : Z := 0.
Definition PRIO_DEST : Z := 100.

(** ** Controller state *)

(** One entry of [port_stats[dpid][port_no]]. *)
Record PortSample := mkPortSample {
  rx_packets : Z; tx_packets : Z;
  rx_bytes : Z;   tx_bytes : Z;
  rx_dropped : Z; tx_dropped : Z;
  rx_errors : Z;  tx_errors : Z;
  timestamp : Q
}.

(** The fields of [ProactiveRouting] read or written by the routing and
    statistics code ([port_speed] and [flow_stats] are never read by it). *)
Record State := mkState {
  mode : string;
  G : Graph;
  adj : list ((Z * Z) * Z);
  datapaths : list Z;
  sw_all_ports : gmap Z (gset Z);
  sw_link_ports : gmap Z (gset Z);
  host_port : gmap Z Z;
  port_stats : gmap Z (gmap Z PortSample);
  port_stats_prev : gmap Z (gmap Z PortSample);
  stats_timestamp : gmap Z Q
}.

(** [ProactiveRouting.__init__] *)
Definition init_state : State :=
  {| mode := "hops"; G := nx.empty; adj := []; datapaths := [];
     sw_all_ports := ∅; sw_link_ports := ∅; host_port := ∅;
     port_stats := ∅; port_stats_prev := ∅; stats_timestamp := ∅ |}.

(** What [topo_api.get_all_switch] and [topo_api.get_all_link] return. *)
Record Link := mkLink {
  src_dpid : Z; src_port_no : Z; dst_dpid : Z; dst_port_no : Z
}.
Record Topology := mkTopology { switches : list Z; links : list Link }.

(** Field updates ([self.x = ...]). *)
Definition set_mode_field (st : State) (m : string) : State :=
  {| mode := m; G := G st; adj := adj st; datapaths := datapaths st;
     sw_all_ports := sw_all_ports st; sw_link_ports := sw_link_ports st;
     host_port := host_port st; port_stats := port_stats st;
     port_stats_prev := port_stats_prev st;
     stats_timestamp := stats_timestamp st |}.

Definition set_graph (st : State) (g : Graph) (a : list ((Z * Z) * Z))
    (lp : gmap Z (gset Z)) : State :=
  {| mode := mode st; G := g; adj := a; datapaths := datapaths st;
     sw_all_ports := sw_all_ports st; sw_link_ports := lp;
     host_port := host_port st; port_stats := port_stats st;
     port_stats_prev := port_stats_prev st;
     stats_timestamp := stats_timestamp st |}.

Definition set_host_port (st : State) (hp : gmap Z Z) : State :=
  {| mode := mode st; G := G st; adj := adj st; datapaths := datapaths st;
     sw_all_ports := sw_all_ports st; sw_link_ports := sw_link_ports st;
     host_port := hp; port_stats := port_stats st;
     port_stats_prev := port_stats_prev st;
     stats_timestamp := stats_timestamp st |}.

Definition set_all_ports (st : State) (ap : gmap Z (gset Z)) : State :=
  {| mode := mode st; G := G st; adj := adj st; datapaths := datapaths st;
     sw_all_ports := ap; sw_link_ports := sw_link_ports st;
     host_port := host_port st; port_stats := port_stats st;
     port_stats_prev := port_stats_prev st;
     stats_timestamp := stats_timestamp st |}.

Definition set_stats (st : State) (ps pp : gmap Z (gmap Z PortSample))
    (ts : gmap Z Q) : State :=
  {| mode := mode st; G := G st; adj := adj st; datapaths := datapaths st;
     sw_all_ports := sw_all_ports st; sw_link_ports := sw_link_ports st;
     host_port := host_port st; port_stats := ps;
     port_stats_prev := pp; stats_timestamp := ts |}.

(** ** Graph construction ([_build_graph]) *)

(** [self.sw_link_ports[u].add(p)] on a [defaultdict(set)] *)
Definition add_port (m : gmap Z (gset Z)) (u p : Z) : gmap Z (gset Z) :=
  <[u := default ∅ (m !! u) ∪ {[p]}]> m.

(** [1.0 / bw if self.mode == 'distrak' else 1.0] *)
Definition edge_weight (md : string) (bw : Z) : Q :=
  if decide (md = "distrak") then (1 / inject_Z bw)%Q else 1%Q.

(** Body of [for lk in links]. *)
Definition add_link (md : string)
    (acc : Graph * list ((Z * Z) * Z) * gmap Z (gset Z)) (lk : Link)
  : Graph * list ((Z * Z) * Z) * gmap Z (gset Z) :=
  let '(g, a, lp) := acc in
  let u := src_dpid lk in
  let v := dst_dpid lk in
  let a := od_set a (u, v) (src_port_no lk) in
  let a := od_set a (v, u) (dst_port_no lk) in
  let lp := add_port lp u (src_port_no lk) in
  let lp := add_port lp v (dst_port_no lk) in
  let bw := link_bw_get u v in
  let weight := edge_weight md bw in
  (nx.add_edge g u v (mkEdgeData bw weight), a, lp).

(** The graph, the directional port map and the link-port sets built from
    scratch by [_build_graph]. *)
Definition build_tables (md : string) (topo : Topology)
  : Graph * list ((Z * Z) * Z) * gmap Z (gset Z) :=
  (* self.G.clear(); self.adj.clear(); self.sw_link_ports.clear() *)
  let g := foldl nx.add_node nx.empty (switches topo) in
  foldl (add_link md) (g, [], ∅) (links topo).

Definition _build_graph (topo : Topology) (st : State) : State * Trace :=
  let '(g, a, lp) := build_tables (mode st) topo in
  (set_graph st g a lp,
   [Log (InfoGraphReady (nx.number_of_nodes g) (nx.number_of_edges g) (mode st))]).

(** ** Host-port deduction ([_deduce_host_ports]) *)

(** [min(cand)]; the value on the empty set is never used. *)
Definition set_min (s : gset Z) : Z :=
  match elements s with
  | [] => 0
  | x :: l => foldr Z.min x l
  end.

(** [next(iter(cand))]; the value on the empty set is never used. *)
Definition next_iter (s : gset Z) : Z := default 0 (head (elements s)).

(** Body of [for dpid in self.G.nodes]: the chosen port and the warning. *)
Definition deduce_host_port (dpid : Z) (allp linkp : gset Z) : Z * Trace :=
  let cand := allp ∖ linkp in
  if decide (size cand = 1%nat) then (next_iter cand, [])
  else if decide (1 < size cand)%nat then
    let hp := set_min cand in
    (hp, [Log (WarnMultipleCandidates dpid cand hp)])
  else (1, [Log (WarnNoCandidate dpid)]).

Fixpoint deduce_loop (allm linkm : gmap Z (gset Z)) (ns : list Z)
    (hpm : gmap Z Z) : gmap Z Z * Trace :=
  match ns with
  | [] => (hpm, [])
  | dpid :: r =>
      let allp := default ∅ (allm !! dpid) in
      let linkp := default ∅ (linkm !! dpid) in
      let '(hp, warn) := deduce_host_port dpid allp linkp in
      let '(hpm', tr) := deduce_loop allm linkm r (<[dpid := hp]> hpm) in
      (hpm', warn ++ Log (InfoHostPort dpid hp) :: tr)
  end.

Definition _deduce_host_ports (st : State) : State * Trace :=
  (* self.host_port.clear() *)
  let '(hpm, tr) :=
    deduce_loop (sw_all_ports st) (sw_link_ports st) (nx.nodes (G st)) ∅ in
  (set_host_port st hpm, tr).

(** ** Flow wipe and base rules ([_clear_all_flows], [_install_base_rules]) *)

Definition match_lldp : Match := mkMatch (Some 0x88cc) None None.
Definition match_any : Match := mkMatch None None None.

Definition _install_base_rules (dpid : Z) : Trace :=
  [ Send dpid (FlowAdd PRIO_LLDP match_lldp [ApplyActions [ActionController]]);
    Send dpid (FlowAdd PRIO_TABLE_MISS match_any []) ].

Definition _clear_all_flows (st : State) : Trace :=
  flat_map (λ dpid, Send dpid FlowDelete :: _install_base_rules dpid)
           (datapaths st).

(** ** Route installation *)

Definition match_ip (dst_ip : string) : Match :=
  mkMatch (Some 0x0800) (Some dst_ip) None.
Definition match_arp (dst_ip : string) : Match :=
  mkMatch (Some 0x0806) None (Some dst_ip).

(** The two flow-mods sent for one (switch, destination) pair. *)
Definition dest_rules (u : Z) (dst_ip : string) (out_port : Z) : Trace :=
  let inst := [ApplyActions [ActionOutput out_port]] in
  [ Send u (FlowAdd PRIO_DEST (match_ip dst_ip) inst);
    Send u (FlowAdd PRIO_DEST (match_arp dst_ip) inst) ].

Section Controller.
(** [nx.shortest_path(G, source=u, target=d, weight='weight')];
    [None] is the exception [NetworkXNoPath]. *)
Variable shortest_path : Graph → Z → Z → option (list Z).

(** "Determinar puerto de salida en u": the output port, or [None] when
    the iteration is abandoned by [continue], and the warning logged. *)
Definition egress_port (st : State) (dst_sw : Z) (dst_ip : string) (u : Z)
  : option Z * Trace :=
  if decide (u = dst_sw) then
    (Some (default 1 (host_port st !! dst_sw)), [])
  else
    match shortest_path (G st) u dst_sw with
    | None => (None, [Log (WarnNoRoute u dst_sw dst_ip)])
    | Some path =>
        match path with
        | _ :: v :: _ =>
            match od_get (adj st) (u, v) with
            | None => (None, [Log (WarnUnknownPort u v dst_ip)])
            | Some out_port => (Some out_port, [])
            end
        | _ => (None, [])          (* len(path) < 2 *)
        end
    end.

(** Body of [for u in self.G.nodes]. *)
Definition install_at (st : State) (dst_sw : Z) (dst_ip : string) (u : Z)
  : Trace :=
  match egress_port st dst_sw dst_ip u with
  | (None, tr) => tr
  | (Some out_port, tr) =>
      tr ++ (if bool_decide (u ∈ datapaths st)
             then dest_rules u dst_ip out_port
             else [])                 (* if not dp: continue *)
  end.

Definition _install_tree_to_destination (st : State) (dst_sw : Z)
    (dst_ip : string) : Trace :=
  flat_map (install_at st dst_sw dst_ip) (nx.nodes (G st)).

(** Body of [for j in range(1, NUM_HOSTS + 1)]. *)
Definition install_destination (st : State) (j : Z) : Trace :=
  let dst_ip := ip_of j in
  let dst_sw := j in
  if nx.has_node (G st) dst_sw
  then _install_tree_to_destination st dst_sw dst_ip
  else [Log (WarnDestinationNotInGraph dst_sw dst_ip)].

Definition _install_all_destinations (st : State) : Trace :=
  flat_map (install_destination st) (seqZ 1 NUM_HOSTS)
  ++ [Log InfoInstalled].

(** ** The rebuild cycle ([_rebuild_graph_and_push]) *)

Definition _rebuild_graph_and_push (topo : Topology) (st : State)
  : State * Trace :=
  let '(st1, tr1) := _build_graph topo st in
  if decide (nx.number_of_nodes (G st1) = 0) then
    (st1, tr1 ++ [Log WarnEmptyGraph])
  else
    let '(st2, tr2) := _deduce_host_ports st1 in
    let tr3 := _clear_all_flows st2 in
    let tr4 := _install_all_destinations st2 in
    (st2, tr1 ++ tr2 ++ tr3 ++ tr4).

(** ** Public methods *)

(** [ProactiveRouting.set_mode]; [None] is the [AssertionError]. *)
Definition set_mode (new_mode : string) (topo : Topology) (st : State)
  : option (State * Trace) :=
  if bool_decide (new_mode ∈ ["hops"; "distrak"]) then
    if decide (new_mode ≠ mode st) then
      let st' := set_mode_field st new_mode in
      let '(st'', tr) := _rebuild_graph_and_push topo st' in
      Some (st'', Log (InfoModeChanged new_mode) :: tr)
    else Some (st, [])
  else None.

(** [ProactiveRouting.reinstall] *)
Definition reinstall (topo : Topology) (st : State) : State * Trace :=
  _rebuild_graph_and_push topo st.

(** [_port_desc_reply]: [ports] are the reported port numbers below
    [OFPP_MAX]. *)
Definition _port_desc_reply (dpid : Z) (ports : gset Z) (topo : Topology)
    (st : State) : State * Trace :=
  _rebuild_graph_and_push topo
    (set_all_ports st (<[dpid := ports]> (sw_all_ports st))).
End Controller.

(** ** Statistics engine *)

(** One element of [ev.msg.body] in a port-stats reply. *)
Record OFPPortStats := mkOFPPortStats {
  ps_port_no : Z;
  ps_rx_packets : Z; ps_tx_packets : Z;
  ps_rx_bytes : Z;   ps_tx_bytes : Z;
  ps_rx_dropped : Z; ps_tx_dropped : Z;
  ps_rx_errors : Z;  ps_tx_errors : Z
}.

(** Body of [for stat in body]: the current and previous tables of one
    switch. *)
Definition record_stat (now : Q)
    (acc : gmap Z PortSample * gmap Z PortSample) (stat : OFPPortStats)
  : gmap Z PortSample * gmap Z PortSample :=
  let '(cur, prev) := acc in
  let port_no := ps_port_no stat in
  let prev :=
    match cur !! port_no with
    | Some old => <[port_no := old]> prev
    | None => prev
    end in
  let sample :=
    {| rx_packets := ps_rx_packets stat; tx_packets := ps_tx_packets stat;
       rx_bytes := ps_rx_bytes stat;     tx_bytes := ps_tx_bytes stat;
       rx_dropped := ps_rx_dropped stat; tx_dropped := ps_tx_dropped stat;
       rx_errors := ps_rx_errors stat;   tx_errors := ps_tx_errors stat;
       timestamp := now |} in
  (<[port_no := sample]> cur, prev).

(** [_port_stats_reply]; [now] is the value of [time.time()].  The two
    tables get their entry for [dpid] together, so the previous table has
    one whenever the current table has. *)
Definition _port_stats_reply (dpid : Z) (now : Q) (body : list OFPPortStats)
    (st : State) : State :=
  let '(cur0, prev0) :=
    match port_stats st !! dpid with
    | None => (∅, ∅)
    | Some cur => (cur, default ∅ (port_stats_prev st !! dpid))
    end in
  let '(cur, prev) := foldl (record_stat now) (cur0, prev0) body in
  set_stats st (<[dpid := cur]> (port_stats st))
               (<[dpid := prev]> (port_stats_prev st))
               (<[dpid := now]> (stats_timestamp st)).

(** [d.get(key, 0)] on a sample dict that may be the empty dict [{}]. *)
Definition get_Z (f : PortSample → Z) (d : option PortSample) : Z :=
  match d with Some s => f s | None => 0 end.
Definition get_Q (f : PortSample → Q) (d : option PortSample) : Q :=
  match d with Some s => f s | None => 0%Q end.

(** The integer nearest to [q]; [up] is the side taken when [q] is exactly
    halfway between two integers. *)
Definition round_nearest (up : bool) (q : Q) : Z :=
  let f := Qfloor q in
  match (q - inject_Z f ?= 1 # 2)%Q with
  | Lt => f
  | Gt => f + 1
  | Eq => if up then f + 1 else f
  end.

(** [round(x, 2)] on a float: the hundredth nearest to [x].  Python rounds
    the binary double, which is hardly ever halfway between two hundredths
    even when the rational it stands for is: [round(0.005, 2)] is [0.01],
    [round(3/4000*100, 2)] is [0.07].  With floats idealised as rationals
    the side taken at such a value is not determined by the rational, so it
    is read from [tie_up], asked with the value as it was computed. *)
Definition round2 (tie_up : Q → bool) (q : Q) : Q :=
  Qred (inject_Z (round_nearest (tie_up q) (q * 100)) / 100).

(** [r] is a hundredth nearest to [x]: what "x rounded to two decimals"
    means whichever side is taken at a tie. *)
Definition nearest_hundredth (x r : Q) : Prop :=
  (∃ n : Z, (r == inject_Z n / 100)%Q) ∧ (Qabs (r - x) <= 1 # 200)%Q.

(** One row of the table returned by [get_link_stats]. *)
Record LinkStat := mkLinkStat {
  ls_src : Z; ls_dst : Z; ls_src_port : Z; ls_dst_port : Z;
  ls_bw_mbps : Z;
  ls_throughput_mbps : Q;
  ls_utilization : Q;
  ls_packet_loss_rate : Q;
  ls_rx_packets_u : Z; ls_tx_packets_u : Z;
  ls_rx_dropped_u : Z; ls_tx_dropped_u : Z
}.

(** The three figures computed under "Calcular throughput (Mbps)":
    [throughput_u_to_v], [throughput_v_to_u], [loss_rate]. *)
Definition link_rates (stats_u stats_v stats_u_prev stats_v_prev
    : option PortSample) : Q * Q * Q :=
  let time_diff := (get_Q timestamp stats_u - get_Q timestamp stats_u_prev)%Q in
  if Qlt_le_dec 0 time_diff then
    let bytes_u_tx := get_Z tx_bytes stats_u - get_Z tx_bytes stats_u_prev in
    let bytes_v_rx := get_Z rx_bytes stats_v - get_Z rx_bytes stats_v_prev in
    let throughput_u_to_v :=
      (inject_Z (bytes_u_tx * 8) / (time_diff * 1000000))%Q in
    let throughput_v_to_u :=
      (inject_Z (bytes_v_rx * 8) / (time_diff * 1000000))%Q in
    let packets_u_tx :=
      get_Z tx_packets stats_u - get_Z tx_packets stats_u_prev in
    let packets_v_rx :=
      get_Z rx_packets stats_v - get_Z rx_packets stats_v_prev in
    let packet_loss := Z.max 0 (packets_u_tx - packets_v_rx) in
    let loss_rate :=
      if decide (0 < packets_u_tx)
      then (inject_Z packet_loss / inject_Z packets_u_tx * 100)%Q
      else 0%Q in
    (throughput_u_to_v, throughput_v_to_u, loss_rate)
  else (0%Q, 0%Q, 0%Q).

(** Body of [for (u, v) in self.adj.keys()]; [None] is [continue]. *)
Definition link_stat (tie_up : Q → bool) (st : State) (u v : Z)
  : option LinkStat :=
  if decide (v < u) then None else
  match od_get (adj st) (u, v), od_get (adj st) (v, u) with
  | Some port_u, Some port_v =>
      if decide (port_u = 0 ∨ port_v = 0) then None else
      let stats_u := port_stats st !! u ≫= (.!! port_u) in
      let stats_v := port_stats st !! v ≫= (.!! port_v) in
      let stats_u_prev := port_stats_prev st !! u ≫= (.!! port_u) in
      let stats_v_prev := port_stats_prev st !! v ≫= (.!! port_v) in
      match stats_u, stats_v with
      | Some su, Some _ =>
          let '(throughput_u_to_v, _, loss_rate) :=
            link_rates stats_u stats_v stats_u_prev stats_v_prev in
          let bw := link_bw_get u v in
          Some {| ls_src := u; ls_dst := v;
                  ls_src_port := port_u; ls_dst_port := port_v;
                  ls_bw_mbps := bw;
                  ls_throughput_mbps := round2 tie_up throughput_u_to_v;
                  ls_utilization :=
                    if decide (0 < bw)
                    then round2 tie_up
                           (throughput_u_to_v / inject_Z bw * 100)
                    else 0%Q;
                  ls_packet_loss_rate := round2 tie_up loss_rate;
                  ls_rx_packets_u := rx_packets su;
                  ls_tx_packets_u := tx_packets su;
                  ls_rx_dropped_u := rx_dropped su;
                  ls_tx_dropped_u := tx_dropped su |}
      | _, _ => None
      end
  | _, _ => None
  end.

Definition get_link_stats (tie_up : Q → bool) (st : State) : list LinkStat :=
  omap (λ '((u, v), _), link_stat tie_up st u v) (adj st).

(** ** Strings as the REST handlers use them (ASCII) *)

Module pystr.
Definition is_digit (c : ascii) : bool :=
  let n := N_of_ascii c in ((48 <=? n) && (n <=? 57))%N.

(** Characters removed by [str.strip()]. *)
Definition is_space (c : ascii) : bool :=
  let n := N_of_ascii c in
  ((n =? 32) || ((9 <=? n) && (n <=? 13)) || ((28 <=? n) && (n <=? 31)))%N.

(** [s.isdigit()]: non-empty and made of digits. *)
Definition isdigit (s : list ascii) : bool :=
  match s with [] => false | _ => forallb is_digit s end.

Fixpoint lstrip (s : list ascii) : list ascii :=
  match s with
  | c :: r => if is_space c then lstrip r else s
  | [] => []
  end.

(** [s.strip()] *)
Definition strip (s : list ascii) : list ascii :=
  rev (lstrip (rev (lstrip s))).

Definition is_dot (c : ascii) : bool := (N_of_ascii c =? 46)%N.

(** [s.replace('.', '')] *)
Definition remove_dots (s : list ascii) : list ascii :=
  List.filter (λ c, negb (is_dot c)) s.

(** [s.count('.')] *)
Definition count_dots (s : list ascii) : Z :=
  Z.of_nat (length (List.filter is_dot s)).

(** [s.split('.')] *)
Fixpoint split_dots (s : list ascii) : list (list ascii) :=
  match s with
  | [] => [[]]
  | c :: r =>
      if is_dot c then [] :: split_dots r
      else match split_dots r with
           | p :: ps => (c :: p) :: ps
           | [] => [[c]]
           end
  end.

(** [s.startswith('s')] *)
Definition startswith_s (s : list ascii) : bool :=
  match s with c :: _ => (N_of_ascii c =? 115)%N | [] => false end.

(** [int(s)] on a string of digits; [None] is [ValueError] (empty string). *)
Definition to_int (s : list ascii) : option Z :=
  if isdigit s
  then Some (foldl (λ acc c, 10 * acc + (Z.of_N (N_of_ascii c) - 48)) 0 s)
  else None.
End pystr.

(** ** REST boundary ([RestAPI]) *)

Inductive Exn :=
| ValueError (msg : string)
| AssertionError
| BodyError.            (* json.loads or body.get raised *)

Record PathLink := mkPathLink {
  pl_u : Z; pl_v : Z;
  pl_bw : option Z; pl_weight : option Q; pl_out_port : option Z
}.

Record PathPayload := mkPathPayload {
  pp_mode : string; pp_src : Z; pp_dst : Z;
  pp_path : list Z; pp_hops : Z; pp_weight_sum : Q;
  pp_links : list PathLink; pp_dst_host_port : option Z
}.

Inductive Body :=
| ErrMode                          (* {"error":"mode must be hops|distrak"} *)
| ErrUsage                         (* {"error":"use /path?src=<...>&dst=<...>"} *)
| ErrNotInGraph (nodes : list Z)   (* {"error":"src o dst no están en el grafo", "nodes": ...} *)
| ErrNoPath                        (* {"error":"no path between src and dst"} *)
| ErrException (e : Exn)           (* {"error": str(e)} *)
| ModeSet (mode : string)
| Reinstalled
| TopologyBody (mode : string) (nodes : list Z) (links : list (Z * Z * EdgeData))
| PathBody (p : PathPayload)
| LinkStatsBody (rows : list LinkStat).

Record Response := mkResponse { status : Z; body : Body }.

(** The request body of [POST /set_mode] after [json.loads]: the value of
    [body.get('mode')], unless decoding failed. *)
Inductive ModeField :=
| ModeMissing                      (* None, or a JSON value that is not a string *)
| ModeString (s : string).
Inductive SetModeRequest :=
| BadBody
| JsonBody (m : ModeField).

(** [parse_node]: accepts ['7'], ['s7'] or ['10.0.0.7']. *)
Definition parse_node (x : string) : Exn + Z :=
  let int_of s :=
    from_option inr (inl (ValueError "invalid literal for int()"))
                (pystr.to_int s) in
  let x := pystr.strip (list_ascii_of_string x) in
  if pystr.startswith_s x && pystr.isdigit (tail x) then int_of (tail x)
  else if pystr.isdigit (pystr.remove_dots x) && (pystr.count_dots x =? 3)%Z
  then
    match pystr.split_dots x with
    | [p0; p1; p2; p3] =>
        if bool_decide (p0 = list_ascii_of_string "10"
                        ∧ p1 = list_ascii_of_string "0"
                        ∧ p2 = list_ascii_of_string "0")
        then int_of p3
        else inl (ValueError "solo IPs 10.0.0.X son validas para hosts")
    | _ => inl (ValueError "solo IPs 10.0.0.X son validas para hosts")
    end
  else if pystr.isdigit x then int_of x
  else inl (ValueError "formato de nodo no valido").

Section Rest.
Variable shortest_path : Graph → Z → Z → option (list Z).

(** [RestAPI.set_mode] *)
Definition rest_set_mode (req : SetModeRequest) (topo : Topology)
    (st : State) : Response * State * Trace :=
  match req with
  | BadBody => (mkResponse 500 (ErrException BodyError), st, [])
  | JsonBody m =>
      match m with
      | ModeString s =>
          if bool_decide (s ∈ ["hops"; "distrak"]) then
            match set_mode shortest_path s topo st with
            | Some (st', tr) =>
                (mkResponse 200 (ModeSet (mode st')), st', tr)
            | None => (mkResponse 500 (ErrException AssertionError), st, [])
            end
          else (mkResponse 400 ErrMode, st, [])
      | ModeMissing => (mkResponse 400 ErrMode, st, [])
      end
  end.

(** [RestAPI.reinstall] *)
Definition rest_reinstall (topo : Topology) (st : State)
  : Response * State * Trace :=
  let '(st', tr) := reinstall shortest_path topo st in
  (mkResponse 200 Reinstalled, st', tr).

(** [RestAPI.topology] *)
Definition rest_topology (st : State) : Response :=
  mkResponse 200 (TopologyBody (mode st) (nx.nodes (G st)) (nx.edges (G st))).

(** The loop [for i in range(len(path)-1)] of [RestAPI.path]. *)
Fixpoint path_links (st : State) (path : list Z) : list PathLink :=
  match path with
  | u :: (v :: _) as rest =>
      let data := nx.get_edge_data (G st) u v in
      {| pl_u := u; pl_v := v;
         pl_bw := e_bw <$> data; pl_weight := e_weight <$> data;
         pl_out_port := od_get (adj st) (u, v) |} :: path_links st rest
  | _ => []
  end.

Definition weight_sum (ls : list PathLink) : Q :=
  foldl (λ acc l, (acc + default 1 (pl_weight l))%Q) 0%Q ls.

(** [RestAPI.path]; the handler reads the controller and writes nothing. *)
Definition rest_path (src_param dst_param : option string) (st : State)
  : Response :=
  let missing p := match p with None | Some "" => true | _ => false end in
  if missing src_param || missing dst_param then mkResponse 400 ErrUsage
  else
    match parse_node (default "" src_param) with
    | inl e => mkResponse 500 (ErrException e)
    | inr src =>
        match parse_node (default "" dst_param) with
        | inl e => mkResponse 500 (ErrException e)
        | inr dst =>
            if negb (nx.has_node (G st) src) || negb (nx.has_node (G st) dst)
            then mkResponse 404 (ErrNotInGraph (nx.nodes (G st)))
            else
              match shortest_path (G st) src dst with
              | None => mkResponse 404 ErrNoPath
              | Some path =>
                  let ls := path_links st path in
                  mkResponse 200 (PathBody
                    {| pp_mode := mode st; pp_src := src; pp_dst := dst;
                       pp_path := path;
                       pp_hops := Z.max 0 (Z.of_nat (length path) - 1);
                       pp_weight_sum := weight_sum ls;
                       pp_links := ls;
                       pp_dst_host_port := host_port st !! dst |})
              end
        end
    end.

(** [RestAPI.stats_links] *)
Definition rest_stats_links (tie_up : Q → bool) (st : State) : Response :=
  mkResponse 200 (LinkStatsBody (get_link_stats tie_up st)).
End Rest.

(** ** Reading a trace *)

(** The messages handed to [send_msg], in order. *)
Definition sent (tr : Trace) : list (Z * FlowMod) :=
  omap (λ e, match e with Send d m => Some (d, m) | Log _ => None end) tr.

(** The lines handed to the logger, in order. *)
Definition logged (tr : Trace) : list LogLine :=
  omap (λ e, match e with Log l => Some l | Send _ _ => None end) tr.

(** A flow-mod sent to switch [u] that installs a rule matching the host
    address [ip] (as IPv4 destination or as ARP target address). *)
Definition is_rule_for (u : Z) (ip : string) (e : Event) : bool :=
  match e with
  | Send d (FlowAdd _ m _) =>
      bool_decide (d = u ∧ (ipv4_dst m = Some ip ∨ arp_tpa m = Some ip))
  | _ => false
  end.

(** The forwarding rules emitted for the pair (switch [u], destination [d]). *)
Definition rules_for (u d : Z) (tr : Trace) : Trace :=
  List.filter (is_rule_for u (ip_of d)) tr.

(** ** The switch side of the protocol boundary *)

#[global] Instance Action_eq_dec : EqDecision Action.
Proof. solve_decision. Defined.
#[global] Instance Instruction_eq_dec : EqDecision Instruction.
Proof. solve_decision. Defined.
#[global] Instance Match_eq_dec : EqDecision Match.
Proof. solve_decision. Defined.

(** An installed rule: priority, match, instructions. *)
Definition Rule : Type := Z * Match * list Instruction.

(** Effect of one flow-mod on a flow table: a wildcard delete empties it, an
    add replaces the rule of the same priority and match or appends. *)
Definition apply_flow_mod (tbl : list Rule) (m : FlowMod) : list Rule :=
  match m with
  | FlowDelete => []
  | FlowAdd p mt inst =>
      List.filter (λ '(p', mt', _), negb (bool_decide (p' = p ∧ mt' = mt))) tbl
      ++ [(p, mt, inst)]
  end.

(** The flow tables of all switches after the messages of a trace. *)
Definition flow_tables (tr : Trace) (tbls : gmap Z (list Rule))
  : gmap Z (list Rule) :=
  foldl (λ t '(d, m), <[d := apply_flow_mod (default [] (t !! d)) m]> t)
        tbls (sent tr).

(** ** A reference shortest-path routine *)

Module dijkstra.
(** Tentative entries: node, distance, reversed path from the source. *)
Definition Frontier : Type := list (Z * (Q * list Z)).

(** The entry of least distance (the earliest one among equals). *)
Fixpoint pop_min (fr : Frontier) : option (Z * (Q * list Z) * Frontier) :=
  match fr with
  | [] => None
  | e :: r =>
      match pop_min r with
      | None => Some (e, [])
      | Some (m, r') =>
          if Qle_bool (fst (snd e)) (fst (snd m))
          then Some (e, r) else Some (m, e :: r')
      end
  end.

Definition relax (d : Q) (rp : list Z) (done : list Z) (fr : Frontier)
    (nb : Z * EdgeData) : Frontier :=
  let '(v, data) := nb in
  if bool_decide (v ∈ done) then fr
  else
    let nd := Qred (d + e_weight data) in
    match od_get fr v with
    | Some (d', _) => if Qle_bool d' nd then fr else od_set fr v (nd, v :: rp)
    | None => od_set fr v (nd, v :: rp)
    end.

Fixpoint go (fuel : nat) (g : Graph) (target : Z) (fr : Frontier)
    (done : list Z) : option (list Z) :=
  match fuel with
  | O => None
  | S fuel =>
      match pop_min fr with
      | None => None
      | Some ((n, (d, rp)), fr) =>
          if decide (n = target) then Some (rev rp)
          else
            let done := n :: done in
            let fr := foldl (relax d rp done) fr (default [] (od_get g n)) in
            go fuel g target fr done
      end
  end.

Definition shortest_path (g : Graph) (source target : Z)
  : option (list Z) :=
  if nx.has_node g source && nx.has_node g target
  then go (S (length g)) g target [(source, (0%Q, [source]))] []
  else None.
End dijkstra.

(** ** Concrete topologies *)

(** A discovered link, reported once per direction as the topology service
    does. *)
Definition both_ways (u pu v pv : Z) : list Link :=
  [mkLink u pu v pv; mkLink v pv u pu].

(** s1 -- s2 -- s3, host on port 1 of each switch. *)
Definition topo_line : Topology :=
  {| switches := [1; 2; 3];
     links := both_ways 1 2 2 2 ++ both_ways 2 3 3 2 |}.

(** s1 -- s2 and an isolated s3. *)
Definition topo_split : Topology :=
  {| switches := [1; 2; 3]; links := both_ways 1 2 2 2 |}.

(** Nothing discovered yet. *)
Definition topo_none : Topology := {| switches := []; links := [] |}.

(** Three connected switches whose port descriptions have arrived. *)
Definition st_ports : State :=
  {| mode := "hops"; G := nx.empty; adj := []; datapaths := [1; 2; 3];
     sw_all_ports :=
       {[ 1 := {[1; 2]}; 2 := {[1; 2; 3]}; 3 := {[1; 2]} ]};
     sw_link_ports := ∅; host_port := ∅;
     port_stats := ∅; port_stats_prev := ∅; stats_timestamp := ∅ |}.

(** The controller after a rebuild over the line and over the split
    topology. *)
Definition st_line : State :=
  fst (_rebuild_graph_and_push dijkstra.shortest_path topo_line st_ports).
Definition st_split : State :=
  fst (_rebuild_graph_and_push dijkstra.shortest_path topo_split st_ports).

(** Counter replies of the two ends of the link s1 -- s2 (port 2 on both
    sides): only the transmit side of s1 and the receive side of s2 move. *)
Definition reply_s1 (tx_pk tx_by : Z) : list OFPPortStats :=
  [mkOFPPortStats 2 0 tx_pk 0 tx_by 0 0 0 0].
Definition reply_s2 (rx_pk rx_by : Z) : list OFPPortStats :=
  [mkOFPPortStats 2 rx_pk 0 rx_by 0 0 0 0 0].

(** The first poll after startup: one sample per endpoint. *)
Definition st_first_poll : State :=
  _port_stats_reply 2 1700000000 (reply_s2 50 75000)
    (_port_stats_reply 1 1700000000 (reply_s1 100 150000) st_line).

(** A second poll five seconds later: 1,250,000 more bytes and 1000 more
    packets sent by s1, 900 more packets received by s2. *)
Definition st_second_poll : State :=
  _port_stats_reply 2 1700000005 (reply_s2 950 1200000)
    (_port_stats_reply 1 1700000005 (reply_s1 1100 1400000) st_first_poll).

(** A second poll one second later with 1000 more bytes sent by s1. *)
Definition st_slow_poll : State :=
  _port_stats_reply 2 1700000001 (reply_s2 51 76000)
    (_port_stats_reply 1 1700000001 (reply_s1 101 151000) st_first_poll).

(** A side for ties, for the tables computed from the polls above: none of
    their figures lies halfway between two hundredths. *)
Definition ties_up : Q → bool := λ _, true.

(** The controller before anything was discovered, and after a rebuild that
    found nothing. *)
Definition st_undiscovered : State :=
  fst (_rebuild_graph_and_push dijkstra.shortest_path topo_none st_line).

(** The line topology just built, host ports not yet deduced. *)
Definition st_built : State := fst (_build_graph topo_line st_ports).

(** ** Datapath registry, handshake and polling *)

(** The dispatcher states [_state_change] is registered for. *)
Inductive Dispatcher :=
| MAIN_DISPATCHER
| CONFIG_DISPATCHER
| DEAD_DISPATCHER.

Definition set_datapaths (st : State) (dps : list Z) : State :=
  {| mode := mode st; G := G st; adj := adj st; datapaths := dps;
     sw_all_ports := sw_all_ports st; sw_link_ports := sw_link_ports st;
     host_port := host_port st; port_stats := port_stats st;
     port_stats_prev := port_stats_prev st;
     stats_timestamp := stats_timestamp st |}.

(** [_state_change]: [self.datapaths[dp.id] = dp] keeps the position of a
    key already present; [self.datapaths.pop(dp.id, None)] removes it. *)
Definition _state_change (dpid : Z) (state : Dispatcher) (st : State) : State :=
  match state with
  | MAIN_DISPATCHER | CONFIG_DISPATCHER =>
      set_datapaths st
        (if bool_decide (dpid ∈ datapaths st) then datapaths st
         else datapaths st ++ [dpid])
  | DEAD_DISPATCHER =>
      set_datapaths st
        (List.filter (λ d, negb (bool_decide (d = dpid))) (datapaths st))
  end.

(** Requests the controller sends besides flow-mods. *)
Inductive Request :=
| OFPPortDescStatsRequest
| OFPPortStatsRequest          (* port_no = OFPP_ANY *)
| OFPFlowStatsRequest.

Inductive Message :=
| MsgFlowMod (m : FlowMod)
| MsgRequest (r : Request).

(** [_switch_features]: the messages sent on the features reply. *)
Definition _switch_features (dpid : Z) : list (Z * Message) :=
  [ (dpid, MsgFlowMod (FlowAdd 500 (mkMatch (Some 0x88cc) None None)
                         [ApplyActions [ActionController]]));
    (dpid, MsgFlowMod (FlowAdd 0 (mkMatch None None None) []));
    (dpid, MsgRequest OFPPortDescStatsRequest) ].

(** [_request_stats] *)
Definition _request_stats (dpid : Z) : list (Z * Message) :=
  [ (dpid, MsgRequest OFPPortStatsRequest);
    (dpid, MsgRequest OFPFlowStatsRequest) ].

(** One pass of the [while True] of [_monitor_loop], up to [hub.sleep]. *)
Definition monitor_round (st : State) : list (Z * Message) :=
  flat_map _request_stats (datapaths st).

(** The port set computed by [_port_desc_reply] from the port numbers of
    the reply; [ofpp_max] is the constant [ofp.OFPP_MAX] of the protocol
    library. *)
Definition port_desc_ports (ofpp_max : Z) (body : list Z) : gset Z :=
  list_to_set (List.filter (λ p, bool_decide (p < ofpp_max)) body).

(** The flow-mods among the messages of a handler, as a trace. *)
Definition flow_mods (ms : list (Z * Message)) : Trace :=
  omap (λ '(d, m), match m with
                   | MsgFlowMod fm => Some (Send d fm)
                   | MsgRequest _ => None
                   end) ms.

(** ** Switch statistics ([_flow_stats_reply], [RestAPI.stats_switches]) *)

(** One element of the list stored in [flow_stats[dpid]]. *)
Record FlowEntry := mkFlowEntry {
  fe_priority : Z; fe_match : string; fe_duration_sec : Z;
  fe_packet_count : Z; fe_byte_count : Z
}.

(** [_flow_stats_reply]: the table [self.flow_stats] after the reply. *)
Definition _flow_stats_reply (dpid : Z) (body : list FlowEntry)
    (flow_stats : gmap Z (list FlowEntry)) : gmap Z (list FlowEntry) :=
  <[dpid := body]> flow_stats.

(** [sum(p.get(key, 0) for p in port_stats.values())] *)
Definition sum_ports (f : PortSample → Z) (ps : gmap Z PortSample) : Z :=
  foldr Z.add 0 (f <$> (map_to_list ps).*2).

(** One row of the table returned by [stats_switches]. *)
Record SwitchStat := mkSwitchStat {
  ss_dpid : Z; ss_flow_count : Z;
  ss_total_rx_packets : Z; ss_total_tx_packets : Z;
  ss_total_rx_bytes : Z;   ss_total_tx_bytes : Z;
  ss_port_count : Z
}.

(** Body of [for dpid in self.app.datapaths.keys()]. *)
Definition switch_stat (flow_stats : gmap Z (list FlowEntry)) (st : State)
    (dpid : Z) : SwitchStat :=
  let ps := default ∅ (port_stats st !! dpid) in
  {| ss_dpid := dpid;
     ss_flow_count := Z.of_nat (length (default [] (flow_stats !! dpid)));
     ss_total_rx_packets := sum_ports rx_packets ps;
     ss_total_tx_packets := sum_ports tx_packets ps;
     ss_total_rx_bytes := sum_ports rx_bytes ps;
     ss_total_tx_bytes := sum_ports tx_bytes ps;
     ss_port_count := Z.of_nat (size ps) |}.

(** [RestAPI.stats_switches] (the rows of its 200 response). *)
Definition stats_switches (flow_stats : gmap Z (list FlowEntry)) (st : State)
  : list SwitchStat :=
  map (switch_stat flow_stats st) (datapaths st).

(** ** The management plane ([web_app.py]) *)

(** The JSON object returned by [get_stats_summary]. *)
Record Summary := mkSummary {
  total_switches : Z; total_links : Z;
  total_throughput_mbps : Q; avg_link_utilization : Q;
  total_packet_loss_rate : Q; total_packets_forwarded : Z;
  sm_links : list LinkStat; sm_switches : list SwitchStat
}.

(** [sum(f(x) for x in l)] on floats and on integers. *)
Definition sum_Q {A} (f : A → Q) (l : list A) : Q :=
  foldl (λ acc x, (acc + f x)%Q) 0%Q l.
Definition sum_Z {A} (f : A → Z) (l : list A) : Z :=
  foldl (λ acc x, acc + f x) 0 l.

(** [get_stats_summary]: the arguments are the decoded answers of the
    controller to [/stats/links] and [/stats/switches], [None] when the
    request raised [RequestException]; the result is [None] for the 500
    answer. *)
Definition get_stats_summary (tie_up : Q → bool)
    (links_resp : option (list LinkStat))
    (switches_resp : option (list SwitchStat)) : option Summary :=
  links_data ← links_resp;
  switches_data ← switches_resp;
  let total_throughput := sum_Q ls_throughput_mbps links_data in
  let avg_utilization :=
    match links_data with
    | [] => 0%Q
    | _ => (sum_Q ls_utilization links_data
            / inject_Z (Z.of_nat (length links_data)))%Q
    end in
  let total_packet_loss := sum_Q ls_packet_loss_rate links_data in
  let total_packets := sum_Z ss_total_tx_packets switches_data in
  Some {| total_switches := Z.of_nat (length switches_data);
          total_links := Z.of_nat (length links_data);
          total_throughput_mbps := round2 tie_up total_throughput;
          avg_link_utilization := round2 tie_up avg_utilization;
          total_packet_loss_rate := round2 tie_up total_packet_loss;
          total_packets_forwarded := total_packets;
          sm_links := links_data; sm_switches := switches_data |}.

(** ** The emulated topology ([topo_nsfnet.py]) *)

(** [backbone]: (a, b, bw_Mbps, delay). *)
Definition backbone : list (Z * Z * Z * string) :=
  [ (1, 2, 50, "8ms");   (1, 5, 30, "10ms");  (2, 3, 20, "12ms");
    (2, 6, 40, "10ms");  (3, 4, 25, "8ms");   (3, 7, 35, "10ms");
    (4, 8, 45, "7ms");   (5, 6, 10, "9ms");   (5, 9, 20, "11ms");
    (6, 7, 50, "6ms");   (6, 10, 8, "10ms");  (7, 11, 40, "9ms");
    (8, 12, 30, "8ms");  (9, 10, 40, "7ms");  (9, 13, 35, "12ms");
    (10, 11, 20, "6ms"); (10, 14, 30, "10ms"); (11, 12, 45, "8ms");
    (12, 14, 25, "9ms"); (13, 14, 15, "11ms"); (8, 11, 20, "7ms") ].

(** The switch numbers of [for i in range(1, 15)]. *)
Definition topo_switches : list Z := seqZ 1 14.

(** A port-description reply of a switch with ports 1..3 and the reserved
    local port. *)
Definition desc_body : list Z := [1; 2; 3; 0xfffffffe].

(** * Properties *)

(** ** Ordered dictionaries and the graph *)

Section odict_facts.
Context {K V : Type} `{EqDecision K}.
Implicit Types (d : list (K * V)) (k : K) (v : V).

Lemma od_get_None d k : od_get d k = None ↔ k ∉ od_keys d.
Proof.
  induction d as [|[k' v'] d IH]; cbn [od_get od_keys map fst].
  - split; [intros _; apply not_elem_of_nil | done].
  - rewrite not_elem_of_cons. destruct (decide (k = k')) as [->|Hne].
    + split; [done | intros [? _]; done].
    + rewrite IH. split; [by split | by intros [_ ?]].
Qed.

Lemma od_mem_true d k : od_mem d k = true ↔ k ∈ od_keys d.
Proof.
  unfold od_mem. pose proof (od_get_None d k) as [H1 H2].
  destruct (od_get d k); split; try done.
  - intros _. destruct (decide (k ∈ od_keys d)) as [|Hn]; [done|].
    by specialize (H2 Hn).
  - intros Hin. by destruct H1.
Qed.

Lemma od_keys_set d k v :
  od_keys (od_set d k v)
  = if decide (k ∈ od_keys d) then od_keys d else od_keys d ++ [k].
Proof.
  induction d as [|[k' v'] d IH]; cbn [od_set od_keys map fst].
  - destruct (decide (k ∈ [])) as [Hin|_]; [by apply elem_of_nil in Hin|done].
  - destruct (decide (k = k')) as [->|Hne]; cbn [od_keys map fst].
    + by rewrite decide_True by left.
    + fold (od_keys (od_set d k v)). rewrite IH.
      destruct (decide (k ∈ od_keys d)) as [Hin|Hin].
      * by rewrite decide_True by (by right).
      * rewrite decide_False; [done|].
        rewrite elem_of_cons. by intros [?|?].
Qed.

Lemma od_set_NoDup d k v : NoDup (od_keys d) → NoDup (od_keys (od_set d k v)).
Proof.
  intros Hnd. rewrite od_keys_set. case_decide; [done|].
  apply NoDup_app. split_and!; [done| |apply NoDup_singleton].
  intros x Hx ->%list_elem_of_singleton. done.
Qed.

Lemma od_set_not_nil d k v : od_set d k v ≠ [].
Proof. destruct d as [|[k' v'] d]; simpl; [done|]. by case_decide. Qed.
End odict_facts.

Lemma add_node_NoDup g n : NoDup (nx.nodes g) → NoDup (nx.nodes (nx.add_node g n)).
Proof.
  intros Hnd. unfold nx.add_node, nx.has_node.
  destruct (od_mem g n) eqn:Hm; [done|].
  unfold nx.nodes, od_keys. rewrite map_app. simpl.
  apply NoDup_app. split_and!; [done| |apply NoDup_singleton].
  intros x Hx ->%list_elem_of_singleton.
  apply od_mem_true in Hx. congruence.
Qed.

Lemma add_edge_NoDup g u v d :
  NoDup (nx.nodes g) → NoDup (nx.nodes (nx.add_edge g u v d)).
Proof.
  intros Hnd. unfold nx.add_edge, nx.set_nbr.
  by do 2 apply od_set_NoDup; do 2 apply add_node_NoDup.
Qed.

Lemma add_edge_not_nil g u v d : nx.add_edge g u v d ≠ [].
Proof. unfold nx.add_edge, nx.set_nbr. apply od_set_not_nil. Qed.

Lemma foldl_add_node_NoDup l g :
  NoDup (nx.nodes g) → NoDup (nx.nodes (foldl nx.add_node g l)).
Proof.
  revert g. induction l as [|n l IH]; intros g Hg; simpl; [done|].
  by apply IH, add_node_NoDup.
Qed.

Lemma foldl_add_link_NoDup md l acc :
  NoDup (nx.nodes acc.1.1) → NoDup (nx.nodes (foldl (add_link md) acc l).1.1).
Proof.
  revert acc. induction l as [|lk l IH]; intros [[g a] lp] Hg; simpl; [done|].
  apply IH. simpl. by apply add_edge_NoDup.
Qed.

Lemma foldl_add_link_keeps md l acc :
  acc.1.1 ≠ [] → (foldl (add_link md) acc l).1.1 ≠ [].
Proof.
  revert acc. induction l as [|lk l IH]; intros [[g a] lp] Hg; simpl; [done|].
  apply IH. simpl. apply add_edge_not_nil.
Qed.

(** Every graph the controller builds has its nodes listed once. *)
Lemma build_tables_NoDup md topo : NoDup (nx.nodes (build_tables md topo).1.1).
Proof.
  unfold build_tables. apply foldl_add_link_NoDup. simpl.
  apply foldl_add_node_NoDup. constructor.
Qed.

(** A graph built without nodes comes from a snapshot without links, so the
    port map and the link-port sets stay as cleared. *)
Lemma build_tables_empty md topo :
  (build_tables md topo).1.1 = [] → build_tables md topo = ([], [], ∅).
Proof.
  unfold build_tables. destruct (links topo) as [|lk l]; simpl.
  - by intros ->.
  - intros H0. exfalso. revert H0. apply foldl_add_link_keeps.
    simpl. apply add_edge_not_nil.
Qed.

(** ** The rebuild cycle *)

Lemma sent_app tr1 tr2 : sent (tr1 ++ tr2) = sent tr1 ++ sent tr2.
Proof. unfold sent. apply omap_app. Qed.

Lemma logged_app tr1 tr2 : logged (tr1 ++ tr2) = logged tr1 ++ logged tr2.
Proof. unfold logged. apply omap_app. Qed.

(** A trace without messages leaves every flow table as it was. *)
Lemma flow_tables_no_send tr tbls : sent tr = [] → flow_tables tr tbls = tbls.
Proof. unfold flow_tables. by intros ->. Qed.

(** The state written by [_build_graph], field by field. *)
Lemma build_graph_state topo st :
  (_build_graph topo st).1
  = set_graph st (build_tables (mode st) topo).1.1
                 (build_tables (mode st) topo).1.2
                 (build_tables (mode st) topo).2.
Proof. unfold _build_graph. by destruct (build_tables _ _) as [[g a] lp]. Qed.

Lemma build_graph_trace topo st :
  (_build_graph topo st).2
  = [Log (InfoGraphReady (nx.number_of_nodes (build_tables (mode st) topo).1.1)
                         (nx.number_of_edges (build_tables (mode st) topo).1.1)
                         (mode st))].
Proof. unfold _build_graph. by destruct (build_tables _ _) as [[g a] lp]. Qed.

Lemma number_of_nodes_0 g : nx.number_of_nodes g = 0 → g = [].
Proof. unfold nx.number_of_nodes. destruct g; [done|simpl; lia]. Qed.

(** What a rebuild that finds no node returns. *)
Lemma rebuild_empty sp topo st :
  nx.number_of_nodes (G (_build_graph topo st).1) = 0 →
  _rebuild_graph_and_push sp topo st
  = (set_graph st [] [] ∅,
     [Log (InfoGraphReady 0 0 (mode st)); Log WarnEmptyGraph]).
Proof.
  intros H0. unfold _rebuild_graph_and_push.
  pose proof (build_graph_state topo st) as Hst.
  pose proof (build_graph_trace topo st) as Htr.
  destruct (_build_graph topo st) as [st1 tr1]. simpl in *. subst st1 tr1.
  simpl in H0. apply number_of_nodes_0 in H0.
  rewrite (build_tables_empty _ _ H0). reflexivity.
Qed.

(** C7. When the rebuilt graph has no node, the cycle logs the empty-graph
    warning and stops before host-port deduction: nothing is sent to any
    switch (no flow delete, no base rule, no destination rule), the host-port
    table is not touched, and every switch keeps the flow table it had. *)
Theorem rebuild_on_empty_graph_sends_nothing
    (sp : Graph → Z → Z → option (list Z)) (topo : Topology) (st : State) :
  nx.number_of_nodes (G (_build_graph topo st).1) = 0 →
  let st' := (_rebuild_graph_and_push sp topo st).1 in
  let tr := (_rebuild_graph_and_push sp topo st).2 in
  logged tr = [InfoGraphReady 0 0 (mode st); WarnEmptyGraph]
  ∧ sent tr = []
  ∧ host_port st' = host_port st
  ∧ ∀ tbls, flow_tables tr tbls = tbls.
Proof.
  intros H0. cbv zeta. rewrite (rebuild_empty sp topo st H0).
  split_and!; [done | done | done |].
  intros tbls. by apply flow_tables_no_send.
Qed.

Lemma rebuild_on_empty_graph_sends_nothing_witness :
  nx.number_of_nodes (G (_build_graph topo_none st_line).1) = 0
  ∧ sent (_rebuild_graph_and_push dijkstra.shortest_path topo_none st_line).2
    = []
  ∧ host_port (_rebuild_graph_and_push dijkstra.shortest_path topo_none
                                       st_line).1
    = host_port st_line.
Proof.
  split; [reflexivity|].
  pose proof (rebuild_on_empty_graph_sends_nothing
                dijkstra.shortest_path topo_none st_line eq_refl) as H.
  cbv zeta in H. destruct H as (_ & Hs & Hh & _). by split.
Defined.

Lemma parse_node_not_empty x a : parse_node x = inr a → x ≠ "".
Proof. intros H ->. vm_compute in H. discriminate. Qed.

(** C10. Even when the cycle aborts on an empty graph, [_build_graph] has
    already cleared the graph, the directional port map and the link-port
    sets: the topology query lists no node and no link, a path query finds
    neither endpoint, the link statistics are empty, and the switches keep
    the rules installed before. *)
Theorem aborted_rebuild_leaves_cleared_tables
    (sp : Graph → Z → Z → option (list Z)) (topo : Topology) (st : State) :
  nx.number_of_nodes (G (_build_graph topo st).1) = 0 →
  let st' := (_rebuild_graph_and_push sp topo st).1 in
  let tr := (_rebuild_graph_and_push sp topo st).2 in
  G st' = nx.empty ∧ adj st' = [] ∧ sw_link_ports st' = ∅
  ∧ rest_topology st' = mkResponse 200 (TopologyBody (mode st) [] [])
  ∧ (∀ src dst a b,
        parse_node src = inr a → parse_node dst = inr b →
        rest_path sp (Some src) (Some dst) st'
        = mkResponse 404 (ErrNotInGraph []))
  ∧ (∀ src dst, status (rest_path sp src dst st') ≠ 200)
  ∧ (∀ tie, get_link_stats tie st' = [])
  ∧ ∀ tbls, flow_tables tr tbls = tbls.
Proof.
  intros H0. cbv zeta. rewrite (rebuild_empty sp topo st H0).
  split_and!; [done | done | done | done | | | done |].
  - intros src dst a b Ha Hb. unfold rest_path.
    pose proof (parse_node_not_empty _ _ Ha).
    pose proof (parse_node_not_empty _ _ Hb).
    destruct src; [done|]. destruct dst; [done|]. simpl.
    by rewrite Ha, Hb.
  - intros src dst. unfold rest_path.
    destruct (_ || _); [done|].
    destruct (parse_node _); [done|]. by destruct (parse_node _).
  - intros tbls. by apply flow_tables_no_send.
Qed.

Lemma aborted_rebuild_leaves_cleared_tables_witness :
  nx.number_of_nodes (G (_build_graph topo_none st_line).1) = 0
  ∧ G st_undiscovered = nx.empty ∧ adj st_undiscovered = []
  ∧ (∀ tie, get_link_stats tie st_undiscovered = [])
  ∧ rest_path dijkstra.shortest_path (Some "s1") (Some "10.0.0.2")
              st_undiscovered
    = mkResponse 404 (ErrNotInGraph []).
Proof.
  split; [reflexivity|].
  pose proof (aborted_rebuild_leaves_cleared_tables
                dijkstra.shortest_path topo_none st_line eq_refl) as H.
  cbv zeta in H. destruct H as (Hg & Ha & _ & _ & Hp & _ & Hl & _).
  split_and!; [exact Hg | exact Ha | exact Hl |].
  exact (Hp "s1" "10.0.0.2" 1 2 eq_refl eq_refl).
Defined.

(** C9. Two consecutive reinstalls over the same snapshot, port sets and
    mode emit the same messages in the same order (hence the same multiset
    of rules), and the second one leaves the controller as the first did. *)
Theorem reinstall_twice_same_rules
    (sp : Graph → Z → Z → option (list Z)) (topo : Topology) (st : State) :
  let r1 := reinstall sp topo st in
  let r2 := reinstall sp topo r1.1 in
  sent r2.2 = sent r1.2 ∧ sent r2.2 ≡ₚ sent r1.2 ∧ r2.1 = r1.1.
Proof.
  cbv zeta. unfold reinstall.
  assert (_rebuild_graph_and_push sp topo
            (_rebuild_graph_and_push sp topo st).1
          = _rebuild_graph_and_push sp topo st) as Heq.
  { unfold _rebuild_graph_and_push, _build_graph.
    destruct (build_tables (mode st) topo) as [[g a] lp] eqn:Hb.
    cbn [G set_graph].
    destruct (decide (nx.number_of_nodes g = 0)) as [Hz|Hz].
    - cbn [fst mode set_graph]. rewrite Hb. cbn [G set_graph].
      rewrite decide_True by done. by destruct st.
    - unfold _deduce_host_ports.
      cbn [G set_graph sw_all_ports sw_link_ports].
      destruct (deduce_loop (sw_all_ports st) lp (nx.nodes g) ∅)
        as [hpm tr2] eqn:Hd.
      cbn [fst mode set_graph set_host_port]. rewrite Hb.
      cbn [G set_graph set_host_port sw_all_ports sw_link_ports].
      rewrite decide_False by done. rewrite Hd. by destruct st. }
  rewrite Heq. by split_and!.
Qed.

(** ** Host-port deduction *)

Lemma foldr_min_spec (x : Z) (l : list Z) :
  foldr Z.min x l ∈ x :: l ∧ ∀ y, y ∈ x :: l → foldr Z.min x l ≤ y.
Proof.
  induction l as [|a l [IHin IHle]]; simpl.
  - split; [left|]. intros y ->%list_elem_of_singleton. lia.
  - split.
    + destruct (Z.min_spec a (foldr Z.min x l)) as [[_ ->]|[_ ->]].
      * right; left.
      * apply elem_of_cons in IHin as [->|?]; [left|by do 2 right].
    + intros y Hy. apply elem_of_cons in Hy as [->|Hy].
      * specialize (IHle x ltac:(left)). lia.
      * apply elem_of_cons in Hy as [->|Hy]; [lia|].
        specialize (IHle y ltac:(by right)). lia.
Qed.

Lemma set_min_spec (s : gset Z) :
  s ≠ ∅ → set_min s ∈ s ∧ ∀ y, y ∈ s → set_min s ≤ y.
Proof.
  intros Hne. unfold set_min.
  destruct (elements s) as [|x l] eqn:He.
  - by apply elements_empty_inv, leibniz_equiv in He.
  - destruct (foldr_min_spec x l) as [Hin Hle]. rewrite <- He in Hin, Hle.
    split; [by apply elem_of_elements in Hin|].
    intros y Hy. by apply Hle, elem_of_elements.
Qed.

Lemma next_iter_singleton (p : Z) : next_iter {[p]} = p.
Proof. unfold next_iter. by rewrite elements_singleton. Qed.

(** The only lines [deduce_host_port] logs for a switch carry its id. *)
Lemma deduce_host_port_lines dpid allp linkp e :
  e ∈ (deduce_host_port dpid allp linkp).2 →
  e = Log (WarnNoCandidate dpid)
  ∨ ∃ c h, e = Log (WarnMultipleCandidates dpid c h).
Proof.
  unfold deduce_host_port. repeat case_decide; simpl.
  - by intros ?%elem_of_nil.
  - intros ->%list_elem_of_singleton. right. eauto.
  - intros ->%list_elem_of_singleton. by left.
Qed.

Section deduce_loop_facts.
Variables allm linkm : gmap Z (gset Z).

Let deduced (dpid : Z) : Z * Trace :=
  deduce_host_port dpid (default ∅ (allm !! dpid))
                        (default ∅ (linkm !! dpid)).

Lemma deduce_loop_lookup ns hpm dpid :
  (deduce_loop allm linkm ns hpm).1 !! dpid
  = if decide (dpid ∈ ns) then Some (deduced dpid).1 else hpm !! dpid.
Proof.
  revert hpm. induction ns as [|n ns IH]; intros hpm; cbn [deduce_loop fst].
  - by rewrite decide_False by apply not_elem_of_nil.
  - destruct (deduce_host_port n _ _) as [hp warn] eqn:Hn.
    specialize (IH (<[n:=hp]> hpm)).
    destruct (deduce_loop allm linkm ns (<[n:=hp]> hpm)) as [hpm' tr].
    cbn [fst] in *. rewrite IH.
    destruct (decide (dpid ∈ ns)) as [Hin|Hin].
    + by rewrite decide_True by (by right).
    + destruct (decide (dpid = n)) as [->|Hne].
      * rewrite decide_True by left. rewrite lookup_insert_eq.
        unfold deduced. by rewrite Hn.
      * rewrite lookup_insert_ne by done.
        rewrite decide_False; [done|].
        rewrite elem_of_cons. by intros [?|?].
Qed.

Lemma deduce_loop_trace ns hpm e :
  e ∈ (deduce_loop allm linkm ns hpm).2
  ↔ ∃ n, n ∈ ns ∧ (e ∈ (deduced n).2 ∨ e = Log (InfoHostPort n (deduced n).1)).
Proof.
  revert hpm. induction ns as [|n ns IH]; intros hpm; cbn [deduce_loop snd].
  - split; [by intros ?%elem_of_nil|]. by intros (n & ?%elem_of_nil & _).
  - pose proof (eq_refl : deduced n = deduced n) as Hn.
    unfold deduced at 1 in Hn.
    destruct (deduce_host_port n _ _) as [hp warn].
    specialize (IH (<[n:=hp]> hpm)).
    destruct (deduce_loop allm linkm ns (<[n:=hp]> hpm)) as [hpm' tr].
    cbn [snd] in *. rewrite elem_of_app, elem_of_cons, IH.
    split.
    + intros [Hw|[->|(m & Hm & H')]].
      * exists n. rewrite <- Hn. split; [left|by left].
      * exists n. rewrite <- Hn. split; [left|by right].
      * exists m. split; [by right|done].
    + intros (m & Hm & H'). apply elem_of_cons in Hm as [->|Hm].
      * rewrite <- Hn in H'. cbn [fst snd] in H'.
        destruct H' as [?| ->]; [by left|by right; left].
      * right; right. by exists m.
Qed.
End deduce_loop_facts.

(** C3. For a switch of the graph, with candidates = (all usable ports) −
    (link ports): a single candidate is chosen without warning; no candidate
    gives port 1 and a warning; several candidates give the numerically
    smallest one and a warning.  In particular all-ports {1,2,3} with
    link-ports {2,3} gives 1, link-ports {1,2,3} gives the fallback 1 with a
    warning, and link-ports {3} gives 1, the minimum of {1,2}. *)
Theorem host_port_deduction_policy (st : State) (dpid : Z) :
  dpid ∈ nx.nodes (G st) →
  let cand := (default ∅ (sw_all_ports st !! dpid))
              ∖ (default ∅ (sw_link_ports st !! dpid)) in
  let st' := (_deduce_host_ports st).1 in
  let tr := (_deduce_host_ports st).2 in
  (∀ p, cand = {[p]} →
        host_port st' !! dpid = Some p
        ∧ (Log (WarnNoCandidate dpid) ∉ tr)
        ∧ (∀ c h, Log (WarnMultipleCandidates dpid c h) ∉ tr))
  ∧ (cand = ∅ →
        host_port st' !! dpid = Some 1 ∧ Log (WarnNoCandidate dpid) ∈ tr)
  ∧ ((1 < size cand)%nat →
        ∃ hp, host_port st' !! dpid = Some hp
              ∧ hp ∈ cand ∧ (∀ q, q ∈ cand → hp ≤ q)
              ∧ Log (WarnMultipleCandidates dpid cand hp) ∈ tr)
  ∧ (∀ d, deduce_host_port d {[1; 2; 3]} {[2; 3]} = (1, []))
  ∧ (∀ d, deduce_host_port d {[1; 2; 3]} {[1; 2; 3]}
          = (1, [Log (WarnNoCandidate d)]))
  ∧ (∀ d, deduce_host_port d {[1; 2; 3]} {[3]}
          = (1, [Log (WarnMultipleCandidates d {[1; 2]} 1)])).
Proof.
  intros Hin cand st' tr.
  assert (host_port st' !! dpid
          = Some (deduce_host_port dpid (default ∅ (sw_all_ports st !! dpid))
                    (default ∅ (sw_link_ports st !! dpid))).1) as Hhp.
  { subst st'. unfold _deduce_host_ports.
    pose proof (deduce_loop_lookup (sw_all_ports st) (sw_link_ports st)
                  (nx.nodes (G st)) ∅ dpid) as Hl.
    destruct (deduce_loop _ _ _ _) as [hpm tr0]. simpl in *.
    by rewrite Hl, decide_True. }
  assert (∀ e, e ∈ tr ↔ ∃ n, n ∈ nx.nodes (G st)
            ∧ (e ∈ (deduce_host_port n (default ∅ (sw_all_ports st !! n))
                      (default ∅ (sw_link_ports st !! n))).2
               ∨ e = Log (InfoHostPort n
                      (deduce_host_port n (default ∅ (sw_all_ports st !! n))
                         (default ∅ (sw_link_ports st !! n))).1))) as Htr.
  { intros e. subst tr. unfold _deduce_host_ports.
    pose proof (deduce_loop_trace (sw_all_ports st) (sw_link_ports st)
                  (nx.nodes (G st)) ∅ e) as Hl.
    by destruct (deduce_loop _ _ _ _) as [hpm tr0]. }
  assert (∀ e, (e = Log (WarnNoCandidate dpid)
                ∨ ∃ c h, e = Log (WarnMultipleCandidates dpid c h)) →
               e ∈ tr →
               e ∈ (deduce_host_port dpid
                      (default ∅ (sw_all_ports st !! dpid))
                      (default ∅ (sw_link_ports st !! dpid))).2) as Hown.
  { intros e He (n & _ & [Hn|Hn])%Htr.
    - pose proof (deduce_host_port_lines _ _ _ _ Hn) as Hl.
      assert (n = dpid) as -> by
        (destruct He as [->|(?&?&->)], Hl as [?|(?&?&?)]; congruence).
      done.
    - destruct He as [->|(?&?&->)]; discriminate. }
  clearbody st' tr. revert Hhp Hown.
  unfold deduce_host_port. fold cand. intros Hhp Hown.
  split_and!.
  - intros p Hp. rewrite Hp in Hhp, Hown.
    rewrite decide_True in Hhp by apply size_singleton.
    rewrite decide_True in Hown by apply size_singleton.
    simpl in *. rewrite next_iter_singleton in Hhp. split_and!; [done|..].
    + intros H'. eapply elem_of_nil, Hown; [by left|done].
    + intros c h H'. eapply elem_of_nil, Hown; [right; eauto|done].
  - intros Hc. rewrite Hc, size_empty in Hhp. simpl in Hhp. split; [done|].
    apply Htr. exists dpid. split; [done|]. left.
    unfold deduce_host_port. fold cand. rewrite Hc, size_empty. simpl. left.
  - intros Hs. exists (set_min cand).
    rewrite decide_False in Hhp by lia. rewrite decide_True in Hhp by done.
    assert (cand ≠ ∅) as Hne by (intros Hc; rewrite Hc, size_empty in Hs; lia).
    destruct (set_min_spec cand Hne) as [Hm Hle]. split_and!; try done.
    apply Htr. exists dpid. split; [done|]. left.
    unfold deduce_host_port. fold cand.
    rewrite decide_False by lia. rewrite decide_True by done. left.
  - intros d. by vm_compute.
  - intros d. by vm_compute.
  - intros d. by vm_compute.
Qed.

Lemma host_port_deduction_policy_witness :
  2 ∈ nx.nodes (G st_built)
  ∧ host_port (_deduce_host_ports st_built).1 !! 2 = Some 1.
Proof.
  assert (2 ∈ nx.nodes (G st_built)) as Hin.
  { vm_compute. right; left. }
  split; [exact Hin|].
  pose proof (host_port_deduction_policy st_built 2 Hin) as H.
  cbv zeta in H. destruct H as (H1 & _).
  exact (proj1 (H1 1 eq_refl)).
Defined.

(** ** Route installation *)

Lemma filter_flat_map_nil {A B} (f : B → bool) (g : A → list B) (l : list A) :
  (∀ y, y ∈ l → List.filter f (g y) = []) →
  List.filter f (flat_map g l) = [].
Proof.
  induction l as [|a l IH]; intros Hf; simpl; [done|].
  rewrite List.filter_app, Hf by left. simpl.
  apply IH. intros y Hy. apply Hf. by right.
Qed.

(** In a duplicate-free iteration, what a filter keeps of the whole loop is
    what it keeps of the one iteration it is about. *)
Lemma filter_flat_map_single {A B} (f : B → bool) (g : A → list B)
    (l : list A) (x : A) :
  NoDup l → x ∈ l →
  (∀ y, y ∈ l → y ≠ x → List.filter f (g y) = []) →
  List.filter f (flat_map g l) = List.filter f (g x).
Proof.
  induction l as [|a l IH]; intros Hnd Hx Hf; [by apply elem_of_nil in Hx|].
  apply NoDup_cons in Hnd as [Ha Hnd]. simpl. rewrite List.filter_app.
  apply elem_of_cons in Hx as [->|Hx].
  - rewrite (filter_flat_map_nil f g l), app_nil_r; [done|].
    intros y Hy. apply Hf; [by right|]. by intros ->.
  - rewrite Hf, IH; [done..| |by left|by intros ->].
    intros y Hy Hne. apply Hf; [by right|done].
Qed.

Lemma ip_of_inj a b : ip_of a = ip_of b → a = b.
Proof.
  unfold ip_of. intros H. apply String.app_inj in H. by apply pretty_Z_inj in H.
Qed.

Lemma filter_dest_rules u ip u' ip' port :
  List.filter (is_rule_for u ip) (dest_rules u' ip' port)
  = if decide (u' = u ∧ ip' = ip) then dest_rules u' ip' port else [].
Proof.
  unfold dest_rules, is_rule_for, match_ip, match_arp. cbn [List.filter ipv4_dst arp_tpa].
  destruct (decide (u' = u ∧ ip' = ip)) as [[-> ->]|Hne].
  - rewrite !bool_decide_eq_true_2; [done|split; [done|by right]|split; [done|by left]].
  - rewrite !bool_decide_eq_false_2; [done|..].
    + intros [-> [?|[= ->]]]; [done|]. by apply Hne.
    + intros [-> [[= ->]|?]]; [|done]. by apply Hne.
Qed.

Section install_facts.
Variable sp : Graph → Z → Z → option (list Z).
Variable st : State.

(** [egress_port] logs, it sends nothing. *)
Lemma filter_egress_trace u ip d ip' u' :
  List.filter (is_rule_for u ip) (egress_port sp st d ip' u').2 = [].
Proof.
  unfold egress_port. case_decide; [done|].
  destruct (sp (G st) u' d) as [[|? [|v ?]]|]; try done.
  by destruct (od_get (adj st) (u', v)).
Qed.

(** The rules one iteration of [_install_tree_to_destination] sends. *)
Lemma filter_install_at u ip d ip' u' :
  List.filter (is_rule_for u ip) (install_at sp st d ip' u')
  = match (egress_port sp st d ip' u').1 with
    | Some port =>
        if bool_decide (u' ∈ datapaths st)
        then (if decide (u' = u ∧ ip' = ip)
              then dest_rules u' ip' port else [])
        else []
    | None => []
    end.
Proof.
  unfold install_at. pose proof (filter_egress_trace u ip d ip' u') as Ht.
  destruct (egress_port sp st d ip' u') as [[port|] tr]; cbn [fst snd] in *;
    [|done].
  rewrite List.filter_app, Ht. cbn [app].
  destruct (bool_decide (u' ∈ datapaths st)); [|done].
  apply filter_dest_rules.
Qed.

Lemma filter_install_at_other u ip d ip' u' :
  ¬ (u' = u ∧ ip' = ip) →
  List.filter (is_rule_for u ip) (install_at sp st d ip' u') = [].
Proof.
  intros Hne. rewrite filter_install_at.
  destruct (egress_port sp st d ip' u').1; [|done].
  destruct (bool_decide _); [|done]. by rewrite decide_False.
Qed.

(** The rules emitted for a pair are those of the pair's own iteration. *)
Lemma rules_for_install_all u d :
  NoDup (nx.nodes (G st)) →
  1 ≤ d ≤ NUM_HOSTS → d ∈ nx.nodes (G st) → u ∈ nx.nodes (G st) →
  rules_for u d (_install_all_destinations sp st)
  = rules_for u d (install_at sp st d (ip_of d) u).
Proof.
  intros Hnd Hd Hdin Huin. unfold rules_for, _install_all_destinations.
  rewrite List.filter_app. cbn [List.filter is_rule_for]. rewrite app_nil_r.
  rewrite (filter_flat_map_single _ _ _ d).
  - unfold install_destination, nx.has_node.
    apply od_mem_true in Hdin as ->.
    unfold _install_tree_to_destination.
    apply filter_flat_map_single; [done..|].
    intros u' _ Hne. apply filter_install_at_other. by intros [? _].
  - apply NoDup_seqZ.
  - apply elem_of_seqZ. unfold NUM_HOSTS in *. lia.
  - intros j _ Hne. unfold install_destination.
    destruct (nx.has_node (G st) j); [|done].
    unfold _install_tree_to_destination. apply filter_flat_map_nil.
    intros u' _. apply filter_install_at_other.
    intros [_ ?%ip_of_inj]. done.
Qed.

(** ... that is: the two rules towards the egress port if the pair has
    one and the switch has a datapath, nothing otherwise. *)
Lemma rules_for_pair u d :
  NoDup (nx.nodes (G st)) →
  1 ≤ d ≤ NUM_HOSTS → d ∈ nx.nodes (G st) → u ∈ nx.nodes (G st) →
  rules_for u d (_install_all_destinations sp st)
  = match (egress_port sp st d (ip_of d) u).1 with
    | Some port =>
        if bool_decide (u ∈ datapaths st)
        then dest_rules u (ip_of d) port else []
    | None => []
    end.
Proof.
  intros. rewrite rules_for_install_all by done.
  unfold rules_for. rewrite filter_install_at.
  destruct (egress_port sp st d (ip_of d) u).1; [|done].
  destruct (bool_decide _); [|done]. by rewrite decide_True.
Qed.
End install_facts.

(** C1. For a destination switch [d] in 1..14 and a switch [u], both nodes
    of the graph, the rules emitted for (u, d) output to: the deduced host
    port of [d] when [u = d]; otherwise, when the shortest path from [u] to
    [d] exists and the port map records a port from [u] to the path's second
    node [v], that recorded port.  The rules are the two flow-mods sent to
    [u] for 10.0.0.d (IPv4 destination and ARP target), each with the single
    action "output to that port"; they are sent when [u] has a datapath. *)
Theorem installed_rules_use_first_hop_port
    (sp : Graph → Z → Z → option (list Z)) (st : State) (d u : Z) :
  NoDup (nx.nodes (G st)) →
  1 ≤ d ≤ NUM_HOSTS → d ∈ nx.nodes (G st) → u ∈ nx.nodes (G st) →
  let tr := _install_all_destinations sp st in
  let installed port :=
    if bool_decide (u ∈ datapaths st)
    then [ Send u (FlowAdd 100 (mkMatch (Some 0x0800) (Some (ip_of d)) None)
                     [ApplyActions [ActionOutput port]]);
           Send u (FlowAdd 100 (mkMatch (Some 0x0806) None (Some (ip_of d)))
                     [ApplyActions [ActionOutput port]]) ]
    else [] in
  (u = d → ∀ hp, host_port st !! d = Some hp → rules_for u d tr = installed hp)
  ∧ (u ≠ d → ∀ path v port,
        sp (G st) u d = Some path → path !! 1%nat = Some v →
        od_get (adj st) (u, v) = Some port →
        rules_for u d tr = installed port).
Proof.
  intros Hnd Hd Hdin Huin tr installed. subst tr installed.
  rewrite rules_for_pair by done. unfold egress_port. split.
  - intros -> hp Hhp. rewrite decide_True by done. by rewrite Hhp.
  - intros Hne path v port Hp Hv Hport. rewrite decide_False by done.
    rewrite Hp. destruct path as [|? [|v' ?]]; [done..|].
    injection Hv as ->. by rewrite Hport.
Qed.

Lemma installed_rules_use_first_hop_port_witness :
  NoDup (nx.nodes (G st_line))
  ∧ 1 ≤ 3 ≤ NUM_HOSTS ∧ 3 ∈ nx.nodes (G st_line) ∧ 1 ∈ nx.nodes (G st_line)
  ∧ rules_for 1 3 (_install_all_destinations dijkstra.shortest_path st_line)
    = [ Send 1 (FlowAdd 100 (mkMatch (Some 0x0800) (Some "10.0.0.3") None)
                  [ApplyActions [ActionOutput 2]]);
        Send 1 (FlowAdd 100 (mkMatch (Some 0x0806) None (Some "10.0.0.3"))
                  [ApplyActions [ActionOutput 2]]) ].
Proof.
  assert (NoDup (nx.nodes (G st_line))) as Hnd.
  { apply (NoDup_fmap_1 Z.to_nat). vm_compute. apply (NoDup_seq 1 3). }
  assert (1 ≤ 3 ≤ NUM_HOSTS) as Hd by (unfold NUM_HOSTS; lia).
  assert (3 ∈ nx.nodes (G st_line)) as Hdin by (vm_compute; do 2 right; left).
  assert (1 ∈ nx.nodes (G st_line)) as Huin by (vm_compute; left).
  split_and!; [done..|].
  pose proof (installed_rules_use_first_hop_port
                dijkstra.shortest_path st_line 3 1 Hnd Hd Hdin Huin) as H.
  cbv zeta in H. destruct H as [_ H].
  exact (H ltac:(lia) [1; 2; 3] 2 2 eq_refl eq_refl eq_refl).
Defined.

(** C4 as stated does not hold: the destination rules are sent at priority
    100, which is not above the priority 500 of the discovery redirect. *)
Lemma dest_priority_not_above_lldp :
  ¬ (∀ (sp : Graph → Z → Z → option (list Z)) (st : State) (d u port : Z),
        NoDup (nx.nodes (G st)) →
        1 ≤ d ≤ NUM_HOSTS → d ∈ nx.nodes (G st) → u ∈ nx.nodes (G st) →
        (egress_port sp st d (ip_of d) u).1 = Some port →
        ∃ prio, PRIO_LLDP < prio ∧ PRIO_TABLE_MISS < prio
          ∧ rules_for u d (_install_all_destinations sp st)
            = [ Send u (FlowAdd prio (match_ip (ip_of d))
                          [ApplyActions [ActionOutput port]]);
                Send u (FlowAdd prio (match_arp (ip_of d))
                          [ApplyActions [ActionOutput port]]) ]).
Proof.
  intros H.
  destruct (H dijkstra.shortest_path st_line 1 1 1) as (prio & Hp & _ & Hr).
  - apply (NoDup_fmap_1 Z.to_nat). vm_compute. apply (NoDup_seq 1 3).
  - unfold NUM_HOSTS. lia.
  - vm_compute. left.
  - vm_compute. left.
  - reflexivity.
  - vm_compute in Hr. injection Hr as <- _. unfold PRIO_LLDP in Hp. lia.
Qed.

(** C4, amended. For a pair (u, d) whose egress port is determined and
    whose switch [u] has a datapath, exactly two rules are emitted: ethertype
    0x0800 with IPv4 destination 10.0.0.d and ethertype 0x0806 with ARP target
    address 10.0.0.d, each with the single action "output to that port", both
    at priority 100; without a datapath none is emitted.  Priority 100 is
    above the table-miss rule (0) and below the discovery redirect (500). *)
Theorem pair_gets_two_rules_at_priority_100
    (sp : Graph → Z → Z → option (list Z)) (st : State) (d u port : Z) :
  NoDup (nx.nodes (G st)) →
  1 ≤ d ≤ NUM_HOSTS → d ∈ nx.nodes (G st) → u ∈ nx.nodes (G st) →
  (egress_port sp st d (ip_of d) u).1 = Some port →
  let tr := _install_all_destinations sp st in
  (u ∈ datapaths st →
     rules_for u d tr
     = [ Send u (FlowAdd 100 (mkMatch (Some 0x0800) (Some (ip_of d)) None)
                   [ApplyActions [ActionOutput port]]);
         Send u (FlowAdd 100 (mkMatch (Some 0x0806) None (Some (ip_of d)))
                   [ApplyActions [ActionOutput port]]) ])
  ∧ (u ∉ datapaths st → rules_for u d tr = [])
  ∧ (∀ dp, _install_base_rules dp
           = [ Send dp (FlowAdd 500 (mkMatch (Some 0x88cc) None None)
                          [ApplyActions [ActionController]]);
               Send dp (FlowAdd 0 (mkMatch None None None) []) ])
  ∧ 0 < 100 < 500.
Proof.
  intros Hnd Hd Hdin Huin Hport tr. subst tr.
  rewrite rules_for_pair by done. rewrite Hport. split_and!; try done.
  - intros Hdp. by rewrite bool_decide_eq_true_2.
  - intros Hdp. by rewrite bool_decide_eq_false_2.
Qed.

Lemma pair_gets_two_rules_at_priority_100_witness :
  NoDup (nx.nodes (G st_line))
  ∧ (egress_port dijkstra.shortest_path st_line 1 (ip_of 1) 3).1 = Some 2
  ∧ rules_for 3 1 (_install_all_destinations dijkstra.shortest_path st_line)
    = [ Send 3 (FlowAdd 100 (mkMatch (Some 0x0800) (Some "10.0.0.1") None)
                  [ApplyActions [ActionOutput 2]]);
        Send 3 (FlowAdd 100 (mkMatch (Some 0x0806) None (Some "10.0.0.1"))
                  [ApplyActions [ActionOutput 2]]) ].
Proof.
  assert (NoDup (nx.nodes (G st_line))) as Hnd.
  { apply (NoDup_fmap_1 Z.to_nat). vm_compute. apply (NoDup_seq 1 3). }
  split_and!; [done|reflexivity|].
  pose proof (pair_gets_two_rules_at_priority_100
                dijkstra.shortest_path st_line 1 3 2 Hnd) as H.
  cbv zeta in H. destruct H as [H _].
  - unfold NUM_HOSTS. lia.
  - vm_compute. left.
  - vm_compute. do 2 right; left.
  - reflexivity.
  - apply H. vm_compute. do 2 right; left.
Defined.

Lemma Log_in_install_all sp st d u l :
  1 ≤ d ≤ NUM_HOSTS → d ∈ nx.nodes (G st) → u ∈ nx.nodes (G st) →
  Log l ∈ install_at sp st d (ip_of d) u →
  Log l ∈ _install_all_destinations sp st.
Proof.
  intros Hd Hdin Huin Hl. unfold _install_all_destinations.
  apply elem_of_app. left. apply list_elem_of_In, in_flat_map.
  exists d. split.
  - apply list_elem_of_In, elem_of_seqZ. unfold NUM_HOSTS in *. lia.
  - unfold install_destination, nx.has_node.
    apply od_mem_true in Hdin as ->. unfold _install_tree_to_destination.
    apply in_flat_map. exists u. by rewrite <- !list_elem_of_In.
Qed.

(** C8. For a pair (u, d) between which the graph has no path
    ([NetworkXNoPath]), the installer emits no rule for the pair and logs a
    warning; every other pair with an egress port and a datapath still gets
    its two rules, the IPv4 and the ARP flow-mod for its destination with the
    action "output to the egress port"; and the path query between the two
    switches answers 404 "no path". *)
Theorem no_path_pair_is_skipped
    (sp : Graph → Z → Z → option (list Z)) (st : State) (d u : Z) :
  NoDup (nx.nodes (G st)) →
  1 ≤ d ≤ NUM_HOSTS → d ∈ nx.nodes (G st) → u ∈ nx.nodes (G st) →
  u ≠ d → sp (G st) u d = None →
  let tr := _install_all_destinations sp st in
  rules_for u d tr = []
  ∧ Log (WarnNoRoute u d (ip_of d)) ∈ tr
  ∧ (∀ u' d' port,
        1 ≤ d' ≤ NUM_HOSTS → d' ∈ nx.nodes (G st) → u' ∈ nx.nodes (G st) →
        u' ∈ datapaths st →
        (egress_port sp st d' (ip_of d') u').1 = Some port →
        rules_for u' d' tr
        = [ Send u' (FlowAdd 100 (mkMatch (Some 0x0800) (Some (ip_of d')) None)
                      [ApplyActions [ActionOutput port]]);
            Send u' (FlowAdd 100 (mkMatch (Some 0x0806) None (Some (ip_of d')))
                      [ApplyActions [ActionOutput port]]) ])
  ∧ (∀ src dst,
        parse_node src = inr u → parse_node dst = inr d →
        rest_path sp (Some src) (Some dst) st = mkResponse 404 ErrNoPath).
Proof.
  intros Hnd Hd Hdin Huin Hne Hnp tr. subst tr.
  assert (egress_port sp st d (ip_of d) u
          = (None, [Log (WarnNoRoute u d (ip_of d))])) as Heg.
  { unfold egress_port. rewrite decide_False by done. by rewrite Hnp. }
  split_and!.
  - rewrite rules_for_pair by done. by rewrite Heg.
  - apply (Log_in_install_all sp st d u); [done..|].
    unfold install_at. rewrite Heg. left.
  - intros u' d' port Hd' Hd'in Hu'in Hdp Hport.
    rewrite rules_for_pair by done.
    by rewrite Hport, bool_decide_eq_true_2.
  - intros src dst Hs Ht. unfold rest_path.
    pose proof (parse_node_not_empty _ _ Hs).
    pose proof (parse_node_not_empty _ _ Ht).
    destruct src; [done|]. destruct dst; [done|]. simpl.
    rewrite Hs, Ht. unfold nx.has_node.
    apply od_mem_true in Hdin as ->. apply od_mem_true in Huin as ->.
    cbn [negb orb]. by rewrite Hnp.
Qed.

Lemma no_path_pair_is_skipped_witness :
  NoDup (nx.nodes (G st_split))
  ∧ dijkstra.shortest_path (G st_split) 1 3 = None
  ∧ rules_for 1 3 (_install_all_destinations dijkstra.shortest_path st_split)
    = []
  ∧ rules_for 1 2 (_install_all_destinations dijkstra.shortest_path st_split)
    = [ Send 1 (FlowAdd 100 (mkMatch (Some 0x0800) (Some "10.0.0.2") None)
                  [ApplyActions [ActionOutput 2]]);
        Send 1 (FlowAdd 100 (mkMatch (Some 0x0806) None (Some "10.0.0.2"))
                  [ApplyActions [ActionOutput 2]]) ]
  ∧ rest_path dijkstra.shortest_path (Some "s1") (Some "10.0.0.3") st_split
    = mkResponse 404 ErrNoPath.
Proof.
  assert (NoDup (nx.nodes (G st_split))) as Hnd.
  { apply (NoDup_fmap_1 Z.to_nat). vm_compute. apply (NoDup_seq 1 3). }
  pose proof (no_path_pair_is_skipped dijkstra.shortest_path st_split 3 1 Hnd)
    as H.
  cbv zeta in H. destruct H as (H1 & _ & H3 & H4).
  - unfold NUM_HOSTS. lia.
  - vm_compute. do 2 right; left.
  - vm_compute. left.
  - lia.
  - reflexivity.
  - split_and!; [done | reflexivity | exact H1 | | exact (H4 "s1" "10.0.0.3" eq_refl eq_refl)].
    apply H3.
    + unfold NUM_HOSTS. lia.
    + vm_compute. right; left.
    + vm_compute. left.
    + vm_compute. left.
    + reflexivity.
Defined.

(** ** Link statistics *)

Lemma round_nearest_proper (up : bool) (q q' : Q) :
  (q == q')%Q → round_nearest up q = round_nearest up q'.
Proof.
  intros H. unfold round_nearest. rewrite (Qfloor_comp _ _ H).
  assert ((q - inject_Z (Qfloor q') ?= 1 # 2)%Q
          = (q' - inject_Z (Qfloor q') ?= 1 # 2)%Q) as ->; [|done].
  apply Qcompare_comp; [by rewrite H|reflexivity].
Qed.

Lemma round_nearest_near (up : bool) (q : Q) :
  (inject_Z (round_nearest up q) - q <= 1 # 2)%Q
  ∧ (q - inject_Z (round_nearest up q) <= 1 # 2)%Q.
Proof.
  unfold round_nearest.
  pose proof (Qfloor_le q) as Hle. pose proof (Qlt_floor q) as Hlt.
  rewrite inject_Z_plus in Hlt. change (inject_Z 1) with 1%Q in Hlt.
  destruct (q - inject_Z (Qfloor q) ?= 1 # 2)%Q eqn:Hc.
  - apply Qeq_alt in Hc.
    destruct up; rewrite ?inject_Z_plus;
      change (inject_Z 1) with 1%Q; split; lra.
  - apply Qlt_alt in Hc. split; lra.
  - apply Qgt_alt in Hc. rewrite inject_Z_plus.
    change (inject_Z 1) with 1%Q. split; lra.
Qed.

Lemma round2_value (tie : Q → bool) (q : Q) :
  (round2 tie q == inject_Z (round_nearest (tie q) (q * 100)) / 100)%Q.
Proof. unfold round2. apply Qred_correct. Qed.

(** [round(x, 2)] is within half a hundredth of [x]. *)
Lemma round2_near (tie : Q → bool) (q : Q) :
  (Qabs (round2 tie q - q) <= 1 # 200)%Q.
Proof.
  apply Qabs_Qle_condition. rewrite round2_value.
  destruct (round_nearest_near (tie q) (q * 100)) as [H1 H2].
  set (n := inject_Z (round_nearest (tie q) (q * 100))) in *.
  assert (n / 100 == n * (1 # 100))%Q as -> by (by field).
  split; lra.
Qed.

(** Rounding to two decimals does not cross an integer bound. *)
Lemma round2_bounds (tie : Q → bool) (q : Q) (m : Z) :
  ((inject_Z m <= q)%Q → (inject_Z m <= round2 tie q)%Q)
  ∧ ((q <= inject_Z m)%Q → (round2 tie q <= inject_Z m)%Q).
Proof.
  rewrite round2_value. generalize (tie q). intros up.
  assert (∀ x k, (inject_Z k <= x)%Q → k ≤ round_nearest up x) as Hlo.
  { intros x k Hk. apply Qfloor_resp_le in Hk. rewrite Qfloor_Z in Hk.
    unfold round_nearest.
    destruct (x - inject_Z (Qfloor x) ?= 1 # 2)%Q; [destruct up|..]; lia. }
  assert (∀ x k, (x <= inject_Z k)%Q → round_nearest up x ≤ k) as Hhi.
  { intros x k Hk. pose proof (Qfloor_le x) as Hf.
    assert (Qfloor x ≤ k) as Hfk.
    { apply Qfloor_resp_le in Hk. by rewrite Qfloor_Z in Hk. }
    destruct (decide (Qfloor x = k)) as [Heq|Hne].
    - assert (x - inject_Z (Qfloor x) == 0)%Q as H0 by (rewrite Heq in *; lra).
      unfold round_nearest.
      assert ((x - inject_Z (Qfloor x) ?= 1 # 2)%Q = Lt) as ->; [|lia].
      apply Qlt_alt. rewrite H0. reflexivity.
    - unfold round_nearest.
      destruct (x - inject_Z (Qfloor x) ?= 1 # 2)%Q; [destruct up|..]; lia. }
  assert (∀ n : Z, (inject_Z n / 100 == inject_Z n * (1 # 100))%Q) as Hdiv
    by (intros; by field).
  split; intros Hq.
  - assert (inject_Z (m * 100) <= q * 100)%Q as H1
      by (rewrite inject_Z_mult; change (inject_Z 100) with 100%Q; lra).
    apply Hlo in H1. rewrite Hdiv. rewrite Zle_Qle in H1.
    rewrite inject_Z_mult in H1. change (inject_Z 100) with 100%Q in H1. lra.
  - assert (q * 100 <= inject_Z (m * 100))%Q as H1
      by (rewrite inject_Z_mult; change (inject_Z 100) with 100%Q; lra).
    apply Hhi in H1. rewrite Hdiv. rewrite Zle_Qle in H1.
    rewrite inject_Z_mult in H1. change (inject_Z 100) with 100%Q in H1. lra.
Qed.

(** A whole number of hundredths is reported as it is, whatever the side
    taken at ties. *)
Lemma round2_hundredths (tie : Q → bool) (q : Q) (n : Z) :
  (q * 100 == inject_Z n)%Q → round2 tie q = Qred (inject_Z n / 100).
Proof.
  intros Hq. unfold round2.
  rewrite (round_nearest_proper _ _ _ Hq). unfold round_nearest.
  rewrite Qfloor_Z.
  assert ((inject_Z n - inject_Z n ?= 1 # 2)%Q = Lt) as ->; [|done].
  apply Qlt_alt.
  assert (inject_Z n - inject_Z n == 0)%Q as -> by ring. reflexivity.
Qed.

(** [round(x, 2)] is a hundredth nearest to [x]. *)
Lemma round2_nearest (tie : Q → bool) (q : Q) :
  nearest_hundredth q (round2 tie q).
Proof.
  split; [|apply round2_near]. eexists. apply round2_value.
Qed.

Lemma nearest_hundredth_proper (x x' r : Q) :
  (x == x')%Q → nearest_hundredth x r → nearest_hundredth x' r.
Proof. intros Hx [Hn Hd]. split; [done|]. by rewrite <- Hx. Qed.

Lemma od_get_Some_elem {K V} `{EqDecision K} (d : list (K * V)) k v :
  od_get d k = Some v → (k, v) ∈ d.
Proof.
  induction d as [|[k' v'] d IH]; cbn [od_get]; [done|].
  destruct (decide (k = k')) as [->|Hne].
  - intros [= ->]. left.
  - intros H'. right. by apply IH.
Qed.

(** The bandwidth of a link is positive: a table value or the default. *)
Lemma link_bw_get_pos u v : 0 < link_bw_get u v.
Proof.
  unfold link_bw_get.
  destruct (od_get link_bw_table (undirected_key u v)) as [b|] eqn:Hb;
    [|done].
  apply od_get_Some_elem in Hb. simpl.
  assert (Forall (λ e, 0 < e.2) link_bw_table) as Hall
    by (repeat (constructor; [done|]); constructor).
  rewrite Forall_forall in Hall. exact (Hall _ Hb).
Qed.

(** C2 as stated does not hold: the reported throughput is the formula's
    value rounded to two decimals.  With 1000 bytes sent in one second the
    formula gives 0.008 Mbps and the table shows 0.01, whatever side is taken
    at ties. *)
Lemma reported_throughput_is_rounded :
  ¬ (∃ tie : Q → bool,
       ∀ (st : State) (u v port_u port_v : Z)
         (su sv su_prev sv_prev : PortSample),
        u ≤ v →
        od_get (adj st) (u, v) = Some port_u →
        od_get (adj st) (v, u) = Some port_v →
        port_u ≠ 0 → port_v ≠ 0 →
        port_stats st !! u ≫= (.!! port_u) = Some su →
        port_stats st !! v ≫= (.!! port_v) = Some sv →
        port_stats_prev st !! u ≫= (.!! port_u) = Some su_prev →
        port_stats_prev st !! v ≫= (.!! port_v) = Some sv_prev →
        (0 < timestamp su - timestamp su_prev)%Q →
        ∃ row, link_stat tie st u v = Some row
          ∧ (ls_throughput_mbps row
             == 8 * inject_Z (tx_bytes su - tx_bytes su_prev)
                / ((timestamp su - timestamp su_prev) * 1000000))%Q).
Proof.
  intros [tie H].
  destruct (H st_slow_poll 1 2 2 2
              (mkPortSample 0 101 0 151000 0 0 0 0 1700000001)
              (mkPortSample 51 0 76000 0 0 0 0 0 1700000001)
              (mkPortSample 0 100 0 150000 0 0 0 0 1700000000)
              (mkPortSample 50 0 75000 0 0 0 0 0 1700000000))
    as (row & Hrow & Heq); try reflexivity; try lia.
  vm_compute in Hrow. injection Hrow as <-. vm_compute in Heq. discriminate.
Qed.

(** C2, amended. For a link (u, v), u ≤ v, recorded in both directions
    with non-zero ports, whose endpoints have a current and a previous
    sample with Δt > 0 at [u], the reported figures are the stated formulas
    rounded to two decimals: each is a whole number of hundredths at distance
    at most 0.005 from its formula, whatever side the rounding takes at a
    tie.  The formulas: throughput = 8 × Δtx_bytes / (Δt × 1e6); utilization =
    throughput / bandwidth × 100, of the unrounded throughput (the bandwidth
    is positive); loss rate = max(0, Δtx_packets − Δrx_packets) / Δtx_packets
    × 100, and 0 if no packet was sent.  With Δtx_bytes = 1,250,000 over
    Δt = 5 s and bandwidth 50 the table shows throughput 2 and utilization
    4. *)
Theorem link_stats_are_rounded_formulas
    (tie : Q → bool) (st : State) (u v port_u port_v : Z)
    (su sv su_prev sv_prev : PortSample) :
  u ≤ v →
  od_get (adj st) (u, v) = Some port_u →
  od_get (adj st) (v, u) = Some port_v →
  port_u ≠ 0 → port_v ≠ 0 →
  port_stats st !! u ≫= (.!! port_u) = Some su →
  port_stats st !! v ≫= (.!! port_v) = Some sv →
  port_stats_prev st !! u ≫= (.!! port_u) = Some su_prev →
  port_stats_prev st !! v ≫= (.!! port_v) = Some sv_prev →
  (0 < timestamp su - timestamp su_prev)%Q →
  let dt := (timestamp su - timestamp su_prev)%Q in
  let d_tx_bytes := tx_bytes su - tx_bytes su_prev in
  let d_tx_packets := tx_packets su - tx_packets su_prev in
  let d_rx_packets := rx_packets sv - rx_packets sv_prev in
  let throughput := (8 * inject_Z d_tx_bytes / (dt * 1000000))%Q in
  let bw := link_bw_get u v in
  let loss := Z.max 0 (d_tx_packets - d_rx_packets) in
  let loss_rate :=
    if decide (0 < d_tx_packets)
    then (inject_Z loss / inject_Z d_tx_packets * 100)%Q else 0%Q in
  (∃ row, link_stat tie st u v = Some row ∧ row ∈ get_link_stats tie st
     ∧ ls_bw_mbps row = bw ∧ 0 < bw
     ∧ nearest_hundredth throughput (ls_throughput_mbps row)
     ∧ nearest_hundredth (throughput / inject_Z bw * 100) (ls_utilization row)
     ∧ nearest_hundredth loss_rate (ls_packet_loss_rate row))
  ∧ (8 * inject_Z 1250000 / (5 * 1000000) == 2)%Q
  ∧ (2 / inject_Z 50 * 100 == 4)%Q
  ∧ (∃ row, get_link_stats tie st_second_poll = [row]
       ∧ ls_bw_mbps row = 50
       ∧ ls_throughput_mbps row = 2%Q ∧ ls_utilization row = 4%Q).
Proof.
  intros Huv Hpu Hpv Hpu0 Hpv0 Hsu Hsv Hsup Hsvp Hdt.
  intros dt d_tx_bytes d_tx_packets d_rx_packets throughput bw loss loss_rate.
  split_and!; [|reflexivity|reflexivity|by eexists].
  set (computed := (inject_Z (d_tx_bytes * 8) / (dt * 1000000))%Q).
  assert (computed == throughput)%Q as Hthr.
  { subst computed throughput. rewrite inject_Z_mult. field.
    subst dt. intros H0. rewrite H0 in Hdt. by apply Qlt_irrefl in Hdt. }
  assert (link_stat tie st u v = Some
    {| ls_src := u; ls_dst := v; ls_src_port := port_u; ls_dst_port := port_v;
       ls_bw_mbps := bw;
       ls_throughput_mbps := round2 tie computed;
       ls_utilization := round2 tie (computed / inject_Z bw * 100);
       ls_packet_loss_rate := round2 tie loss_rate;
       ls_rx_packets_u := rx_packets su; ls_tx_packets_u := tx_packets su;
       ls_rx_dropped_u := rx_dropped su; ls_tx_dropped_u := tx_dropped su |})
    as Hrow.
  { unfold link_stat. rewrite decide_False by lia. rewrite Hpu, Hpv.
    rewrite decide_False by (intros [?|?]; done).
    rewrite Hsu, Hsv, Hsup, Hsvp. unfold link_rates. cbn [get_Q get_Z].
    destruct (Qlt_le_dec 0 (timestamp su - timestamp su_prev)) as [_|Hle];
      [|by apply Qle_not_lt in Hle].
    fold dt d_tx_bytes d_tx_packets d_rx_packets loss bw.
    by rewrite decide_True by apply link_bw_get_pos. }
  eexists. split; [exact Hrow|].
  cbn [ls_bw_mbps ls_throughput_mbps ls_utilization ls_packet_loss_rate].
  split_and!.
  - unfold get_link_stats. apply list_elem_of_omap.
    exists ((u, v), port_u). split; [by apply od_get_Some_elem|done].
  - done.
  - apply link_bw_get_pos.
  - apply (nearest_hundredth_proper computed); [done|apply round2_nearest].
  - apply (nearest_hundredth_proper (computed / inject_Z bw * 100));
      [by rewrite Hthr|apply round2_nearest].
  - apply round2_nearest.
Qed.

Lemma link_stats_are_rounded_formulas_witness :
  ∃ row, link_stat ties_up st_second_poll 1 2 = Some row
    ∧ nearest_hundredth 2 (ls_throughput_mbps row)
    ∧ nearest_hundredth 10 (ls_packet_loss_rate row).
Proof.
  destruct (link_stats_are_rounded_formulas ties_up st_second_poll 1 2 2 2
              (mkPortSample 0 1100 0 1400000 0 0 0 0 1700000005)
              (mkPortSample 950 0 1200000 0 0 0 0 0 1700000005)
              (mkPortSample 0 100 0 150000 0 0 0 0 1700000000)
              (mkPortSample 50 0 75000 0 0 0 0 0 1700000000))
    as [(row & Hrow & _ & _ & _ & Hthr & _ & Hloss) _];
    try reflexivity; try lia.
  exists row. split_and!; [exact Hrow | | ].
  - revert Hthr. apply nearest_hundredth_proper. reflexivity.
  - revert Hloss. apply nearest_hundredth_proper. reflexivity.
Defined.

(** C6. On the first statistics computation after startup each endpoint
    has one sample and no previous one; the missing previous sample is read
    as all zeros (timestamp included), so the elapsed time is positive and the
    figures are derived from the single sample: with 100 packets sent by s1
    and 50 received by s2 so far, the table shows a loss rate of 50. *)
Theorem first_poll_derives_loss_from_single_sample :
  port_stats_prev st_first_poll !! 1 ≫= (.!! 2) = None
  ∧ port_stats_prev st_first_poll !! 2 ≫= (.!! 2) = None
  ∧ port_stats st_first_poll !! 1 ≫= (.!! 2)
    = Some (mkPortSample 0 100 0 150000 0 0 0 0 1700000000)
  ∧ port_stats st_first_poll !! 2 ≫= (.!! 2)
    = Some (mkPortSample 50 0 75000 0 0 0 0 0 1700000000)
  ∧ ∀ tie, ∃ row, get_link_stats tie st_first_poll = [row]
      ∧ ls_packet_loss_rate row = 50%Q
      ∧ ls_packet_loss_rate row ≠ 0%Q.
Proof.
  split_and!; [by vm_compute..|]. intros tie.
  exists (mkLinkStat 1 2 2 2 50 0 0 50 0 100 0 0).
  split_and!; [by vm_compute | reflexivity | discriminate].
Qed.

(** ** REST boundary *)

(** C5. A routing mode outside {hops, distrak} is rejected with status 400
    and the controller is left as it was; a malformed node identifier on the
    path endpoint leaves the controller as it was too (the handler only
    reads), but the [ValueError] of [parse_node] reaches the catch-all
    handler and the status is 500, not a 4xx. *)
Theorem malformed_input_statuses
    (sp : Graph → Z → Z → option (list Z)) (topo : Topology) (st : State) :
  (∀ s, s ∉ ["hops"; "distrak"] →
        rest_set_mode sp (JsonBody (ModeString s)) topo st
        = (mkResponse 400 ErrMode, st, []))
  ∧ rest_set_mode sp (JsonBody ModeMissing) topo st
    = (mkResponse 400 ErrMode, st, [])
  ∧ rest_path sp (Some "abc") (Some "1") st
    = mkResponse 500 (ErrException (ValueError "formato de nodo no valido"))
  ∧ rest_path sp (Some "1") (Some "192.168.0.7") st
    = mkResponse 500
        (ErrException (ValueError "solo IPs 10.0.0.X son validas para hosts")).
Proof.
  split_and!.
  - intros s Hs. unfold rest_set_mode. by rewrite bool_decide_eq_false_2.
  - reflexivity.
  - unfold rest_path.
    replace (parse_node (default "" (Some "abc")))
      with (inl (ValueError "formato de nodo no valido") : Exn + Z)
      by (by vm_compute).
    reflexivity.
  - unfold rest_path.
    replace (parse_node (default "" (Some "1"))) with (inr 1 : Exn + Z)
      by (by vm_compute).
    replace (parse_node (default "" (Some "192.168.0.7")))
      with (inl (ValueError "solo IPs 10.0.0.X son validas para hosts")
            : Exn + Z) by (by vm_compute).
    reflexivity.
Qed.

(** * Further properties of the controller *)

(** ** Bandwidth table and edge weights *)

Lemma undirected_key_sym a b : undirected_key a b = undirected_key b a.
Proof. unfold undirected_key. repeat case_decide; try done; f_equal; lia. Qed.

Lemma link_bw_get_sym u v : link_bw_get u v = link_bw_get v u.
Proof. unfold link_bw_get. by rewrite undirected_key_sym. Qed.

(** X1. The bandwidth lookup does not depend on the order of the two
    switches and is always positive (a table value or the default 10), so
    the edge weight is positive in both modes: 1 for hop count and 1/bw for
    inverse bandwidth, never a division by zero. *)
Theorem link_bandwidth_symmetric_and_positive (md : string) (u v : Z) :
  link_bw_get u v = link_bw_get v u
  ∧ 0 < link_bw_get u v
  ∧ (0 < edge_weight md (link_bw_get u v))%Q
  ∧ (md ≠ "distrak" → edge_weight md (link_bw_get u v) = 1%Q)
  ∧ (edge_weight "distrak" (link_bw_get u v) * inject_Z (link_bw_get u v)
     == 1)%Q.
Proof.
  pose proof (link_bw_get_pos u v) as Hpos.
  assert (0 < inject_Z (link_bw_get u v))%Q as HposQ.
  { rewrite <- (Zlt_Qlt 0). done. }
  split_and!; [apply link_bw_get_sym | done | | |].
  - unfold edge_weight. case_decide; [|done].
    apply Qlt_shift_div_l; [done|]. by rewrite Qmult_0_l.
  - intros Hmd. unfold edge_weight. by rewrite decide_False.
  - unfold edge_weight. rewrite decide_True by done. field.
    intros H0. rewrite H0 in HposQ. by apply Qlt_irrefl in HposQ.
Qed.

(** X2. The controller's bandwidth table is the backbone of the emulated
    topology: each of the 21 backbone links joins two distinct switches
    among 1..14 and is found in the table with its bandwidth, in either
    orientation; the table holds nothing else, each link once. *)
Theorem link_bw_table_is_backbone :
  (∀ a b bw dl, (a, b, bw, dl) ∈ backbone →
      link_bw_get a b = bw ∧ link_bw_get b a = bw
      ∧ a ∈ topo_switches ∧ b ∈ topo_switches ∧ a ≠ b)
  ∧ (∀ k bw, (k, bw) ∈ link_bw_table →
        ∃ a b dl, (a, b, bw, dl) ∈ backbone ∧ k = undirected_key a b)
  ∧ NoDup (od_keys link_bw_table)
  ∧ length backbone = 21%nat.
Proof.
  split_and!.
  - assert (Forall (λ '(a, b, bw, dl),
        link_bw_get a b = bw ∧ link_bw_get b a = bw
        ∧ a ∈ topo_switches ∧ b ∈ topo_switches ∧ a ≠ b) backbone) as Hall.
    { repeat (constructor;
        [split_and!; [reflexivity | reflexivity
                     | apply elem_of_seqZ; lia | apply elem_of_seqZ; lia
                     | lia]|]).
      constructor. }
    rewrite Forall_forall in Hall. intros a b bw dl Hin.
    exact (Hall _ Hin).
  - intros k bw Hin. unfold link_bw_table in Hin.
    repeat (apply elem_of_cons in Hin as [[= -> ->]|Hin];
      [eexists _, _, _; split; [|reflexivity]; unfold backbone;
       repeat first [left | right]|]).
    by apply elem_of_nil in Hin.
  - apply (bool_decide_unpack _). by vm_compute.
  - reflexivity.
Qed.

(** ** Node identifiers *)

Lemma list_ascii_of_string_app (s1 s2 : string) :
  list_ascii_of_string (s1 +:+ s2)
  = list_ascii_of_string s1 ++ list_ascii_of_string s2.
Proof. induction s1 as [|c s1 IH]; simpl; [done|]. by rewrite IH. Qed.

Lemma is_digit_range (c : ascii) :
  pystr.is_digit c = true ↔ (48 ≤ N_of_ascii c ≤ 57)%N.
Proof. unfold pystr.is_digit. by rewrite andb_true_iff, !N.leb_le. Qed.

Lemma digit_not_space (c : ascii) :
  pystr.is_digit c = true → pystr.is_space c = false.
Proof.
  intros [H1 H2]%is_digit_range. unfold pystr.is_space. cbv zeta.
  assert ((N_of_ascii c =? 32)%N = false) as -> by (apply N.eqb_neq; lia).
  assert ((N_of_ascii c <=? 13)%N = false) as -> by (apply N.leb_gt; lia).
  assert ((N_of_ascii c <=? 31)%N = false) as -> by (apply N.leb_gt; lia).
  by rewrite !andb_false_r.
Qed.

Lemma digit_not_dot (c : ascii) :
  pystr.is_digit c = true → pystr.is_dot c = false.
Proof.
  intros [H1 H2]%is_digit_range. unfold pystr.is_dot. apply N.eqb_neq. lia.
Qed.

(** The value [int()] gives to a string of digits. *)
Local Abbreviation digits_value :=
  (foldl (λ acc c, 10 * acc + (Z.of_N (N_of_ascii c) - 48)) 0).

Lemma pretty_N_char_digit (x : N) :
  (x < 10)%N →
  pystr.is_digit (pretty_N_char x) = true
  ∧ Z.of_N (N_of_ascii (pretty_N_char x)) - 48 = Z.of_N x.
Proof.
  intros Hx.
  assert (x = 0 ∨ x = 1 ∨ x = 2 ∨ x = 3 ∨ x = 4 ∨ x = 5 ∨ x = 6 ∨ x = 7
          ∨ x = 8 ∨ x = 9)%N as Hc by lia.
  repeat (destruct Hc as [->|Hc]; [by vm_compute|]). by subst.
Qed.

(** [pretty_N_go x s] puts the decimal digits of [x] in front of [s]. *)
Lemma pretty_N_go_digits (x : N) (s : string) :
  ∃ pre, list_ascii_of_string (pretty_N_go x s)
         = pre ++ list_ascii_of_string s
    ∧ forallb pystr.is_digit pre = true
    ∧ digits_value pre = Z.of_N x
    ∧ ((0 < x)%N → pre ≠ []).
Proof.
  revert s. induction (N.lt_wf_0 x) as [x _ IH]; intros s.
  destruct (decide (x = 0)%N) as [->|Hx].
  - exists []. rewrite pretty_N_go_0. split_and!; [done..|lia].
  - rewrite pretty_N_go_step by lia.
    destruct (IH (x `div` 10)%N ltac:(apply N.div_lt; lia)
                 (String (pretty_N_char (x `mod` 10)) s))
      as (pre & Hpre & Hdig & Hval & _).
    destruct (pretty_N_char_digit (x `mod` 10)%N) as [Hc Hcv].
    { apply N.mod_lt. lia. }
    exists (pre ++ [pretty_N_char (x `mod` 10)]). split_and!.
    + rewrite Hpre. simpl. by rewrite <- app_assoc.
    + rewrite forallb_app, Hdig. simpl. by rewrite Hc.
    + rewrite foldl_app. simpl. rewrite Hval, Hcv.
      rewrite (N.div_mod x 10) at 3 by lia. lia.
    + intros _. by destruct pre.
Qed.

(** The decimal form of a non-negative integer is a non-empty string of
    digits that [int()] reads back. *)
Lemma pretty_Z_digits (n : Z) :
  0 ≤ n →
  list_ascii_of_string (pretty n) ≠ []
  ∧ forallb pystr.is_digit (list_ascii_of_string (pretty n)) = true
  ∧ digits_value (list_ascii_of_string (pretty n)) = n.
Proof.
  intros Hn. destruct n as [|p|p]; [done| |lia].
  unfold pretty, pretty_Z, pretty, pretty_positive, pretty, pretty_N.
  rewrite decide_False by done.
  destruct (pretty_N_go_digits (N.pos p) "") as (pre & Hpre & Hd & Hv & Hne).
  simpl in Hpre. rewrite app_nil_r in Hpre. rewrite Hpre.
  split_and!; [apply Hne; lia | done | by rewrite Hv].
Qed.

Lemma to_int_digits (l : list ascii) :
  l ≠ [] → forallb pystr.is_digit l = true →
  pystr.isdigit l = true ∧ pystr.to_int l = Some (digits_value l).
Proof.
  intros Hne Hd.
  assert (pystr.isdigit l = true) as Hi by (by destruct l).
  split; [done|]. unfold pystr.to_int. by rewrite Hi.
Qed.

Lemma lstrip_head (c : ascii) (l : list ascii) :
  pystr.is_space c = false → pystr.lstrip (c :: l) = c :: l.
Proof. intros Hc. simpl. by rewrite Hc. Qed.

(** [strip] leaves alone a string that neither starts nor ends with
    white space. *)
Lemma strip_id (a b : ascii) (l : list ascii) :
  pystr.is_space a = false → pystr.is_space b = false →
  pystr.strip (a :: l ++ [b]) = a :: l ++ [b]
  ∧ pystr.strip [a] = [a].
Proof.
  intros Ha Hb. unfold pystr.strip. split.
  - assert (rev (a :: l ++ [b]) = b :: (rev l ++ [a])) as Hr.
    { simpl. by rewrite rev_app_distr. }
    rewrite lstrip_head by done. rewrite Hr.
    rewrite lstrip_head by done. by rewrite <- Hr, rev_involutive.
  - rewrite lstrip_head by done. simpl. by rewrite Ha.
Qed.

Lemma strip_digits_tail (a : ascii) (l : list ascii) :
  pystr.is_space a = false → forallb pystr.is_digit l = true →
  pystr.strip (a :: l) = a :: l.
Proof.
  intros Ha Hl. destruct l as [|c l] using rev_ind.
  - by apply (strip_id a a []).
  - rewrite forallb_app in Hl. apply andb_true_iff in Hl as [_ Hc].
    simpl in Hc. rewrite andb_true_r in Hc.
    apply (strip_id a c l); [done|]. by apply digit_not_space.
Qed.

Lemma digits_no_dots (l : list ascii) :
  forallb pystr.is_digit l = true →
  pystr.remove_dots l = l ∧ pystr.count_dots l = 0
  ∧ pystr.split_dots l = [l].
Proof.
  unfold pystr.remove_dots, pystr.count_dots.
  induction l as [|c l IH]; simpl; [done|].
  intros [Hc Hl]%andb_true_iff. destruct (IH Hl) as (IH1 & IH2 & IH3).
  rewrite (digit_not_dot c Hc). simpl. rewrite IH1, IH3. split_and!; try done.
Qed.

Lemma digits_no_dot_filter (l : list ascii) :
  forallb pystr.is_digit l = true → List.filter pystr.is_dot l = [].
Proof.
  induction l as [|c l IH]; simpl; [done|].
  intros [Hc Hl]%andb_true_iff. by rewrite (digit_not_dot c Hc), IH.
Qed.

Section parse_node_forms.
Variable l : list ascii.
Hypothesis l_not_nil : l ≠ [].
Hypothesis l_digits : forallb pystr.is_digit l = true.

Lemma parse_node_plain (x : string) :
  list_ascii_of_string x = l → parse_node x = inr (digits_value l).
Proof.
  intros Hx. unfold parse_node. cbv zeta. rewrite Hx.
  destruct l as [|c l'] eqn:Hl; [done|].
  simpl in l_digits. apply andb_true_iff in l_digits as [Hc Hl'].
  rewrite (strip_digits_tail c l') by auto using digit_not_space.
  assert (pystr.startswith_s (c :: l') = false) as ->.
  { simpl. apply N.eqb_neq. apply is_digit_range in Hc. lia. }
  cbn [andb].
  assert (forallb pystr.is_digit (c :: l') = true) as Hall
    by (simpl; by rewrite Hc, Hl').
  destruct (digits_no_dots _ Hall) as (-> & -> & _).
  destruct (to_int_digits (c :: l') ltac:(done) Hall) as [-> ->].
  done.
Qed.

Lemma parse_node_s (x : string) :
  list_ascii_of_string x = "s"%char :: l → parse_node x = inr (digits_value l).
Proof.
  intros Hx. unfold parse_node. cbv zeta. rewrite Hx.
  rewrite (strip_digits_tail "s" l) by done.
  destruct (to_int_digits l l_not_nil l_digits) as [Hi Ht].
  cbn [pystr.startswith_s tail]. rewrite Hi, Ht. done.
Qed.

Lemma parse_node_ip (x : string) :
  list_ascii_of_string x = list_ascii_of_string "10.0.0." ++ l →
  parse_node x = inr (digits_value l).
Proof.
  intros Hx. unfold parse_node. cbv zeta. rewrite Hx.
  destruct (to_int_digits l l_not_nil l_digits) as [Hi Ht].
  destruct (digits_no_dots l l_digits) as (Hrm & _ & Hsp).
  pose proof (digits_no_dot_filter l l_digits) as Hf.
  assert (pystr.strip (list_ascii_of_string "10.0.0." ++ l)
          = list_ascii_of_string "10.0.0." ++ l) as ->.
  { destruct l as [|b m _] using rev_ind; [done|].
    rewrite forallb_app in l_digits.
    apply andb_true_iff in l_digits as [_ Hb]. simpl in Hb.
    rewrite andb_true_r in Hb.
    pose proof (strip_id "1" b (list_ascii_of_string "0.0.0." ++ m)
                  eq_refl (digit_not_space b Hb)) as [Hs _].
    simpl in Hs |- *. exact Hs. }
  assert (pystr.remove_dots (list_ascii_of_string "10.0.0." ++ l)
          = list_ascii_of_string "1000" ++ l) as ->.
  { unfold pystr.remove_dots in *. rewrite List.filter_app, Hrm. done. }
  assert (pystr.count_dots (list_ascii_of_string "10.0.0." ++ l) = 3) as ->.
  { unfold pystr.count_dots. by rewrite List.filter_app, Hf. }
  assert (pystr.split_dots (list_ascii_of_string "10.0.0." ++ l)
          = [list_ascii_of_string "10"; list_ascii_of_string "0";
             list_ascii_of_string "0"; l]) as ->.
  { simpl. by rewrite Hsp. }
  assert (pystr.isdigit (list_ascii_of_string "1000" ++ l) = true) as ->.
  { simpl. done. }
  cbn [pystr.startswith_s app list_ascii_of_string].
  simpl. rewrite Ht. done.
Qed.
End parse_node_forms.

(** X3. [parse_node] reads back every form of a switch identifier: for a
    non-negative [n] the decimal string, the string with the prefix "s" and
    the host address [ip_of n] all parse to [n]. *)
Theorem parse_node_reads_back (n : Z) :
  0 ≤ n →
  parse_node (pretty n) = inr n
  ∧ parse_node ("s" +:+ pretty n) = inr n
  ∧ parse_node (ip_of n) = inr n.
Proof.
  intros Hn. destruct (pretty_Z_digits n Hn) as (Hne & Hd & Hv).
  split_and!.
  - rewrite <- Hv at 2. by apply parse_node_plain.
  - rewrite <- Hv at 2. by apply parse_node_s.
  - rewrite <- Hv at 2. apply parse_node_ip; [done..|].
    unfold ip_of. by rewrite list_ascii_of_string_app.
Qed.

Lemma parse_node_reads_back_witness :
  0 ≤ 14 ∧ parse_node (ip_of 14) = inr 14 ∧ parse_node "s14" = inr 14.
Proof.
  assert (0 ≤ 14) as H by lia.
  destruct (parse_node_reads_back 14 H) as (_ & Hs & Hip).
  split_and!; [exact H | exact Hip | exact Hs].
Defined.

Lemma digits_value_nonneg (l : list ascii) :
  forallb pystr.is_digit l = true → 0 ≤ digits_value l.
Proof.
  assert (∀ acc, 0 ≤ acc → forallb pystr.is_digit l = true →
    0 ≤ foldl (λ acc c, 10 * acc + (Z.of_N (N_of_ascii c) - 48)) acc l)
    as H; [|by apply H].
  induction l as [|c l IH]; intros acc Hacc; simpl; [done|].
  intros [Hc%is_digit_range Hl]%andb_true_iff. apply IH; [lia|done].
Qed.

Lemma to_int_nonneg (l : list ascii) (n : Z) :
  pystr.to_int l = Some n → 0 ≤ n.
Proof.
  unfold pystr.to_int. destruct (pystr.isdigit l) eqn:Hi; [|done].
  intros [= <-]. apply digits_value_nonneg. by destruct l.
Qed.

(** X4. An identifier accepted by [parse_node] is never negative: whatever
    the text, a result is a switch number at least 0 (signs are not
    digits). *)
Theorem parse_node_result_is_not_negative (x : string) (n : Z) :
  parse_node x = inr n → 0 ≤ n.
Proof.
  unfold parse_node. cbv zeta.
  assert (∀ s, from_option (inr : Z → Exn + Z)
                 (inl (ValueError "invalid literal for int()"))
                 (pystr.to_int s) = inr n → 0 ≤ n) as Hint.
  { intros s. destruct (pystr.to_int s) as [m|] eqn:Hs; [|done].
    intros [= <-]. by eapply to_int_nonneg. }
  repeat case_match; try done; by apply Hint.
Qed.

Lemma parse_node_result_is_not_negative_witness :
  parse_node " 10.0.0.7 " = inr 7 ∧ 0 ≤ 7.
Proof.
  assert (parse_node " 10.0.0.7 " = inr 7) as H by (by vm_compute).
  split; [exact H|].
  exact (parse_node_result_is_not_negative " 10.0.0.7 " 7 H).
Defined.

(** ** What [_build_graph] builds *)

Section odict_lookup.
Context {K V : Type} `{EqDecision K}.
Implicit Types (d : list (K * V)) (k : K) (v : V).

Lemma od_get_set d k k' v :
  od_get (od_set d k v) k' = if decide (k' = k) then Some v else od_get d k'.
Proof.
  induction d as [|[k0 v0] d IH]; cbn [od_set od_get].
  - done.
  - destruct (decide (k = k0)) as [->|Hne]; cbn [od_get].
    + by destruct (decide (k' = k0)).
    + rewrite IH. destruct (decide (k' = k0)) as [->|?]; [|done].
      by rewrite decide_False.
Qed.

Lemma od_get_snoc d k k' v :
  od_get d k = None →
  od_get (d ++ [(k, v)]) k' = if decide (k' = k) then Some v else od_get d k'.
Proof.
  induction d as [|[k0 v0] d IH]; cbn [app od_get]; [done|].
  destruct (decide (k = k0)) as [->|Hne]; [done|]. intros Hk.
  rewrite IH by done. destruct (decide (k' = k0)) as [->|?]; [|done].
  by rewrite decide_False.
Qed.

Lemma od_get_is_Some d k : is_Some (od_get d k) ↔ k ∈ od_keys d.
Proof.
  rewrite <- not_eq_None_Some, od_get_None.
  split; [apply dec_stable|by intros ? ?].
Qed.
End odict_lookup.

Lemma nodes_add_node g n n' :
  n' ∈ nx.nodes (nx.add_node g n) ↔ n' = n ∨ n' ∈ nx.nodes g.
Proof.
  unfold nx.add_node, nx.has_node. destruct (od_mem g n) eqn:Hm.
  - apply od_mem_true in Hm. split; [by right|]. by intros [->|?].
  - unfold nx.nodes, od_keys. rewrite map_app, elem_of_app. simpl.
    rewrite list_elem_of_singleton. tauto.
Qed.

Lemma nodes_set_nbr g u v d n :
  n ∈ nx.nodes (nx.set_nbr g u v d) ↔ n = u ∨ n ∈ nx.nodes g.
Proof.
  unfold nx.set_nbr, nx.nodes. rewrite od_keys_set.
  case_decide as Hu.
  - split; [by right|]. by intros [->|?].
  - rewrite elem_of_app, list_elem_of_singleton. tauto.
Qed.

Lemma nodes_add_edge g u v d n :
  n ∈ nx.nodes (nx.add_edge g u v d) ↔ n = u ∨ n = v ∨ n ∈ nx.nodes g.
Proof.
  unfold nx.add_edge. cbv zeta.
  rewrite !nodes_set_nbr, !nodes_add_node. tauto.
Qed.

Lemma get_edge_data_add_node g n u v :
  nx.get_edge_data (nx.add_node g n) u v = nx.get_edge_data g u v.
Proof.
  unfold nx.add_node, nx.has_node, od_mem, nx.get_edge_data.
  destruct (od_get g n) eqn:Hn; [done|].
  rewrite od_get_snoc by done.
  destruct (decide (u = n)) as [->|?]; [|done]. by rewrite Hn.
Qed.

Lemma get_edge_data_set_nbr g a b d u v :
  nx.get_edge_data (nx.set_nbr g a b d) u v
  = if decide (u = a ∧ v = b) then Some d else nx.get_edge_data g u v.
Proof.
  unfold nx.set_nbr, nx.get_edge_data. rewrite od_get_set.
  destruct (decide (u = a)) as [->|Hu]; cbn [mbind option_bind].
  - rewrite od_get_set. destruct (decide (v = b)) as [->|Hv].
    + by rewrite decide_True.
    + rewrite decide_False by (by intros [_ ?]). by destruct (od_get g a).
  - by rewrite decide_False by (by intros [? _]).
Qed.

Lemma get_edge_data_add_edge g a b d u v :
  nx.get_edge_data (nx.add_edge g a b d) u v
  = if decide ((u = a ∧ v = b) ∨ (u = b ∧ v = a)) then Some d
    else nx.get_edge_data g u v.
Proof.
  unfold nx.add_edge. cbv zeta.
  rewrite !get_edge_data_set_nbr, !get_edge_data_add_node.
  repeat case_decide; try done; tauto.
Qed.

Lemma build_tables_nil md sw :
  build_tables md (mkTopology sw [])
  = (foldl nx.add_node nx.empty sw, [], ∅).
Proof. done. Qed.

Lemma build_tables_snoc md sw l lk :
  build_tables md (mkTopology sw (l ++ [lk]))
  = add_link md (build_tables md (mkTopology sw l)) lk.
Proof. unfold build_tables. cbn [switches links]. by rewrite foldl_app. Qed.

Lemma nodes_foldl_add_node sw g n :
  n ∈ nx.nodes (foldl nx.add_node g sw) ↔ n ∈ sw ∨ n ∈ nx.nodes g.
Proof.
  revert g. induction sw as [|s sw IH]; intros g; cbn [foldl].
  - rewrite elem_of_nil. tauto.
  - rewrite IH, nodes_add_node, elem_of_cons. tauto.
Qed.

(** A link joins [u] and [v], in either direction. *)
Local Abbreviation joins lk u v :=
  ((src_dpid lk = u ∧ dst_dpid lk = v) ∨ (src_dpid lk = v ∧ dst_dpid lk = u)).

(** A link writes port [p] for the direction [u] to [v]. *)
Local Abbreviation writes lk u v p :=
  ((src_dpid lk = u ∧ dst_dpid lk = v ∧ src_port_no lk = p)
   ∨ (dst_dpid lk = u ∧ src_dpid lk = v ∧ dst_port_no lk = p)).

Lemma get_edge_data_foldl_add_node sw g u v :
  nx.get_edge_data (foldl nx.add_node g sw) u v = nx.get_edge_data g u v.
Proof.
  revert g. induction sw as [|s sw IH]; intros g; cbn [foldl]; [done|].
  by rewrite IH, get_edge_data_add_node.
Qed.

Lemma elem_of_add_port (m : gmap Z (gset Z)) (a q u p : Z) :
  p ∈ default ∅ (add_port m a q !! u)
  ↔ (a = u ∧ q = p) ∨ p ∈ default ∅ (m !! u).
Proof.
  unfold add_port. rewrite lookup_insert.
  destruct (decide (a = u)) as [->|Hne]; cbn [from_option id].
  - rewrite elem_of_union, elem_of_singleton. split.
    + intros [?| ->]; [by right|by left].
    + intros [[_ ->]|?]; [by right|by left].
  - split; [by right|]. by intros [[? _]|?].
Qed.

Section build_tables_facts.
Variable md : string.
Variable sw : list Z.

Lemma build_nodes l n :
  n ∈ nx.nodes (build_tables md (mkTopology sw l)).1.1
  ↔ n ∈ sw ∨ ∃ lk, lk ∈ l ∧ (n = src_dpid lk ∨ n = dst_dpid lk).
Proof.
  induction l as [|lk l IH] using rev_ind.
  - rewrite build_tables_nil. cbn [fst]. rewrite nodes_foldl_add_node.
    split; [intros [?|Hn]; [by left|by apply elem_of_nil in Hn]|].
    intros [?|(lk & Hlk%elem_of_nil & _)]; [by left|done].
  - rewrite build_tables_snoc.
    destruct (build_tables md (mkTopology sw l)) as [[g a] lp].
    cbn [add_link fst] in *. rewrite nodes_add_edge, IH. split.
    + intros [->|[->|[?|(lk' & Hin & Hn)]]].
      * right. exists lk. rewrite elem_of_app, list_elem_of_singleton. tauto.
      * right. exists lk. rewrite elem_of_app, list_elem_of_singleton. tauto.
      * by left.
      * right. exists lk'. rewrite elem_of_app. tauto.
    + intros [?|(lk' & Hin & Hn)]; [tauto|].
      apply elem_of_app in Hin as [Hin| ->%list_elem_of_singleton].
      * do 3 right. by exists lk'.
      * tauto.
Qed.

Lemma build_adj l u v :
  (is_Some (od_get (build_tables md (mkTopology sw l)).1.2 (u, v))
   ↔ ∃ lk, lk ∈ l ∧ joins lk u v)
  ∧ (∀ p, od_get (build_tables md (mkTopology sw l)).1.2 (u, v) = Some p →
          ∃ lk, lk ∈ l ∧ writes lk u v p).
Proof.
  induction l as [|lk l [IH1 IH2]] using rev_ind.
  - rewrite build_tables_nil. cbn [fst snd od_get]. split.
    + split; [by intros [? ?]|]. by intros (lk & ?%elem_of_nil & _).
    + done.
  - rewrite build_tables_snoc.
    destruct (build_tables md (mkTopology sw l)) as [[g a] lp].
    cbn [add_link fst snd] in *. rewrite !od_get_set. split.
    + setoid_rewrite elem_of_app. setoid_rewrite list_elem_of_singleton.
      repeat case_decide; simplify_eq.
      * split; [|by eauto]. intros _. exists lk. tauto.
      * split; [|by eauto]. intros _. exists lk. tauto.
      * rewrite IH1. split.
        -- intros (lk' & ? & ?). exists lk'. tauto.
        -- intros (lk' & [?| ->] & Hj); [by exists lk'|].
           destruct Hj as [[<- <-]|[<- <-]]; done.
    + intros p. setoid_rewrite elem_of_app.
      setoid_rewrite list_elem_of_singleton.
      repeat case_decide; simplify_eq.
      * intros [= <-]. exists lk. tauto.
      * intros [= <-]. exists lk. tauto.
      * intros (lk' & ? & ?)%IH2. exists lk'. tauto.
Qed.

Lemma build_link_ports l u p :
  p ∈ default ∅ ((build_tables md (mkTopology sw l)).2 !! u)
  ↔ ∃ lk, lk ∈ l ∧ ((src_dpid lk = u ∧ src_port_no lk = p)
                     ∨ (dst_dpid lk = u ∧ dst_port_no lk = p)).
Proof.
  induction l as [|lk l IH] using rev_ind.
  - rewrite build_tables_nil. cbn [snd]. rewrite lookup_empty. simpl.
    split; [by intros ?%not_elem_of_empty|].
    by intros (lk & ?%elem_of_nil & _).
  - rewrite build_tables_snoc.
    destruct (build_tables md (mkTopology sw l)) as [[g a] lp].
    cbn [add_link fst snd] in *. rewrite !elem_of_add_port, IH.
    setoid_rewrite elem_of_app. setoid_rewrite list_elem_of_singleton.
    split.
    + intros [[<- <-]|[[<- <-]|(lk' & ? & ?)]];
        [exists lk; tauto | exists lk; tauto | exists lk'; tauto].
    + intros (lk' & [?| ->] & H'); [do 2 right; by exists lk'|]. tauto.
Qed.

Lemma build_edges l u v d :
  nx.get_edge_data (build_tables md (mkTopology sw l)).1.1 u v = Some d
  ↔ (∃ lk, lk ∈ l ∧ joins lk u v)
    ∧ d = mkEdgeData (link_bw_get u v) (edge_weight md (link_bw_get u v)).
Proof.
  induction l as [|lk l IH] using rev_ind.
  - rewrite build_tables_nil. cbn [fst].
    rewrite get_edge_data_foldl_add_node. cbn.
    split; [done|]. by intros [(lk & ?%elem_of_nil & _) _].
  - rewrite build_tables_snoc.
    destruct (build_tables md (mkTopology sw l)) as [[g a] lp].
    cbn [add_link fst snd] in *. rewrite get_edge_data_add_edge.
    setoid_rewrite elem_of_app. setoid_rewrite list_elem_of_singleton.
    case_decide as Hj.
    + assert (joins lk u v) as Hj' by (destruct Hj as [[-> ->]|[-> ->]]; auto).
      assert (mkEdgeData (link_bw_get (src_dpid lk) (dst_dpid lk))
                (edge_weight md (link_bw_get (src_dpid lk) (dst_dpid lk)))
              = mkEdgeData (link_bw_get u v)
                  (edge_weight md (link_bw_get u v))) as Hd.
      { destruct Hj as [[-> ->]|[-> ->]]; [done|].
        by rewrite (link_bw_get_sym (dst_dpid lk) (src_dpid lk)). }
      rewrite Hd. split.
      * intros [= <-]. split; [|done]. exists lk. split; [by right|done].
      * by intros [_ ->].
    + rewrite IH. split.
      * intros [(lk' & ? & ?) ->]. split; [|done]. exists lk'.
        split; [by left|done].
      * intros [(lk' & [?| ->] & Hj') ->].
        -- split; [by exists lk'|done].
        -- exfalso. apply Hj. destruct Hj' as [[<- <-]|[<- <-]]; auto.
Qed.
End build_tables_facts.


(** X5. The graph built from a snapshot has each node once, and its nodes
    are exactly the reported switches together with the endpoints of the
    reported links (a link brings its endpoints even when the switch list
    lacks them). *)
Theorem built_graph_nodes (topo : Topology) (st : State) (n : Z) :
  let g := G (_build_graph topo st).1 in
  NoDup (nx.nodes g)
  ∧ (n ∈ nx.nodes g
     ↔ n ∈ switches topo
       ∨ ∃ lk, lk ∈ links topo ∧ (n = src_dpid lk ∨ n = dst_dpid lk)).
Proof.
  destruct topo as [sw l]. cbn [switches links].
  cbv zeta. rewrite build_graph_state. cbn [G set_graph]. split.
  - apply build_tables_NoDup.
  - apply build_nodes.
Qed.

(** X6. The directional port map built from a snapshot has an entry for
    (u, v) exactly when some reported link joins u and v, in either
    direction; so entries come in pairs (u, v) and (v, u), and every recorded
    port is the port some reported link has at u towards v. *)
Theorem built_port_map_entries (topo : Topology) (st : State) (u v : Z) :
  let a := adj (_build_graph topo st).1 in
  (is_Some (od_get a (u, v))
   ↔ ∃ lk, lk ∈ links topo
       ∧ ((src_dpid lk = u ∧ dst_dpid lk = v)
          ∨ (src_dpid lk = v ∧ dst_dpid lk = u)))
  ∧ (is_Some (od_get a (u, v)) ↔ is_Some (od_get a (v, u)))
  ∧ (∀ p, od_get a (u, v) = Some p →
          ∃ lk, lk ∈ links topo
            ∧ ((src_dpid lk = u ∧ dst_dpid lk = v ∧ src_port_no lk = p)
               ∨ (dst_dpid lk = u ∧ src_dpid lk = v ∧ dst_port_no lk = p))).
Proof.
  destruct topo as [sw l]. cbn [switches links].
  cbv zeta. rewrite build_graph_state. cbn [adj set_graph].
  destruct (build_adj (mode st) sw l u v) as [H1 H2].
  destruct (build_adj (mode st) sw l v u) as [H3 _].
  split_and!; [done| |done].
  rewrite H1, H3. split; intros (lk & ? & ?); exists lk; tauto.
Qed.

(** X7. When the reports are consistent (two reports of the same direction
    carry the same ports and the report of the reverse direction carries them
    swapped), the port map gives for every reported link the egress port at
    each of its ends. *)
Theorem built_port_map_ports (topo : Topology) (st : State) (lk : Link) :
  (∀ l1 l2, l1 ∈ links topo → l2 ∈ links topo →
     (src_dpid l1 = src_dpid l2 → dst_dpid l1 = dst_dpid l2 →
      src_port_no l1 = src_port_no l2 ∧ dst_port_no l1 = dst_port_no l2)
     ∧ (src_dpid l1 = dst_dpid l2 → dst_dpid l1 = src_dpid l2 →
        src_port_no l1 = dst_port_no l2)) →
  lk ∈ links topo →
  let a := adj (_build_graph topo st).1 in
  od_get a (src_dpid lk, dst_dpid lk) = Some (src_port_no lk)
  ∧ od_get a (dst_dpid lk, src_dpid lk) = Some (dst_port_no lk).
Proof.
  destruct topo as [sw l]. cbn [switches links].
  intros Hc Hlk. cbv zeta. rewrite build_graph_state. cbn [adj set_graph].
  destruct (build_adj (mode st) sw l (src_dpid lk) (dst_dpid lk))
    as [H1 H2].
  destruct (build_adj (mode st) sw l (dst_dpid lk) (src_dpid lk))
    as [H3 H4].
  split.
  - destruct (proj2 H1) as [p Hp]; [exists lk; tauto|].
    rewrite Hp. f_equal.
    destruct (H2 p Hp) as (l' & Hl' & [(? & ? & <-)|(? & ? & <-)]).
    + symmetry. by apply (Hc lk l').
    + symmetry. by apply (Hc lk l').
  - destruct (proj2 H3) as [p Hp]; [exists lk; tauto|].
    rewrite Hp. f_equal.
    destruct (H4 p Hp) as (l' & Hl' & [(? & ? & <-)|(? & ? & <-)]).
    + by apply (Hc l' lk).
    + symmetry. by apply (Hc lk l').
Qed.

Lemma built_port_map_ports_witness :
  mkLink 2 3 3 2 ∈ links topo_line
  ∧ od_get (adj st_built) (2, 3) = Some 3
  ∧ od_get (adj st_built) (3, 2) = Some 2.
Proof.
  assert (mkLink 2 3 3 2 ∈ links topo_line) as Hin
    by (vm_compute; do 2 right; left).
  split; [exact Hin|].
  apply (built_port_map_ports topo_line st_ports (mkLink 2 3 3 2)); [|exact Hin].
  intros l1 l2 H1 H2. vm_compute in H1, H2.
  repeat (apply elem_of_cons in H1 as [->|H1]);
    try (by apply elem_of_nil in H1);
    repeat (apply elem_of_cons in H2 as [->|H2]);
    try (by apply elem_of_nil in H2); by vm_compute.
Defined.

(** X8. The link-port set of a switch built from a snapshot holds exactly
    the ports the reported links have at that switch, as source or as
    destination. *)
Theorem built_link_ports (topo : Topology) (st : State) (u p : Z) :
  p ∈ default ∅ (sw_link_ports (_build_graph topo st).1 !! u)
  ↔ ∃ lk, lk ∈ links topo
      ∧ ((src_dpid lk = u ∧ src_port_no lk = p)
         ∨ (dst_dpid lk = u ∧ dst_port_no lk = p)).
Proof.
  destruct topo as [sw l]. cbn [switches links].
  rewrite build_graph_state. cbn [sw_link_ports set_graph].
  apply build_link_ports.
Qed.

(** X9. The built graph has an edge between u and v exactly when a
    reported link joins them; the edge is the same seen from either end, its
    bandwidth is the table value of the pair (default 10) and its weight is 1
    in hop-count mode and 1/bandwidth in inverse-bandwidth mode. *)
Theorem built_graph_edges (topo : Topology) (st : State) (u v : Z)
    (d : EdgeData) :
  let g := G (_build_graph topo st).1 in
  (nx.get_edge_data g u v = Some d
   ↔ (∃ lk, lk ∈ links topo
        ∧ ((src_dpid lk = u ∧ dst_dpid lk = v)
           ∨ (src_dpid lk = v ∧ dst_dpid lk = u)))
     ∧ d = mkEdgeData (link_bw_get u v)
             (edge_weight (mode st) (link_bw_get u v)))
  ∧ nx.get_edge_data g u v = nx.get_edge_data g v u.
Proof.
  destruct topo as [sw l]. cbn [switches links].
  cbv zeta. rewrite build_graph_state. cbn [G set_graph].
  split; [apply build_edges|].
  pose proof (build_edges (mode st) sw l u v) as Huv.
  pose proof (build_edges (mode st) sw l v u) as Hvu.
  destruct (nx.get_edge_data _ u v) as [e|] eqn:He.
  - symmetry. apply Hvu. destruct (proj1 (Huv e) eq_refl) as [(lk & ? & ?) ->].
    split; [exists lk; tauto|]. by rewrite (link_bw_get_sym u v).
  - destruct (nx.get_edge_data _ v u) as [e|] eqn:He'; [|done].
    destruct (proj1 (Hvu e) eq_refl) as [(lk & ? & ?) ->].
    assert (None = Some (mkEdgeData (link_bw_get u v)
              (edge_weight (mode st) (link_bw_get u v)))) as Hbad; [|done].
    apply Huv. split; [exists lk; tauto|done].
Qed.

(** ** Host ports over the whole graph *)

Lemma deduce_host_port_value (d : Z) (allp linkp : gset Z) :
  (deduce_host_port d allp linkp).1 ∈ allp ∖ linkp
  ∨ (allp ∖ linkp = ∅ ∧ (deduce_host_port d allp linkp).1 = 1).
Proof.
  unfold deduce_host_port. cbv zeta.
  destruct (decide (size (allp ∖ linkp) = 1%nat)) as [H1|H1]; cbn [fst].
  - left. apply size_1_elem_of in H1 as [x Hx]. apply leibniz_equiv in Hx.
    rewrite Hx, next_iter_singleton. by apply elem_of_singleton.
  - destruct (decide (1 < size (allp ∖ linkp))%nat) as [H2|H2]; cbn [fst].
    + left. apply set_min_spec. intros H0. rewrite H0, size_empty in H2. lia.
    + right. split; [|done]. apply leibniz_equiv, size_empty_inv. lia.
Qed.

(** X10. After host-port deduction the host-port table has an entry for
    exactly the switches of the graph (entries of switches that left are
    dropped), and the port of a switch is one of its usable ports that no
    link uses, or 1 when there is no such port. *)
Theorem deduced_host_ports_cover_the_graph (st : State) (d : Z) :
  let st' := (_deduce_host_ports st).1 in
  let cand := (default ∅ (sw_all_ports st !! d))
              ∖ (default ∅ (sw_link_ports st !! d)) in
  (is_Some (host_port st' !! d) ↔ d ∈ nx.nodes (G st))
  ∧ (∀ hp, host_port st' !! d = Some hp →
           hp ∈ cand ∨ (cand = ∅ ∧ hp = 1)).
Proof.
  cbv zeta. unfold _deduce_host_ports.
  pose proof (deduce_loop_lookup (sw_all_ports st) (sw_link_ports st)
                (nx.nodes (G st)) ∅ d) as Hl.
  destruct (deduce_loop _ _ _ _) as [hpm tr]. cbn [fst host_port set_host_port] in *.
  rewrite Hl. case_decide as Hin.
  - split; [by split|]. intros hp [= <-]. apply deduce_host_port_value.
  - rewrite lookup_empty. split; [|done]. split; [by intros [? ?]|done].
Qed.

(** What a rebuild over a snapshot with at least one node returns. *)
Lemma rebuild_nonempty sp topo st :
  (build_tables (mode st) topo).1.1 ≠ [] →
  let b := build_tables (mode st) topo in
  let st1 := set_graph st b.1.1 b.1.2 b.2 in
  let dl := deduce_loop (sw_all_ports st) b.2 (nx.nodes b.1.1) ∅ in
  let st2 := set_host_port st1 dl.1 in
  _rebuild_graph_and_push sp topo st
  = (st2,
     [Log (InfoGraphReady (nx.number_of_nodes b.1.1)
             (nx.number_of_edges b.1.1) (mode st))]
     ++ dl.2 ++ _clear_all_flows st2 ++ _install_all_destinations sp st2).
Proof.
  intros Hne. cbv zeta. unfold _rebuild_graph_and_push, _build_graph.
  destruct (build_tables (mode st) topo) as [[g a] lp]. cbn [fst snd] in *.
  cbn [G set_graph]. rewrite decide_False.
  - unfold _deduce_host_ports. cbn [G set_graph sw_all_ports sw_link_ports].
    by destruct (deduce_loop _ _ _ _).
  - unfold nx.number_of_nodes. destruct g; [done|]. simpl. lia.
Qed.

Lemma elem_of_port_desc_ports ofpp_max body p :
  p ∈ port_desc_ports ofpp_max body ↔ p ∈ body ∧ p < ofpp_max.
Proof.
  unfold port_desc_ports.
  rewrite elem_of_list_to_set, list_elem_of_In, filter_In,
    <- list_elem_of_In, bool_decide_eq_true. done.
Qed.

(** X11. After a port-description reply of a switch, the rebuild gives
    that switch (when it is in the graph) a host port that is 1 or a port of
    the reply below [OFPP_MAX] that no reported link uses at that switch: a
    reserved port is never taken as host port. *)
Theorem host_port_after_port_desc
    (sp : Graph → Z → Z → option (list Z)) (ofpp_max dpid : Z)
    (body : list Z) (topo : Topology) (st : State) (hp : Z) :
  let st' := (_port_desc_reply sp dpid (port_desc_ports ofpp_max body)
                               topo st).1 in
  dpid ∈ nx.nodes (G st') →
  host_port st' !! dpid = Some hp →
  hp = 1
  ∨ (hp ∈ body ∧ hp < ofpp_max
     ∧ ∀ lk, lk ∈ links topo →
         ¬ (src_dpid lk = dpid ∧ src_port_no lk = hp)
         ∧ ¬ (dst_dpid lk = dpid ∧ dst_port_no lk = hp)).
Proof.
  cbv zeta. unfold _port_desc_reply.
  set (st0 := set_all_ports st _).
  destruct (decide ((build_tables (mode st0) topo).1.1 = [])) as [He|Hne].
  - rewrite rebuild_empty.
    + cbn [fst G set_graph]. by intros ?%elem_of_nil.
    + rewrite build_graph_state. cbn [G set_graph]. by rewrite He.
  - rewrite (rebuild_nonempty sp topo st0 Hne).
    cbn [fst G host_port set_graph set_host_port].
    rewrite deduce_loop_lookup. intros Hin. rewrite decide_True by done.
    intros [= <-]. subst st0. cbn [sw_all_ports set_all_ports].
    rewrite lookup_insert_eq. cbn [from_option id].
    destruct (deduce_host_port_value dpid (port_desc_ports ofpp_max body)
                (default ∅ ((build_tables (mode st) topo).2 !! dpid)))
      as [Hc|[_ H1]]; [|by left].
    right. apply elem_of_difference in Hc as [Hb Hl].
    apply elem_of_port_desc_ports in Hb as [? ?]. split_and!; [done..|].
    intros lk Hlk. destruct topo as [sw l]. cbn [links] in Hlk.
    rewrite build_link_ports in Hl.
    split; intros [? ?]; apply Hl; exists lk; tauto.
Qed.

Lemma host_port_after_port_desc_witness :
  2 ∈ nx.nodes (G (_port_desc_reply dijkstra.shortest_path 2
                     (port_desc_ports 0xffffff00 desc_body) topo_line
                     st_ports).1)
  ∧ host_port (_port_desc_reply dijkstra.shortest_path 2
                 (port_desc_ports 0xffffff00 desc_body) topo_line
                 st_ports).1 !! 2 = Some 1
  ∧ (1 = 1
     ∨ (1 ∈ desc_body ∧ 1 < 0xffffff00
        ∧ ∀ lk, lk ∈ links topo_line →
            ¬ (src_dpid lk = 2 ∧ src_port_no lk = 1)
            ∧ ¬ (dst_dpid lk = 2 ∧ dst_port_no lk = 1))).
Proof.
  assert (2 ∈ nx.nodes (G (_port_desc_reply dijkstra.shortest_path 2
                     (port_desc_ports 0xffffff00 desc_body) topo_line
                     st_ports).1)) as Hin by (vm_compute; right; left).
  assert (host_port (_port_desc_reply dijkstra.shortest_path 2
                 (port_desc_ports 0xffffff00 desc_body) topo_line
                 st_ports).1 !! 2 = Some 1) as Hhp by (by vm_compute).
  split_and!; [exact Hin | exact Hhp |].
  exact (host_port_after_port_desc dijkstra.shortest_path 0xffffff00 2
           desc_body topo_line st_ports 1 Hin Hhp).
Defined.

(** X12. A rebuild writes only the graph, the port map, the link-port
    sets and the host ports: mode, datapaths, usable-port sets and every
    counter table come out as they went in; and a port-statistics reply
    writes only the counter tables. *)
Theorem rebuild_and_stats_write_disjoint_fields
    (sp : Graph → Z → Z → option (list Z)) (topo : Topology) (st : State)
    (dpid : Z) (now : Q) (body : list OFPPortStats) :
  let st1 := (_rebuild_graph_and_push sp topo st).1 in
  let st2 := _port_stats_reply dpid now body st in
  (mode st1 = mode st ∧ datapaths st1 = datapaths st
   ∧ sw_all_ports st1 = sw_all_ports st
   ∧ port_stats st1 = port_stats st
   ∧ port_stats_prev st1 = port_stats_prev st
   ∧ stats_timestamp st1 = stats_timestamp st)
  ∧ (mode st2 = mode st ∧ G st2 = G st ∧ adj st2 = adj st
     ∧ datapaths st2 = datapaths st
     ∧ sw_all_ports st2 = sw_all_ports st
     ∧ sw_link_ports st2 = sw_link_ports st
     ∧ host_port st2 = host_port st).
Proof.
  cbv zeta. split.
  - destruct (decide ((build_tables (mode st) topo).1.1 = [])) as [He|Hne].
    + rewrite rebuild_empty; [done|].
      rewrite build_graph_state. cbn [G set_graph]. by rewrite He.
    + by rewrite (rebuild_nonempty sp topo st Hne).
  - unfold _port_stats_reply.
    destruct (port_stats st !! dpid); by destruct (foldl _ _ _).
Qed.

(** ** What the installer sends, and what it never sends *)

Lemma elem_of_install_at sp st d ip u e :
  e ∈ install_at sp st d ip u →
  (∃ l, e = Log l)
  ∨ (u ∈ datapaths st
     ∧ ∃ port, (egress_port sp st d ip u).1 = Some port
         ∧ e ∈ dest_rules u ip port).
Proof.
  unfold install_at.
  assert (∀ x, x ∈ (egress_port sp st d ip u).2 → ∃ l, x = Log l) as Hlog.
  { unfold egress_port. case_decide; [by intros ? ?%elem_of_nil|].
    destruct (sp (G st) u d) as [[|? [|v ?]]|]; cbn [snd];
      try (by intros ? ?%elem_of_nil);
      [|intros ? ->%list_elem_of_singleton; eauto].
    destruct (od_get (adj st) (u, v)); cbn [snd];
      [by intros ? ?%elem_of_nil|].
    intros ? ->%list_elem_of_singleton; eauto. }
  destruct (egress_port sp st d ip u) as [[port|] tr]; cbn [fst snd] in *.
  - rewrite elem_of_app. intros [?|Hr]; [left; by apply Hlog|].
    destruct (bool_decide (u ∈ datapaths st)) eqn:Hdp;
      [|by apply elem_of_nil in Hr].
    apply bool_decide_eq_true in Hdp. right. eauto.
  - intros ?. left. by apply Hlog.
Qed.

Lemma elem_of_install_all sp st e :
  e ∈ _install_all_destinations sp st →
  (∃ l, e = Log l)
  ∨ ∃ d u port,
      1 ≤ d ≤ NUM_HOSTS ∧ d ∈ nx.nodes (G st) ∧ u ∈ nx.nodes (G st)
      ∧ u ∈ datapaths st
      ∧ (egress_port sp st d (ip_of d) u).1 = Some port
      ∧ e ∈ dest_rules u (ip_of d) port.
Proof.
  unfold _install_all_destinations. rewrite elem_of_app.
  intros [Hin| ->%list_elem_of_singleton]; [|left; eauto].
  apply list_elem_of_In, in_flat_map in Hin as (d & Hd & Hin).
  apply list_elem_of_In, elem_of_seqZ in Hd.
  unfold install_destination, nx.has_node in Hin.
  destruct (od_mem (G st) d) eqn:Hm.
  - apply od_mem_true in Hm.
    apply in_flat_map in Hin as (u & Hu%list_elem_of_In & Hin%list_elem_of_In).
    apply elem_of_install_at in Hin as [?|(Hdp & port & Hp & He)]; [by left|].
    right. exists d, u, port. unfold NUM_HOSTS in *.
    split_and!; [lia | lia | done..].
  - apply list_elem_of_In, list_elem_of_singleton in Hin as ->. left; eauto.
Qed.

(** X13. Every message of the route installer is a priority-100 rule for
    a destination 10.0.0.d with d in 1..14 a node of the graph, with the
    single action "output to the pair's egress port", sent to a switch of the
    graph that has a datapath: the installer neither deletes rules nor sends
    anything to a switch without a datapath. *)
Theorem installer_sends_only_destination_rules
    (sp : Graph → Z → Z → option (list Z)) (st : State) (u : Z) (m : FlowMod) :
  Send u m ∈ _install_all_destinations sp st →
  u ∈ datapaths st ∧ u ∈ nx.nodes (G st) ∧ m ≠ FlowDelete
  ∧ ∃ d port,
      1 ≤ d ≤ NUM_HOSTS ∧ d ∈ nx.nodes (G st)
      ∧ (egress_port sp st d (ip_of d) u).1 = Some port
      ∧ (m = FlowAdd 100 (mkMatch (Some 0x0800) (Some (ip_of d)) None)
                 [ApplyActions [ActionOutput port]]
         ∨ m = FlowAdd 100 (mkMatch (Some 0x0806) None (Some (ip_of d)))
                   [ApplyActions [ActionOutput port]]).
Proof.
  intros [(l & ?)|(d & u' & port & Hd & Hdin & Huin & Hdp & Hp & He)]%elem_of_install_all;
    [done|].
  unfold dest_rules in He.
  apply elem_of_cons in He as [[= -> ->]|He];
    [|apply list_elem_of_singleton in He as [= -> ->]].
  - split_and!; [done..|]. exists d, port.
    split; [done|]. split; [done|]. split; [done|]. by left.
  - split_and!; [done..|]. exists d, port.
    split; [done|]. split; [done|]. split; [done|]. by right.
Qed.

Lemma installer_sends_only_destination_rules_witness :
  Send 1 (FlowAdd 100 (mkMatch (Some 0x0800) (Some (ip_of 3)) None)
            [ApplyActions [ActionOutput 2]])
    ∈ _install_all_destinations dijkstra.shortest_path st_line
  ∧ 1 ∈ datapaths st_line ∧ 1 ∈ nx.nodes (G st_line).
Proof.
  assert (Send 1 (FlowAdd 100 (mkMatch (Some 0x0800) (Some (ip_of 3)) None)
                    [ApplyActions [ActionOutput 2]])
          ∈ _install_all_destinations dijkstra.shortest_path st_line) as Hin.
  { apply (list_elem_of_lookup_2 _ 12%nat). by vm_compute. }
  destruct (installer_sends_only_destination_rules _ _ _ _ Hin)
    as (H1 & H2 & _).
  by split_and!.
Defined.

Lemma filter_Logs (f : Event → bool) (tr : Trace) :
  (∀ l, f (Log l) = false) → (∀ e, e ∈ tr → ∃ l, e = Log l) →
  List.filter f tr = [].
Proof.
  intros Hf. induction tr as [|e tr IH]; intros Hall; [done|].
  destruct (Hall e ltac:(left)) as [l ->]. simpl. rewrite Hf.
  apply IH. intros e' He'. apply Hall. by right.
Qed.

(** X14. When the shortest path from u to d has a second node v but the
    port map has no port from u to v, the pair (u, d) gets no rule and a
    warning naming u and v; a path without a second node gives no rule
    either. *)
Theorem missing_port_mapping_is_skipped
    (sp : Graph → Z → Z → option (list Z)) (st : State) (d u : Z)
    (path : list Z) :
  NoDup (nx.nodes (G st)) →
  1 ≤ d ≤ NUM_HOSTS → d ∈ nx.nodes (G st) → u ∈ nx.nodes (G st) →
  u ≠ d → sp (G st) u d = Some path →
  let tr := _install_all_destinations sp st in
  (∀ v, path !! 1%nat = Some v → od_get (adj st) (u, v) = None →
        rules_for u d tr = []
        ∧ Log (WarnUnknownPort u v (ip_of d)) ∈ tr)
  ∧ (path !! 1%nat = None → rules_for u d tr = []).
Proof.
  intros Hnd Hd Hdin Huin Hne Hp tr. subst tr. split.
  - intros v Hv Hport.
    assert (egress_port sp st d (ip_of d) u
            = (None, [Log (WarnUnknownPort u v (ip_of d))])) as Heg.
    { unfold egress_port. rewrite decide_False by done. rewrite Hp.
      destruct path as [|? [|v' ?]]; [done..|].
      injection Hv as ->. by rewrite Hport. }
    split.
    + rewrite rules_for_pair by done. by rewrite Heg.
    + apply (Log_in_install_all sp st d u); [done..|].
      unfold install_at. rewrite Heg. left.
  - intros Hv. rewrite rules_for_pair by done.
    unfold egress_port. rewrite decide_False by done. rewrite Hp.
    by destruct path as [|? [|v' ?]].
Qed.

Lemma missing_port_mapping_is_skipped_witness :
  NoDup (nx.nodes (G st_line))
  ∧ rules_for 1 3
      (_install_all_destinations (λ _ _ _, Some [1; 3]) st_line) = []
  ∧ Log (WarnUnknownPort 1 3 (ip_of 3))
      ∈ _install_all_destinations (λ _ _ _, Some [1; 3]) st_line.
Proof.
  assert (NoDup (nx.nodes (G st_line))) as Hnd.
  { apply (NoDup_fmap_1 Z.to_nat). vm_compute. apply (NoDup_seq 1 3). }
  split; [exact Hnd|].
  destruct (missing_port_mapping_is_skipped (λ _ _ _, Some [1; 3]) st_line
              3 1 [1; 3] Hnd) as [H _].
  - unfold NUM_HOSTS. lia.
  - vm_compute. do 2 right; left.
  - vm_compute. left.
  - lia.
  - reflexivity.
  - exact (H 3 eq_refl eq_refl).
Defined.

(** X15. A destination gets no rule on any switch when its switch is not
    in the graph (a warning is logged for it when it is one of 1..14) or
    when its number is outside 1..14, even if such a switch is in the
    graph. *)
Theorem destination_without_rules
    (sp : Graph → Z → Z → option (list Z)) (st : State) (j : Z) :
  j ∉ nx.nodes (G st) ∨ ¬ (1 ≤ j ≤ NUM_HOSTS) →
  let tr := _install_all_destinations sp st in
  (∀ u, rules_for u j tr = [])
  ∧ (1 ≤ j ≤ NUM_HOSTS → j ∉ nx.nodes (G st) →
     Log (WarnDestinationNotInGraph j (ip_of j)) ∈ tr).
Proof.
  intros Hj tr. subst tr. split.
  - intros u. unfold rules_for, _install_all_destinations.
    rewrite List.filter_app. cbn [List.filter is_rule_for]. rewrite app_nil_r.
    apply filter_flat_map_nil. intros j' Hj'%elem_of_seqZ.
    unfold install_destination, nx.has_node.
    destruct (od_mem (G st) j') eqn:Hm; [|done].
    apply od_mem_true in Hm.
    unfold _install_tree_to_destination. apply filter_flat_map_nil.
    intros u' _. apply filter_install_at_other.
    intros [_ <-%ip_of_inj]. unfold NUM_HOSTS in *.
    destruct Hj as [Hj|Hj]; [done|lia].
  - intros Hr Hn. unfold _install_all_destinations.
    apply elem_of_app. left. apply list_elem_of_In, in_flat_map.
    exists j. split.
    + apply list_elem_of_In, elem_of_seqZ. unfold NUM_HOSTS in *. lia.
    + unfold install_destination, nx.has_node.
      destruct (od_mem (G st) j) eqn:Hm;
        [by apply od_mem_true in Hm|]. by left.
Qed.

Lemma destination_without_rules_witness :
  (4 ∉ nx.nodes (G st_line) ∨ ¬ (1 ≤ 4 ≤ NUM_HOSTS))
  ∧ rules_for 1 4 (_install_all_destinations dijkstra.shortest_path st_line)
    = []
  ∧ Log (WarnDestinationNotInGraph 4 (ip_of 4))
      ∈ _install_all_destinations dijkstra.shortest_path st_line.
Proof.
  assert (4 ∉ nx.nodes (G st_line)) as Hn.
  { vm_compute. intros H. repeat (apply elem_of_cons in H as [H|H]; [done|]).
    by apply elem_of_nil in H. }
  destruct (destination_without_rules dijkstra.shortest_path st_line 4
              (or_introl Hn)) as [H1 H2].
  split_and!; [by left | exact (H1 1) |].
  apply H2; [unfold NUM_HOSTS; lia | exact Hn].
Defined.

(** ** The messages of a rebuild *)

Lemma deduce_loop_logs allm linkm ns hpm e :
  e ∈ (deduce_loop allm linkm ns hpm).2 → ∃ l, e = Log l.
Proof.
  intros (n & _ & [Hw| ->])%deduce_loop_trace; [|eauto].
  apply deduce_host_port_lines in Hw as [->|(c & h & ->)]; eauto.
Qed.

Lemma filter_clear_all_flows u ip st :
  List.filter (is_rule_for u ip) (_clear_all_flows st) = [].
Proof.
  unfold _clear_all_flows. apply filter_flat_map_nil. intros dp _.
  cbn. rewrite !bool_decide_eq_false_2; [done|..]; by intros [_ [?|?]].
Qed.

(** The destination rules of a rebuild are those of its installer run. *)
Lemma rules_for_rebuild sp topo st u d :
  (build_tables (mode st) topo).1.1 ≠ [] →
  rules_for u d (_rebuild_graph_and_push sp topo st).2
  = rules_for u d
      (_install_all_destinations sp (_rebuild_graph_and_push sp topo st).1).
Proof.
  intros Hne. rewrite (rebuild_nonempty sp topo st Hne). cbn [fst snd].
  unfold rules_for. rewrite !List.filter_app.
  rewrite filter_clear_all_flows.
  rewrite (filter_Logs _ (deduce_loop _ _ _ _).2);
    [done|done|apply deduce_loop_logs].
Qed.

Lemma rebuild_graph sp topo st :
  G (_rebuild_graph_and_push sp topo st).1 = (build_tables (mode st) topo).1.1
  ∧ adj (_rebuild_graph_and_push sp topo st).1
    = (build_tables (mode st) topo).1.2
  ∧ sw_link_ports (_rebuild_graph_and_push sp topo st).1
    = (build_tables (mode st) topo).2
  ∧ mode (_rebuild_graph_and_push sp topo st).1 = mode st
  ∧ datapaths (_rebuild_graph_and_push sp topo st).1 = datapaths st.
Proof.
  destruct (decide ((build_tables (mode st) topo).1.1 = [])) as [He|Hne].
  - rewrite rebuild_empty.
    + cbn [fst G adj sw_link_ports set_graph].
      by rewrite (build_tables_empty _ _ He).
    + rewrite build_graph_state. cbn [G set_graph]. by rewrite He.
  - by rewrite (rebuild_nonempty sp topo st Hne).
Qed.

(** X16. In a rebuild the rules installed at a destination switch d (d in
    1..14, in the graph, with a datapath) are the IPv4 and the ARP flow-mod
    for 10.0.0.d at priority 100, both with the single action "output to the
    host port just deduced for d": a usable port of d that no reported link
    uses, or 1 when there is none. *)
Theorem rebuild_installs_deduced_host_port
    (sp : Graph → Z → Z → option (list Z)) (topo : Topology) (st : State)
    (d : Z) :
  let st' := (_rebuild_graph_and_push sp topo st).1 in
  let tr := (_rebuild_graph_and_push sp topo st).2 in
  let cand := (default ∅ (sw_all_ports st !! d))
              ∖ (default ∅ (sw_link_ports st' !! d)) in
  1 ≤ d ≤ NUM_HOSTS → d ∈ nx.nodes (G st') → d ∈ datapaths st →
  ∃ hp, host_port st' !! d = Some hp
      ∧ (hp ∈ cand ∨ (cand = ∅ ∧ hp = 1))
      ∧ rules_for d d tr
        = [ Send d (FlowAdd 100 (mkMatch (Some 0x0800) (Some (ip_of d)) None)
                      [ApplyActions [ActionOutput hp]]);
            Send d (FlowAdd 100 (mkMatch (Some 0x0806) None (Some (ip_of d)))
                      [ApplyActions [ActionOutput hp]]) ].
Proof.
  cbv zeta. intros Hd Hin Hdp.
  destruct (rebuild_graph sp topo st) as (HG & _ & Hlp & _ & Hdps).
  assert ((build_tables (mode st) topo).1.1 ≠ []) as Hne.
  { intros He. rewrite HG, He in Hin. by apply elem_of_nil in Hin. }
  rewrite rules_for_rebuild by done.
  rewrite rules_for_pair; [|rewrite HG; apply build_tables_NoDup|done..].
  rewrite Hdps, bool_decide_eq_true_2 by done.
  unfold egress_port. rewrite decide_True by done. cbn [fst].
  rewrite Hlp. rewrite HG in Hin.
  rewrite (rebuild_nonempty sp topo st Hne).
  cbn [fst host_port set_host_port set_graph].
  rewrite deduce_loop_lookup, decide_True by done. cbn [from_option id].
  eexists. split; [done|]. split; [|done]. apply deduce_host_port_value.
Qed.

Lemma rebuild_installs_deduced_host_port_witness :
  2 ∈ nx.nodes (G st_line) ∧ 2 ∈ datapaths st_ports
  ∧ ∃ hp, host_port st_line !! 2 = Some hp
      ∧ rules_for 2 2
          (_rebuild_graph_and_push dijkstra.shortest_path topo_line st_ports).2
        = [ Send 2 (FlowAdd 100 (mkMatch (Some 0x0800) (Some "10.0.0.2") None)
                      [ApplyActions [ActionOutput hp]]);
            Send 2 (FlowAdd 100 (mkMatch (Some 0x0806) None (Some "10.0.0.2"))
                      [ApplyActions [ActionOutput hp]]) ].
Proof.
  assert (2 ∈ nx.nodes (G st_line)) as Hin by (vm_compute; right; left).
  assert (2 ∈ datapaths st_ports) as Hdp by (vm_compute; right; left).
  split_and!; [exact Hin | exact Hdp |].
  destruct (rebuild_installs_deduced_host_port dijkstra.shortest_path
              topo_line st_ports 2) as (hp & Hhp & _ & Hr);
    [unfold NUM_HOSTS; lia | exact Hin | exact Hdp |].
  exists hp. by split.
Defined.

Lemma sent_Logs (tr : Trace) : (∀ e, e ∈ tr → ∃ l, e = Log l) → sent tr = [].
Proof.
  induction tr as [|e tr IH]; intros Hall; [done|].
  destruct (Hall e ltac:(left)) as [l ->]. unfold sent in *. cbn.
  apply IH. intros e' He'. apply Hall. by right.
Qed.

Lemma sent_clear_all_flows st :
  sent (_clear_all_flows st)
  = flat_map (λ u, [ (u, FlowDelete);
                     (u, FlowAdd 500 (mkMatch (Some 0x88cc) None None)
                           [ApplyActions [ActionController]]);
                     (u, FlowAdd 0 (mkMatch None None None) []) ])
             (datapaths st).
Proof.
  unfold _clear_all_flows. induction (datapaths st) as [|u l IH]; [done|].
  cbn [flat_map]. rewrite sent_app, IH. done.
Qed.

Lemma elem_of_sent tr u m : (u, m) ∈ sent tr ↔ Send u m ∈ tr.
Proof.
  unfold sent. rewrite list_elem_of_omap. split.
  - intros ([u' m'|l] & Hin & Hs); [|done]. by injection Hs as -> ->.
  - intros Hin. by exists (Send u m).
Qed.

(** X17. The messages of a rebuild over a non-empty graph are, in order:
    for every datapath the wildcard delete followed by the two base rules,
    then the destination rules; no delete follows a destination rule, so the
    cycle never wipes what it has just installed. *)
Theorem rebuild_wipes_before_it_installs
    (sp : Graph → Z → Z → option (list Z)) (topo : Topology) (st : State) :
  nx.number_of_nodes (G (_build_graph topo st).1) ≠ 0 →
  let st' := (_rebuild_graph_and_push sp topo st).1 in
  let tr := (_rebuild_graph_and_push sp topo st).2 in
  sent tr
  = flat_map (λ u, [ (u, FlowDelete);
                     (u, FlowAdd 500 (mkMatch (Some 0x88cc) None None)
                           [ApplyActions [ActionController]]);
                     (u, FlowAdd 0 (mkMatch None None None) []) ])
             (datapaths st)
    ++ sent (_install_all_destinations sp st')
  ∧ ∀ u m, (u, m) ∈ sent (_install_all_destinations sp st') →
           m ≠ FlowDelete ∧ u ∈ datapaths st.
Proof.
  intros Hn. cbv zeta.
  assert ((build_tables (mode st) topo).1.1 ≠ []) as Hne.
  { intros He. apply Hn. rewrite build_graph_state. cbn [G set_graph].
    by rewrite He. }
  destruct (rebuild_graph sp topo st) as (_ & _ & _ & _ & Hdps). split.
  - rewrite (rebuild_nonempty sp topo st Hne) at 1. cbn [snd].
    rewrite !sent_app. rewrite (sent_Logs (deduce_loop _ _ _ _).2)
      by apply deduce_loop_logs.
    rewrite sent_clear_all_flows. cbn [datapaths set_host_port set_graph].
    by rewrite (rebuild_nonempty sp topo st Hne) at 1.
  - intros u m Hin%elem_of_sent.
    apply elem_of_install_all in Hin
      as [(l & ?)|(d & u' & port & _ & _ & _ & Hdp & _ & He)]; [done|].
    rewrite Hdps in Hdp. unfold dest_rules in He.
    apply elem_of_cons in He as [[= -> ->]|He];
      [|apply list_elem_of_singleton in He as [= -> ->]]; by split.
Qed.

Lemma rebuild_wipes_before_it_installs_witness :
  nx.number_of_nodes (G (_build_graph topo_line st_ports).1) ≠ 0
  ∧ ∀ u m,
      (u, m) ∈ sent (_install_all_destinations dijkstra.shortest_path st_line)
      → m ≠ FlowDelete ∧ u ∈ datapaths st_ports.
Proof.
  assert (nx.number_of_nodes (G (_build_graph topo_line st_ports).1) ≠ 0)
    as Hn by (by vm_compute).
  split; [exact Hn|].
  exact (proj2 (rebuild_wipes_before_it_installs dijkstra.shortest_path
                  topo_line st_ports Hn)).
Defined.



(** ** Mode changes and path queries *)

(** X19. The mode endpoint accepts both modes: the answer is 200 with the
    requested mode, which is then the controller's mode; asking for the
    current mode changes nothing and sends nothing; asking for the other one
    rebuilds the graph, whose edges then carry the weights of the new mode. *)
Theorem rest_set_mode_accepts_valid_modes
    (sp : Graph → Z → Z → option (list Z)) (s : string) (topo : Topology)
    (st : State) :
  s ∈ ["hops"; "distrak"] →
  let r := rest_set_mode sp (JsonBody (ModeString s)) topo st in
  r.1.1 = mkResponse 200 (ModeSet s)
  ∧ mode r.1.2 = s
  ∧ (s = mode st → r.1.2 = st ∧ r.2 = [])
  ∧ (s ≠ mode st → ∀ u v d,
       nx.get_edge_data (G r.1.2) u v = Some d →
       d = mkEdgeData (link_bw_get u v) (edge_weight s (link_bw_get u v))).
Proof.
  intros Hs. cbv zeta. unfold rest_set_mode, set_mode.
  rewrite !bool_decide_eq_true_2 by done.
  destruct (decide (s ≠ mode st)) as [Hne|Heq].
  - destruct (rebuild_graph sp topo (set_mode_field st s))
      as (HG & _ & _ & Hm & _).
    destruct (_rebuild_graph_and_push sp topo (set_mode_field st s))
      as [st' tr]. cbn [fst snd mode set_mode_field] in *.
    rewrite Hm. split_and!; [done | done | done |].
    intros _ u v d. rewrite HG. destruct topo as [sw l].
    rewrite build_edges. by intros [_ ->].
  - apply dec_stable in Heq. subst s. cbn [fst snd].
    split_and!; [done | done | done |]. by intros ?.
Qed.

Lemma rest_set_mode_accepts_valid_modes_witness :
  "distrak" ∈ ["hops"; "distrak"]
  ∧ (rest_set_mode dijkstra.shortest_path (JsonBody (ModeString "distrak"))
       topo_line st_line).1.1
    = mkResponse 200 (ModeSet "distrak").
Proof.
  assert ("distrak" ∈ ["hops"; "distrak"]) as Hin by (right; left).
  split; [exact Hin|].
  exact (proj1 (rest_set_mode_accepts_valid_modes dijkstra.shortest_path
                  "distrak" topo_line st_line Hin)).
Defined.

Lemma path_links_length st (p : list Z) :
  length (path_links st p) = pred (length p).
Proof.
  induction p as [|u [|v p] IH]; [done..|].
  cbn [path_links length pred] in *. by rewrite IH.
Qed.

Lemma path_links_weight st (p : list Z) l :
  l ∈ path_links st p →
  ∃ u v, pl_weight l = e_weight <$> nx.get_edge_data (G st) u v.
Proof.
  induction p as [|u [|v p] IH]; [by intros ?%elem_of_nil..|].
  cbn [path_links]. intros [->|Hin]%elem_of_cons; [by exists u, v|].
  by apply IH.
Qed.

Lemma weight_sum_of_unit_weights (ls : list PathLink) :
  (∀ l, l ∈ ls → default 1%Q (pl_weight l) = 1%Q) →
  (weight_sum ls == inject_Z (Z.of_nat (length ls)))%Q.
Proof.
  unfold weight_sum.
  assert (∀ acc,
    (∀ l, l ∈ ls → default 1%Q (pl_weight l) = 1%Q) →
    (foldl (λ acc l, acc + default 1 (pl_weight l)) acc ls
     == acc + inject_Z (Z.of_nat (length ls)))%Q) as H.
  { induction ls as [|l ls IH]; intros acc Hall; cbn [foldl length].
    - simpl. ring.
    - rewrite IH by (intros; apply Hall; by right).
      rewrite (Hall l) by left. rewrite Nat2Z.inj_succ, <- Z.add_1_l.
      rewrite inject_Z_plus. ring. }
  intros Hall. rewrite H by done. ring.
Qed.

(** X20. A successful path query reports the path the shortest-path
    routine returned between two nodes of the graph, one link entry per hop,
    and a hop count equal to the number of link entries; after a rebuild in
    hop-count mode the reported weight sum equals the hop count. *)
Theorem path_query_counts_hops
    (sp : Graph → Z → Z → option (list Z)) (topo : Topology) (st0 : State)
    (src dst : option string) (p : PathPayload) :
  let st := (_rebuild_graph_and_push sp topo st0).1 in
  rest_path sp src dst st = mkResponse 200 (PathBody p) →
  pp_mode p = mode st0
  ∧ sp (G st) (pp_src p) (pp_dst p) = Some (pp_path p)
  ∧ pp_src p ∈ nx.nodes (G st) ∧ pp_dst p ∈ nx.nodes (G st)
  ∧ length (pp_links p) = pred (length (pp_path p))
  ∧ pp_hops p = Z.of_nat (length (pp_links p))
  ∧ (mode st0 ≠ "distrak" →
     (pp_weight_sum p == inject_Z (pp_hops p))%Q).
Proof.
  cbv zeta. destruct (rebuild_graph sp topo st0) as (HG & _ & _ & Hm & _).
  set (st := (_rebuild_graph_and_push sp topo st0).1) in *.
  unfold rest_path. destruct (_ || _); [done|].
  destruct (parse_node _) as [?|a]; [done|].
  destruct (parse_node _) as [?|b]; [done|].
  destruct (nx.has_node (G st) a) eqn:Ha; [|done].
  destruct (nx.has_node (G st) b) eqn:Hb; [|done]. cbn [negb orb].
  destruct (sp (G st) a b) as [path|] eqn:Hp; [|done].
  intros [= <-]. cbn [pp_mode pp_src pp_dst pp_path pp_links pp_hops
                      pp_weight_sum].
  pose proof (path_links_length st path) as Hlen.
  split_and!; [done | done | by apply od_mem_true | by apply od_mem_true
              | done | lia |].
  intros Hmd.
  assert (Z.max 0 (Z.of_nat (length path) - 1)
          = Z.of_nat (length (path_links st path))) as -> by lia.
  apply weight_sum_of_unit_weights. intros l Hl.
  destruct (path_links_weight st path l Hl) as (u & v & ->).
  destruct (nx.get_edge_data (G st) u v) as [d|] eqn:Hd; [|done].
  rewrite HG in Hd. destruct topo as [sw ls].
  apply build_edges in Hd as [_ ->]. cbn.
  unfold edge_weight. by rewrite decide_False.
Qed.

Lemma path_query_counts_hops_witness :
  ∃ p, rest_path dijkstra.shortest_path (Some "s1") (Some "10.0.0.3") st_line
       = mkResponse 200 (PathBody p)
    ∧ pp_path p = [1; 2; 3] ∧ pp_hops p = 2.
Proof.
  assert (∃ p, rest_path dijkstra.shortest_path (Some "s1") (Some "10.0.0.3")
                 st_line = mkResponse 200 (PathBody p)
               ∧ pp_path p = [1; 2; 3]) as (p & Hp & Hpath).
  { eexists. split; [by vm_compute|reflexivity]. }
  exists p. split; [exact Hp|]. split; [exact Hpath|].
  destruct (path_query_counts_hops dijkstra.shortest_path topo_line st_ports
              (Some "s1") (Some "10.0.0.3") p Hp)
    as (_ & _ & _ & _ & Hl & Hh & _).
  rewrite Hh, Hl, Hpath. reflexivity.
Defined.

(** ** Counter samples *)

(** The sample stored for one element of a reply received at [now]. *)
Local Abbreviation sample_of now stat :=
  {| rx_packets := ps_rx_packets stat; tx_packets := ps_tx_packets stat;
     rx_bytes := ps_rx_bytes stat;     tx_bytes := ps_tx_bytes stat;
     rx_dropped := ps_rx_dropped stat; tx_dropped := ps_tx_dropped stat;
     rx_errors := ps_rx_errors stat;   tx_errors := ps_tx_errors stat;
     timestamp := now |}.

Lemma foldl_record_stat (now : Q) (body : list OFPPortStats)
    (cur0 prev0 : gmap Z PortSample) :
  NoDup (ps_port_no <$> body) →
  let r := foldl (record_stat now) (cur0, prev0) body in
  (∀ stat, stat ∈ body →
     r.1 !! ps_port_no stat = Some (sample_of now stat)
     ∧ r.2 !! ps_port_no stat
       = match cur0 !! ps_port_no stat with
         | Some old => Some old
         | None => prev0 !! ps_port_no stat
         end)
  ∧ (∀ p, p ∉ ps_port_no <$> body →
       r.1 !! p = cur0 !! p ∧ r.2 !! p = prev0 !! p).
Proof.
  revert cur0 prev0. induction body as [|s body IH]; intros cur0 prev0 Hnd.
  - cbv zeta. cbn [foldl fst snd]. split; [by intros ? ?%elem_of_nil|done].
  - rewrite fmap_cons in Hnd. apply NoDup_cons in Hnd as [Hs Hnd].
    set (cur1 := <[ps_port_no s := sample_of now s]> cur0).
    set (prev1 := match cur0 !! ps_port_no s with
                  | Some old => <[ps_port_no s := old]> prev0
                  | None => prev0
                  end).
    cbv zeta.
    change (foldl (record_stat now) (cur0, prev0) (s :: body))
      with (foldl (record_stat now) (cur1, prev1) body).
    destruct (IH cur1 prev1 Hnd) as [IH1 IH2]. cbv zeta in IH1, IH2.
    assert (∀ p, p ≠ ps_port_no s →
              cur1 !! p = cur0 !! p ∧ prev1 !! p = prev0 !! p) as Hother.
    { intros p Hp. subst cur1 prev1. rewrite lookup_insert_ne by done.
      split; [done|]. destruct (cur0 !! ps_port_no s); [|done].
      by rewrite lookup_insert_ne. }
    split.
    + intros stat [->|Hin]%elem_of_cons.
      * destruct (IH2 (ps_port_no s) Hs) as [-> ->]. subst cur1 prev1.
        rewrite lookup_insert_eq. split; [done|].
        destruct (cur0 !! ps_port_no s); [|done]. by rewrite lookup_insert_eq.
      * destruct (IH1 stat Hin) as [-> ->].
        assert (ps_port_no stat ≠ ps_port_no s) as Hne.
        { intros Heq. apply Hs. rewrite <- Heq.
          by apply list_elem_of_fmap_2. }
        destruct (Hother _ Hne) as [-> ->]. done.
    + intros p Hp. rewrite fmap_cons in Hp.
      apply not_elem_of_cons in Hp as [Hne Hp].
      destruct (IH2 p Hp) as [-> ->]. by apply Hother.
Qed.

(** X21. Two consecutive replies of a switch that list a port leave, for
    that port, the second reply's counters as the current sample and the
    first reply's counters as the previous sample, each with the time of its
    reply: the elapsed time of the link statistics is the time between the
    two replies. *)
Theorem two_replies_keep_latest_and_previous
    (dpid : Z) (now1 now2 : Q) (body1 body2 : list OFPPortStats)
    (stat1 stat2 : OFPPortStats) (st : State) :
  NoDup (ps_port_no <$> body1) → NoDup (ps_port_no <$> body2) →
  stat1 ∈ body1 → stat2 ∈ body2 → ps_port_no stat1 = ps_port_no stat2 →
  let st2 := _port_stats_reply dpid now2 body2
               (_port_stats_reply dpid now1 body1 st) in
  port_stats st2 !! dpid ≫= (.!! ps_port_no stat2)
  = Some (sample_of now2 stat2)
  ∧ port_stats_prev st2 !! dpid ≫= (.!! ps_port_no stat2)
    = Some (sample_of now1 stat1)
  ∧ stats_timestamp st2 !! dpid = Some now2.
Proof.
  intros Hnd1 Hnd2 Hin1 Hin2 Hport. cbv zeta.
  set (st1 := _port_stats_reply dpid now1 body1 st).
  assert (∃ cur1 prev1,
            port_stats st1 !! dpid = Some cur1
            ∧ port_stats_prev st1 !! dpid = Some prev1
            ∧ cur1 !! ps_port_no stat1 = Some (sample_of now1 stat1))
    as (cur1 & prev1 & Hc1 & Hp1 & Hs1).
  { subst st1. unfold _port_stats_reply.
    destruct (port_stats st !! dpid) as [c|].
    - pose proof (foldl_record_stat now1 body1 c
                    (default ∅ (port_stats_prev st !! dpid)) Hnd1) as [H _].
      destruct (foldl _ _ _) as [c' p']. cbn [fst snd] in H.
      cbn [port_stats port_stats_prev set_stats].
      rewrite !lookup_insert_eq. eexists _, _. split_and!; [done..|].
      by apply H.
    - pose proof (foldl_record_stat now1 body1 ∅ ∅ Hnd1) as [H _].
      destruct (foldl _ _ _) as [c' p']. cbn [fst snd] in H.
      cbn [port_stats port_stats_prev set_stats].
      rewrite !lookup_insert_eq. eexists _, _. split_and!; [done..|].
      by apply H. }
  unfold _port_stats_reply. rewrite Hc1, Hp1. cbn [from_option id].
  pose proof (foldl_record_stat now2 body2 cur1 prev1 Hnd2) as [H _].
  destruct (foldl _ _ _) as [c' p']. cbn [fst snd] in H.
  cbn [port_stats port_stats_prev stats_timestamp set_stats].
  rewrite !lookup_insert_eq. cbn [mbind option_bind].
  destruct (H stat2 Hin2) as [-> ->]. rewrite <- Hport, Hs1. done.
Qed.

Lemma two_replies_keep_latest_and_previous_witness :
  port_stats st_second_poll !! 1 ≫= (.!! 2)
  = Some (mkPortSample 0 1100 0 1400000 0 0 0 0 1700000005)
  ∧ port_stats_prev st_second_poll !! 1 ≫= (.!! 2)
    = Some (mkPortSample 0 100 0 150000 0 0 0 0 1700000000).
Proof.
  destruct (two_replies_keep_latest_and_previous 1 1700000000 1700000005
              (reply_s1 100 150000) (reply_s1 1100 1400000)
              (mkOFPPortStats 2 0 100 0 150000 0 0 0 0)
              (mkOFPPortStats 2 0 1100 0 1400000 0 0 0 0) st_line)
    as (H1 & H2 & _).
  - apply NoDup_singleton.
  - apply NoDup_singleton.
  - left.
  - left.
  - reflexivity.
  - split; [|exact H2]. exact H1.
Defined.

(** ** The rows of the link table *)

(** The loss rate computed from four samples lies between 0 and, when the
    receiver's counter did not go back, 100. *)
Lemma link_rates_loss (su sv sup svp : option PortSample) :
  (0 <= (link_rates su sv sup svp).2)%Q
  ∧ (get_Z rx_packets svp ≤ get_Z rx_packets sv →
     ((link_rates su sv sup svp).2 <= 100)%Q).
Proof.
  unfold link_rates. cbv zeta.
  destruct (Qlt_le_dec 0 _) as [_|_]; cbn [snd]; [|split; [|intros _]; lra].
  set (tx := get_Z tx_packets su - get_Z tx_packets sup).
  set (rx := get_Z rx_packets sv - get_Z rx_packets svp).
  destruct (decide (0 < tx)) as [Htx|_]; [|split; [|intros _]; lra].
  assert (0 < inject_Z tx)%Q as HtxQ by (by rewrite <- (Zlt_Qlt 0)).
  assert (0 <= inject_Z (Z.max 0 (tx - rx)))%Q as Hl
    by (rewrite <- (Zle_Qle 0); lia).
  assert (∀ a : Q, (a / inject_Z tx * 100 == a * 100 / inject_Z tx)%Q) as Hd.
  { intros a. field. lra. }
  split.
  - rewrite Hd. apply Qle_shift_div_l; lra.
  - intros Hrx. rewrite Hd. apply Qle_shift_div_r; [done|].
    assert (inject_Z (Z.max 0 (tx - rx)) <= inject_Z tx)%Q
      by (rewrite <- Zle_Qle; lia).
    lra.
Qed.

(** What [link_stat] read when it produced a row. *)
Lemma link_stat_Some (tie : Q → bool) (st : State) (u v : Z)
    (row : LinkStat) :
  link_stat tie st u v = Some row →
  u ≤ v
  ∧ ∃ pu pv su sv,
      od_get (adj st) (u, v) = Some pu ∧ od_get (adj st) (v, u) = Some pv
      ∧ pu ≠ 0 ∧ pv ≠ 0
      ∧ port_stats st !! u ≫= (.!! pu) = Some su
      ∧ port_stats st !! v ≫= (.!! pv) = Some sv
      ∧ ls_src row = u ∧ ls_dst row = v
      ∧ ls_src_port row = pu ∧ ls_dst_port row = pv
      ∧ ls_bw_mbps row = link_bw_get u v
      ∧ ls_packet_loss_rate row
        = round2 tie (link_rates (Some su) (Some sv)
                    (port_stats_prev st !! u ≫= (.!! pu))
                    (port_stats_prev st !! v ≫= (.!! pv))).2
      ∧ ls_throughput_mbps row
        = round2 tie (link_rates (Some su) (Some sv)
                    (port_stats_prev st !! u ≫= (.!! pu))
                    (port_stats_prev st !! v ≫= (.!! pv))).1.1
      ∧ ls_utilization row
        = round2 tie ((link_rates (Some su) (Some sv)
                     (port_stats_prev st !! u ≫= (.!! pu))
                     (port_stats_prev st !! v ≫= (.!! pv))).1.1
                  / inject_Z (link_bw_get u v) * 100)
      ∧ ls_tx_packets_u row = tx_packets su.
Proof.
  unfold link_stat. case_decide as Huv; [done|].
  destruct (od_get (adj st) (u, v)) as [pu|]; [|done].
  destruct (od_get (adj st) (v, u)) as [pv|]; [|done].
  case_decide as Hp; [done|].
  destruct (port_stats st !! u ≫= (.!! pu)) as [su|] eqn:Hsu; [|done].
  destruct (port_stats st !! v ≫= (.!! pv)) as [sv|] eqn:Hsv; [|done].
  destruct (link_rates _ _ _ _) as [[thr thr'] loss] eqn:Hr.
  intros [= <-]. split; [lia|]. exists pu, pv, su, sv. rewrite Hr.
  cbn [ls_src ls_dst ls_src_port ls_dst_port ls_bw_mbps ls_packet_loss_rate
       ls_throughput_mbps ls_utilization ls_tx_packets_u fst snd].
  rewrite decide_True by apply link_bw_get_pos.
  split_and!; try done; intros ->; apply Hp; (by left) || (by right).
Qed.

Lemma omap_length_le {A B} (f : A → option B) (l : list A) :
  (length (omap f l) ≤ length l)%nat.
Proof. induction l as [|x l IH]; cbn; [done|]. destruct (f x); cbn; lia. Qed.

(** X22. Every row of the link table is about a link recorded in the port
    map in both directions with non-zero ports, listed from its lower switch
    id, both of whose ports have a current sample; its bandwidth is the
    positive table value of the pair.  The table has at most one row per
    entry of the port map. *)
Theorem link_table_rows (tie : Q → bool) (st : State) (row : LinkStat) :
  row ∈ get_link_stats tie st →
  ls_src row ≤ ls_dst row
  ∧ od_get (adj st) (ls_src row, ls_dst row) = Some (ls_src_port row)
  ∧ od_get (adj st) (ls_dst row, ls_src row) = Some (ls_dst_port row)
  ∧ ls_src_port row ≠ 0 ∧ ls_dst_port row ≠ 0
  ∧ is_Some (port_stats st !! ls_src row ≫= (.!! ls_src_port row))
  ∧ is_Some (port_stats st !! ls_dst row ≫= (.!! ls_dst_port row))
  ∧ ls_bw_mbps row = link_bw_get (ls_src row) (ls_dst row)
  ∧ 0 < ls_bw_mbps row
  ∧ (length (get_link_stats tie st) ≤ length (adj st))%nat.
Proof.
  unfold get_link_stats. intros ([[u v] p] & _ & Hrow)%list_elem_of_omap.
  apply link_stat_Some in Hrow
    as (Huv & pu & pv & su & sv & Hpu & Hpv & Hpu0 & Hpv0 & Hsu & Hsv
        & -> & -> & -> & -> & Hbw & _).
  rewrite Hbw, Hsu, Hsv, Hpu, Hpv.
  split_and!; try done; try by eexists.
  - apply link_bw_get_pos.
  - apply omap_length_le.
Qed.

Lemma link_table_rows_witness :
  ∃ row, row ∈ get_link_stats ties_up st_second_poll
    ∧ ls_src row ≤ ls_dst row ∧ 0 < ls_bw_mbps row.
Proof.
  assert (∃ row, get_link_stats ties_up st_second_poll = [row]) as [row Hrow]
    by (eexists; by vm_compute).
  assert (row ∈ get_link_stats ties_up st_second_poll) as Hin
    by (rewrite Hrow; left).
  exists row. split; [exact Hin|].
  destruct (link_table_rows ties_up st_second_poll row Hin)
    as (H1 & _ & _ & _ & _ & _ & _ & _ & H2 & _).
  by split.
Defined.

(** The throughput computed from four samples is not negative when the
    sender's byte counter did not go back, and all three figures are 0 when
    no time passed between the two samples of the sender. *)
Lemma link_rates_throughput (su sv sup svp : option PortSample) :
  (get_Z tx_bytes sup ≤ get_Z tx_bytes su →
   (0 <= (link_rates su sv sup svp).1.1)%Q)
  ∧ ((get_Q timestamp su <= get_Q timestamp sup)%Q →
     link_rates su sv sup svp = (0%Q, 0%Q, 0%Q)).
Proof.
  unfold link_rates. cbv zeta.
  destruct (Qlt_le_dec 0 _) as [Hdt|Hdt]; cbn [fst snd].
  - split; [|intros Hle; lra]. intros Hb.
    apply Qle_shift_div_l; [lra|]. rewrite Qmult_0_l.
    rewrite <- (Zle_Qle 0). lia.
  - split; [intros _; lra|done].
Qed.

(** X23. The figures of a row of the link table, against the unrounded
    values computed from the samples of its two ports: each is within half a
    hundredth of its value (the utilization always being computed, as the
    bandwidth is positive); the loss rate is not negative, and at most 100
    when the receiver's packet counter did not go back; throughput and
    utilization are not negative when the sender's byte counter did not go
    back; and all three are 0 when no time passed between the sender's two
    samples. *)
Theorem link_row_figures (tie : Q → bool) (st : State) (row : LinkStat) :
  row ∈ get_link_stats tie st →
  let su := port_stats st !! ls_src row ≫= (.!! ls_src_port row) in
  let sv := port_stats st !! ls_dst row ≫= (.!! ls_dst_port row) in
  let sup := port_stats_prev st !! ls_src row ≫= (.!! ls_src_port row) in
  let svp := port_stats_prev st !! ls_dst row ≫= (.!! ls_dst_port row) in
  let r := link_rates su sv sup svp in
  (Qabs (ls_throughput_mbps row - r.1.1) <= 1 # 200)%Q
  ∧ (Qabs (ls_utilization row - r.1.1 / inject_Z (ls_bw_mbps row) * 100)
     <= 1 # 200)%Q
  ∧ (Qabs (ls_packet_loss_rate row - r.2) <= 1 # 200)%Q
  ∧ (0 <= ls_packet_loss_rate row)%Q
  ∧ (get_Z rx_packets svp ≤ get_Z rx_packets sv →
     (ls_packet_loss_rate row <= 100)%Q)
  ∧ (get_Z tx_bytes sup ≤ get_Z tx_bytes su →
     (0 <= ls_throughput_mbps row)%Q ∧ (0 <= ls_utilization row)%Q)
  ∧ ((get_Q timestamp su <= get_Q timestamp sup)%Q →
     ls_throughput_mbps row = 0%Q ∧ ls_utilization row = 0%Q
     ∧ ls_packet_loss_rate row = 0%Q).
Proof.
  unfold get_link_stats. intros ([[u v] p] & _ & Hrow)%list_elem_of_omap.
  apply link_stat_Some in Hrow
    as (Huv & pu & pv & su & sv & Hpu & Hpv & Hpu0 & Hpv0 & Hsu & Hsv
        & -> & -> & -> & -> & Hbw & Hloss & Hthr & Hutil & _).
  cbv zeta. rewrite Hsu, Hsv, Hbw, Hloss, Hthr, Hutil.
  set (r := link_rates _ _ _ _).
  pose proof (link_bw_get_pos u v) as Hpos.
  assert (0 < inject_Z (link_bw_get u v))%Q as HposQ
    by (by rewrite <- (Zlt_Qlt 0)).
  destruct (link_rates_loss (Some su) (Some sv)
              (port_stats_prev st !! u ≫= (.!! pu))
              (port_stats_prev st !! v ≫= (.!! pv))) as [Hl0 Hl100].
  destruct (link_rates_throughput (Some su) (Some sv)
              (port_stats_prev st !! u ≫= (.!! pu))
              (port_stats_prev st !! v ≫= (.!! pv))) as [Ht0 Hzero].
  fold r in Hl0, Hl100, Ht0, Hzero.
  split_and!; try apply round2_near.
  - by apply (round2_bounds tie _ 0).
  - intros Hrx. apply (round2_bounds tie _ 100). by apply Hl100.
  - intros Htx. specialize (Ht0 Htx). split.
    + by apply (round2_bounds tie _ 0).
    + apply (round2_bounds tie _ 0). change (inject_Z 0) with 0%Q.
      apply Qmult_le_0_compat; [|done].
      apply Qle_shift_div_l; [done|]. by rewrite Qmult_0_l.
  - intros Hdt. rewrite (Hzero Hdt). cbn [fst snd]. split_and!; [done| |done].
    rewrite (round2_hundredths tie _ 0); [done|].
    change (inject_Z 0) with 0%Q. unfold Qdiv. ring.
Qed.

Lemma link_row_figures_witness :
  ∃ row, row ∈ get_link_stats ties_up st_second_poll
    ∧ (0 <= ls_packet_loss_rate row)%Q ∧ (ls_packet_loss_rate row <= 100)%Q.
Proof.
  assert (∃ row, get_link_stats ties_up st_second_poll = [row]) as [row Hrow]
    by (eexists; by vm_compute).
  assert (row ∈ get_link_stats ties_up st_second_poll) as Hin
    by (rewrite Hrow; left).
  exists row. split; [exact Hin|].
  destruct (link_row_figures ties_up st_second_poll row Hin)
    as (_ & _ & _ & H0 & H100 & _).
  split; [exact H0|]. apply H100.
  assert ([row] = get_link_stats ties_up st_second_poll) as Heq by done.
  vm_compute in Heq. injection Heq as ->. by vm_compute.
Defined.

(** ** Handshake, wipe and polling *)

Lemma flow_tables_app tr1 tr2 tbls :
  flow_tables (tr1 ++ tr2) tbls = flow_tables tr2 (flow_tables tr1 tbls).
Proof. unfold flow_tables. by rewrite sent_app, foldl_app. Qed.

(** The table of a switch after [FlowDelete] and the two base rules. *)
Lemma flow_tables_wipe_one (u : Z) (tbls : gmap Z (list Rule)) :
  flow_tables (Send u FlowDelete :: _install_base_rules u) tbls
  = <[u := [(PRIO_LLDP, match_lldp, [ApplyActions [ActionController]]);
            (PRIO_TABLE_MISS, match_any, [])]]> tbls.
Proof.
  unfold flow_tables, _install_base_rules, sent. cbn [omap list_omap foldl].
  rewrite !lookup_insert_eq. cbn [from_option id apply_flow_mod List.filter app].
  rewrite !insert_insert_eq.
  rewrite bool_decide_eq_false_2 by (by intros [? _]). done.
Qed.

(** X24. A wipe leaves every registered switch with exactly the two rules
    its handshake installed (LLDP to the controller at priority 500, drop at
    priority 0), whatever its table held before, and leaves the tables of
    other switches alone; the handshake itself sends those two rules, the
    ones [_install_base_rules] sends, followed by the port-description
    request. *)
Theorem wipe_restores_handshake_rules
    (st : State) (tbls : gmap Z (list Rule)) (d : Z) :
  let base := [(500, mkMatch (Some 0x88cc) None None,
                [ApplyActions [ActionController]]);
               (0, mkMatch None None None, [])] in
  flow_mods (_switch_features d) = _install_base_rules d
  ∧ _switch_features d
    = ((λ '(u, m), (u, MsgFlowMod m)) <$> sent (_install_base_rules d))
      ++ [(d, MsgRequest OFPPortDescStatsRequest)]
  ∧ flow_tables (flow_mods (_switch_features d)) ∅ !! d = Some base
  ∧ (d ∈ datapaths st →
     flow_tables (_clear_all_flows st) tbls !! d = Some base)
  ∧ (d ∉ datapaths st →
     flow_tables (_clear_all_flows st) tbls !! d = tbls !! d).
Proof.
  cbv zeta. split_and!; [done|done| | |].
  - change (flow_mods (_switch_features d)) with (_install_base_rules d).
    unfold flow_tables, _install_base_rules, sent. cbn [omap list_omap foldl].
    rewrite lookup_empty, !lookup_insert_eq.
    cbn [from_option id apply_flow_mod List.filter app].
    by rewrite bool_decide_eq_false_2 by (by intros [? _]).
  - unfold _clear_all_flows.
    induction (datapaths st) as [|u l IH] using rev_ind;
      [by intros ?%elem_of_nil|].
    intros Hin. rewrite flat_map_app, flow_tables_app. cbn [flat_map].
    rewrite app_nil_r, flow_tables_wipe_one.
    destruct (decide (d = u)) as [->|Hne]; [by rewrite lookup_insert_eq|].
    rewrite lookup_insert_ne by done. apply IH.
    apply elem_of_app in Hin as [?|?%list_elem_of_singleton]; done.
  - unfold _clear_all_flows.
    induction (datapaths st) as [|u l IH] using rev_ind; [done|].
    intros Hin. rewrite flat_map_app, flow_tables_app. cbn [flat_map].
    rewrite app_nil_r, flow_tables_wipe_one.
    apply not_elem_of_app in Hin as [Hl Hu%not_elem_of_cons].
    rewrite lookup_insert_ne by (by intros ->; destruct Hu). by apply IH.
Qed.

(** X25. One polling round asks every registered switch, and no other, for
    its port statistics and its flow statistics, two requests per registered
    switch; a switch whose connection died is not asked. *)
Theorem poll_round_requests (st : State) (d : Z) (m : Message) :
  ((d, m) ∈ monitor_round st
   ↔ d ∈ datapaths st
     ∧ (m = MsgRequest OFPPortStatsRequest
        ∨ m = MsgRequest OFPFlowStatsRequest))
  ∧ length (monitor_round st) = (2 * length (datapaths st))%nat
  ∧ (d, m) ∉ monitor_round (_state_change d DEAD_DISPATCHER st).
Proof.
  assert (∀ l, (d, m) ∈ flat_map _request_stats l
               ↔ d ∈ l ∧ (m = MsgRequest OFPPortStatsRequest
                          ∨ m = MsgRequest OFPFlowStatsRequest)) as Hiff.
  { intros l. rewrite list_elem_of_In, in_flat_map. split.
    - intros (u & Hu%list_elem_of_In & Hm%list_elem_of_In).
      unfold _request_stats in Hm.
      apply elem_of_cons in Hm as [[= -> ->]|Hm]; [tauto|].
      apply list_elem_of_singleton in Hm as [= -> ->]. tauto.
    - intros [Hd Hm]. exists d. split; [by apply list_elem_of_In|].
      apply list_elem_of_In. unfold _request_stats.
      destruct Hm as [->| ->]; [left|right; left]. }
  unfold monitor_round. split_and!.
  - apply Hiff.
  - induction (datapaths st) as [|u l IH]; [done|].
    cbn [flat_map _request_stats app length]. rewrite IH. lia.
  - rewrite Hiff. cbn [_state_change datapaths set_datapaths].
    intros [Hin _]. apply list_elem_of_In, filter_In in Hin as [_ Hin].
    by rewrite bool_decide_eq_true_2 in Hin.
Qed.

(** ** The switch table *)

Lemma foldr_add_perm (l1 l2 : list Z) :
  l1 ≡ₚ l2 → foldr Z.add 0 l1 = foldr Z.add 0 l2.
Proof. induction 1; cbn [foldr]; lia. Qed.

(** Sums and size of a sample table given by a list without duplicate
    ports. *)
Lemma sum_ports_list_to_map (f : PortSample → Z) (l : list (Z * PortSample)) :
  NoDup l.*1 →
  sum_ports f (list_to_map l) = foldr Z.add 0 (f <$> l.*2)
  ∧ size (list_to_map l : gmap Z PortSample) = length l.
Proof.
  intros Hnd. pose proof (map_to_list_to_map (M := gmap Z) l Hnd) as Hp.
  split.
  - unfold sum_ports. apply foldr_add_perm. by rewrite Hp.
  - rewrite <- length_map_to_list. by rewrite Hp.
Qed.

(** The current table of a switch after a reply that lists every port
    already known, none twice: the samples of the reply. *)
Lemma foldl_record_stat_all (now : Q) (body : list OFPPortStats)
    (cur0 prev0 : gmap Z PortSample) :
  NoDup (ps_port_no <$> body) →
  (∀ p, is_Some (cur0 !! p) → p ∈ ps_port_no <$> body) →
  (foldl (record_stat now) (cur0, prev0) body).1
  = list_to_map ((λ s, (ps_port_no s, sample_of now s)) <$> body).
Proof.
  intros Hnd Hall.
  destruct (foldl_record_stat now body cur0 prev0 Hnd) as [H1 H2].
  cbv zeta in H1, H2. apply map_eq. intros p.
  assert (((λ s, (ps_port_no s, sample_of now s)) <$> body).*1
          = ps_port_no <$> body) as Hfst
    by (rewrite <- list_fmap_compose; done).
  destruct (decide (p ∈ ps_port_no <$> body)) as [Hin|Hnin].
  - apply list_elem_of_fmap in Hin as (s & -> & Hs).
    destruct (H1 s Hs) as [-> _]. symmetry.
    apply elem_of_list_to_map; [by rewrite Hfst|].
    apply list_elem_of_fmap. by exists s.
  - destruct (H2 p Hnin) as [-> _].
    rewrite (proj1 (not_elem_of_list_to_map _ p)) by (by rewrite Hfst).
    destruct (cur0 !! p) eqn:Hp; [|done]. destruct Hnin. apply Hall.
    by rewrite Hp.
Qed.

(** The current table does not depend on the previous one. *)
Lemma foldl_record_stat_cur (now : Q) (body : list OFPPortStats)
    (cur0 prev0 prev1 : gmap Z PortSample) :
  (foldl (record_stat now) (cur0, prev0) body).1
  = (foldl (record_stat now) (cur0, prev1) body).1.
Proof.
  revert cur0 prev0 prev1.
  induction body as [|s body IH]; intros cur0 prev0 prev1; [done|].
  cbn [foldl record_stat]. apply IH.
Qed.

Lemma port_stats_after_reply (dpid : Z) (now : Q) (body : list OFPPortStats)
    (st : State) (d : Z) :
  port_stats (_port_stats_reply dpid now body st) !! d
  = if decide (d = dpid)
    then Some (foldl (record_stat now)
                 (default ∅ (port_stats st !! dpid),
                  default ∅ (port_stats_prev st !! dpid)) body).1
    else port_stats st !! d.
Proof.
  unfold _port_stats_reply.
  destruct (port_stats st !! dpid) as [c|] eqn:Hc; cbn [from_option id].
  - destruct (foldl _ _ _) as [c' p']. cbn [port_stats set_stats fst].
    case_decide as Hd; [subst; by rewrite lookup_insert_eq|].
    by rewrite lookup_insert_ne.
  - rewrite (foldl_record_stat_cur now body ∅ _ ∅).
    destruct (foldl _ _ _) as [c' p']. cbn [port_stats set_stats fst].
    case_decide as Hd; [subst; by rewrite lookup_insert_eq|].
    by rewrite lookup_insert_ne.
Qed.

(** X26. After a port-statistics reply that lists every port the
    controller already had for the switch, and none twice, the row of the
    switch in the switch table shows one port per element of the reply and,
    as totals, the sums of the counters of the reply; the rows of the other
    switches and the list of registered switches are unchanged. *)
Theorem switch_totals_are_sums_of_the_reply
    (flow_stats : gmap Z (list FlowEntry)) (st : State) (dpid : Z) (now : Q)
    (body : list OFPPortStats) (d : Z) :
  NoDup (ps_port_no <$> body) →
  (∀ p, is_Some (port_stats st !! dpid ≫= (.!! p)) →
        p ∈ ps_port_no <$> body) →
  let st' := _port_stats_reply dpid now body st in
  let row := switch_stat flow_stats st' dpid in
  ss_port_count row = Z.of_nat (length body)
  ∧ ss_total_rx_packets row = foldr Z.add 0 (ps_rx_packets <$> body)
  ∧ ss_total_tx_packets row = foldr Z.add 0 (ps_tx_packets <$> body)
  ∧ ss_total_rx_bytes row = foldr Z.add 0 (ps_rx_bytes <$> body)
  ∧ ss_total_tx_bytes row = foldr Z.add 0 (ps_tx_bytes <$> body)
  ∧ (d ≠ dpid → switch_stat flow_stats st' d = switch_stat flow_stats st d)
  ∧ ss_dpid <$> stats_switches flow_stats st' = datapaths st.
Proof.
  intros Hnd Hall. cbv zeta.
  set (l := (λ s, (ps_port_no s, sample_of now s)) <$> body).
  assert (l.*1 = ps_port_no <$> body) as Hfst
    by (subst l; rewrite <- list_fmap_compose; done).
  assert (∀ f : PortSample → Z,
            f <$> l.*2 = (λ s, f (sample_of now s)) <$> body) as Hsnd
    by (intros f; subst l; rewrite <- !list_fmap_compose; done).
  assert (port_stats (_port_stats_reply dpid now body st) !! dpid
          = Some (list_to_map l)) as Hcur.
  { rewrite port_stats_after_reply, decide_True by done. f_equal.
    apply foldl_record_stat_all; [done|]. intros p Hp. apply Hall.
    destruct (port_stats st !! dpid); [done|].
    cbn in Hp. rewrite lookup_empty in Hp. by destruct Hp. }
  assert (NoDup l.*1) as Hndl by (by rewrite Hfst).
  unfold switch_stat. cbv zeta.
  cbn [ss_port_count ss_total_rx_packets ss_total_tx_packets
       ss_total_rx_bytes ss_total_tx_bytes].
  rewrite Hcur. cbn [from_option id].
  split_and!.
  - rewrite (proj2 (sum_ports_list_to_map rx_packets l Hndl)).
    subst l. by rewrite length_fmap.
  - by rewrite (proj1 (sum_ports_list_to_map rx_packets l Hndl)), Hsnd.
  - by rewrite (proj1 (sum_ports_list_to_map tx_packets l Hndl)), Hsnd.
  - by rewrite (proj1 (sum_ports_list_to_map rx_bytes l Hndl)), Hsnd.
  - by rewrite (proj1 (sum_ports_list_to_map tx_bytes l Hndl)), Hsnd.
  - intros Hne. by rewrite port_stats_after_reply, decide_False.
  - unfold stats_switches. rewrite <- list_fmap_compose.
    assert (datapaths (_port_stats_reply dpid now body st) = datapaths st)
      as ->.
    { unfold _port_stats_reply. destruct (port_stats st !! dpid);
        by destruct (foldl _ _ _). }
    apply list_fmap_id.
Qed.

Lemma switch_totals_are_sums_of_the_reply_witness :
  ss_total_tx_packets
    (switch_stat ∅ (_port_stats_reply 1 1700000005 (reply_s1 1100 1400000)
                      st_first_poll) 1) = 1100
  ∧ ss_port_count
      (switch_stat ∅ (_port_stats_reply 1 1700000005 (reply_s1 1100 1400000)
                        st_first_poll) 1) = 1.
Proof.
  destruct (switch_totals_are_sums_of_the_reply ∅ st_first_poll
              1 1700000005 (reply_s1 1100 1400000) 1)
    as (H1 & _ & H2 & _).
  - apply NoDup_singleton.
  - assert (port_stats st_first_poll !! 1
            = Some (<[2 := mkPortSample 0 100 0 150000 0 0 0 0 1700000000]> ∅))
      as Hm by (by vm_compute).
    intros p. rewrite Hm. cbn [mbind option_bind]. intros Hs.
    destruct (decide (p = 2)) as [->|Hne]; [left|].
    rewrite lookup_insert_ne, lookup_empty in Hs by done. by destruct Hs.
  - split; [exact H2|exact H1].
Defined.

(** X27. The switch table has one row per registered switch, in
    registration order, whether or not the switch was ever polled: a switch
    without a port-statistics reply shows no port and zero totals, one
    without a flow-statistics reply shows no flow.  After a flow-statistics
    reply the flow count of the switch is the number of entries of that
    reply, replacing the earlier count, and the rows of the other switches
    are as before. *)
Theorem switch_table_rows
    (flow_stats : gmap Z (list FlowEntry)) (st : State) (d d' : Z)
    (fbody : list FlowEntry) :
  ss_dpid <$> stats_switches flow_stats st = datapaths st
  ∧ (port_stats st !! d = None →
     let row := switch_stat flow_stats st d in
     ss_port_count row = 0
     ∧ ss_total_rx_packets row = 0 ∧ ss_total_tx_packets row = 0
     ∧ ss_total_rx_bytes row = 0 ∧ ss_total_tx_bytes row = 0)
  ∧ (flow_stats !! d = None → ss_flow_count (switch_stat flow_stats st d) = 0)
  ∧ ss_flow_count (switch_stat (_flow_stats_reply d fbody flow_stats) st d)
    = Z.of_nat (length fbody)
  ∧ (d' ≠ d →
     switch_stat (_flow_stats_reply d fbody flow_stats) st d'
     = switch_stat flow_stats st d').
Proof.
  split_and!.
  - unfold stats_switches. rewrite <- list_fmap_compose.
    apply list_fmap_id.
  - intros Hd. cbv zeta. unfold switch_stat. rewrite Hd.
    cbn [from_option id ss_port_count ss_total_rx_packets
         ss_total_tx_packets ss_total_rx_bytes ss_total_tx_bytes].
    split_and!; by vm_compute.
  - intros Hd. unfold switch_stat. cbn [ss_flow_count]. by rewrite Hd.
  - unfold switch_stat, _flow_stats_reply. cbn [ss_flow_count].
    by rewrite lookup_insert_eq.
  - intros Hne. unfold switch_stat, _flow_stats_reply.
    by rewrite lookup_insert_ne.
Qed.

(** ** The links listed by the topology endpoint *)

Lemma od_get_elem_NoDup {K V} `{EqDecision K} (d : list (K * V)) k v :
  NoDup (od_keys d) → (k, v) ∈ d → od_get d k = Some v.
Proof.
  induction d as [|[k' v'] d IH]; cbn [od_get od_keys map fst];
    [by intros _ ?%elem_of_nil|].
  intros [Hk' Hnd]%NoDup_cons [[= -> ->]|Hin]%elem_of_cons.
  - by rewrite decide_True.
  - rewrite decide_False; [by apply IH|]. intros ->. apply Hk'.
    change (k' ∈ fst <$> d). apply list_elem_of_fmap. by exists (k', v).
Qed.

(** Every neighbour dict of the graph has each neighbour once. *)
Local Abbreviation nbrs_ok g :=
  (∀ n nbrs, od_get g n = Some nbrs → NoDup (od_keys nbrs)).

Lemma nbrs_ok_add_node (g : Graph) (n : Z) :
  nbrs_ok g → nbrs_ok (nx.add_node g n).
Proof.
  intros Hg k nbrs. unfold nx.add_node, nx.has_node, od_mem.
  destruct (od_get g n) eqn:Hn; [apply Hg|].
  rewrite od_get_snoc by done. case_decide; [|apply Hg].
  intros [= <-]. constructor.
Qed.

Lemma nbrs_ok_set_nbr (g : Graph) (u v : Z) (d : EdgeData) :
  nbrs_ok g → nbrs_ok (nx.set_nbr g u v d).
Proof.
  intros Hg k nbrs. unfold nx.set_nbr. rewrite od_get_set.
  case_decide; [|apply Hg]. intros [= <-]. apply od_set_NoDup.
  destruct (od_get g u) as [x|] eqn:Hu; cbn [from_option id];
    [by apply (Hg u)|constructor].
Qed.

Lemma nbrs_ok_build (md : string) (topo : Topology) :
  nbrs_ok (build_tables md topo).1.1.
Proof.
  destruct topo as [sw l]. induction l as [|lk l IH] using rev_ind.
  - rewrite build_tables_nil. cbn [fst].
    assert (∀ g, nbrs_ok g → nbrs_ok (foldl nx.add_node g sw)) as Hsw.
    { induction sw as [|s sw IHsw]; intros g Hg; [done|].
      cbn [foldl]. by apply IHsw, nbrs_ok_add_node. }
    by apply Hsw.
  - rewrite build_tables_snoc.
    destruct (build_tables md (mkTopology sw l)) as [[g a] lp].
    cbn [add_link fst] in *. unfold nx.add_edge. cbv zeta.
    by do 2 apply nbrs_ok_set_nbr; do 2 apply nbrs_ok_add_node.
Qed.

Lemma elem_of_edges_head (n : Z) (nbrs : list (Z * EdgeData)) (seen : list Z)
    (u v : Z) (d : EdgeData) :
  (u, v, d) ∈ map (λ '(nbr, dd), (n, nbr, dd))
                  (filter (λ '(nbr, _), nbr ∉ seen) nbrs)
  ↔ u = n ∧ (v, d) ∈ nbrs ∧ v ∉ seen.
Proof.
  rewrite list_elem_of_In, in_map_iff. split.
  - intros ([nbr dd] & [= <- <- <-] & Hin%list_elem_of_In).
    apply list_elem_of_filter in Hin as [? ?]. done.
  - intros (-> & Hin & Hs). exists (v, d). split; [done|].
    apply list_elem_of_In, list_elem_of_filter. done.
Qed.

(** A listed edge starts at a node of the graph, ends at one of its
    neighbours, and its far end was not visited before. *)
Lemma elem_of_edges_from (g : Graph) (seen : list Z) (u v : Z) (d : EdgeData) :
  (u, v, d) ∈ nx.edges_from g seen →
  (v ∉ seen) ∧ ∃ nbrs, (u, nbrs) ∈ g ∧ (v, d) ∈ nbrs.
Proof.
  revert seen. induction g as [|[n nbrs] g IH]; intros seen;
    cbn [nx.edges_from]; [by intros ?%elem_of_nil|].
  rewrite elem_of_app, elem_of_edges_head. intros [(-> & Hin & Hs)|Hin].
  - split; [done|]. exists nbrs. split; [left|done].
  - apply IH in Hin as [Hs (nb & Hnb & Hv)].
    apply not_elem_of_cons in Hs as [_ Hs]. split; [done|].
    exists nb. split; [by right|done].
Qed.

(** An edge is not listed from both of its ends. *)
Lemma edges_from_one_way (g : Graph) (seen : list Z) (u v : Z)
    (d d' : EdgeData) :
  (u, v, d) ∈ nx.edges_from g seen → (v, u, d') ∈ nx.edges_from g seen →
  u = v.
Proof.
  revert seen. induction g as [|[n nbrs] g IH]; intros seen;
    cbn [nx.edges_from]; [by intros ?%elem_of_nil|].
  rewrite !elem_of_app, !elem_of_edges_head.
  intros [(-> & _ & _)|H1] [(-> & _ & _)|H2]; [done| | |by eapply IH].
  - apply elem_of_edges_from in H2 as [Hs _]. destruct Hs. left.
  - apply elem_of_edges_from in H1 as [Hs _]. destruct Hs. left.
Qed.

(** An edge recorded at both of its ends is listed from one of them. *)
Lemma edges_from_listed (g : Graph) (seen : list Z) (u v : Z)
    (nu nv : list (Z * EdgeData)) (d : EdgeData) :
  NoDup (od_keys g) →
  (u, nu) ∈ g → (v, d) ∈ nu → (v, nv) ∈ g → (u, d) ∈ nv →
  u ∉ seen → v ∉ seen →
  (u, v, d) ∈ nx.edges_from g seen ∨ (v, u, d) ∈ nx.edges_from g seen.
Proof.
  revert seen. induction g as [|[n nbrs] g IH]; intros seen;
    cbn [nx.edges_from od_keys map fst]; [by intros _ ?%elem_of_nil|].
  intros [Hn Hnd]%NoDup_cons Hu Hvd Hv Hud Hsu Hsv.
  rewrite !elem_of_app, !elem_of_edges_head.
  apply elem_of_cons in Hu as [[= <- <-]|Hu]; [by left; left|].
  apply elem_of_cons in Hv as [[= <- <-]|Hv]; [by right; left|].
  assert (∀ x nx, (x, nx) ∈ g → x ≠ n) as Hne.
  { intros x nb Hx ->. apply Hn. change (n ∈ fst <$> g).
    apply list_elem_of_fmap. by exists (n, nb). }
  destruct (IH (n :: seen)) as [?|?]; try done.
  - apply not_elem_of_cons. split; [by eapply Hne|done].
  - apply not_elem_of_cons. split; [by eapply Hne|done].
  - by left; right.
  - by right; right.
Qed.

Lemma edges_from_NoDup (g : Graph) (seen : list Z) :
  NoDup (od_keys g) → (∀ n nbrs, (n, nbrs) ∈ g → NoDup (od_keys nbrs)) →
  NoDup (nx.edges_from g seen).
Proof.
  revert seen. induction g as [|[n nbrs] g IH]; intros seen;
    cbn [nx.edges_from od_keys map fst]; [constructor|].
  intros [Hn Hnd]%NoDup_cons Hall. apply NoDup_app. split_and!.
  - assert (NoDup nbrs) as Hnb.
    { apply (NoDup_fmap_1 fst). apply (Hall n). left. }
    apply (NoDup_filter (λ '(nbr, _), nbr ∉ seen)) in Hnb.
    revert Hnb. generalize (filter (λ '(nbr, _), nbr ∉ seen) nbrs).
    intros l. induction 1 as [|[a b] l Hx Hl IHl]; cbn [map]; constructor;
      [|done].
    rewrite list_elem_of_In, in_map_iff.
    intros ([a' b'] & [= <- <-] & Hin%list_elem_of_In). done.
  - intros [[u v] d] (-> & _ & _)%elem_of_edges_head
      [_ (nb & Hnb & _)]%elem_of_edges_from.
    apply Hn. change (n ∈ fst <$> g). apply list_elem_of_fmap.
    by exists (n, nb).
  - apply IH; [done|]. intros x nx Hx. apply (Hall x). by right.
Qed.

Lemma undirected_key_eq (u v u' v' : Z) :
  undirected_key u v = undirected_key u' v' →
  (u = u' ∧ v = v') ∨ (u = v' ∧ v = u').
Proof.
  unfold undirected_key. repeat case_decide; intros [= -> ->]; auto.
Qed.

(** X28. What the topology endpoint lists after a graph build: every
    listed link joins two switches that some reported link joins, with the
    bandwidth of the pair and the weight of the mode; every reported link is
    listed, from one of its ends; and no pair of switches is listed twice,
    in either orientation, although each link is reported once per
    direction.  The number of links in the log line of the build is the
    number of links listed. *)
Theorem topology_lists_each_link_once (topo : Topology) (st : State) :
  let st' := (_build_graph topo st).1 in
  let ls := nx.edges (G st') in
  rest_topology st'
  = mkResponse 200 (TopologyBody (mode st) (nx.nodes (G st')) ls)
  ∧ (_build_graph topo st).2
    = [Log (InfoGraphReady (Z.of_nat (length (nx.nodes (G st'))))
              (Z.of_nat (length ls)) (mode st))]
  ∧ NoDup ((λ e, undirected_key e.1.1 e.1.2) <$> ls)
  ∧ (∀ u v d, (u, v, d) ∈ ls →
       (∃ lk, lk ∈ links topo ∧ joins lk u v)
       ∧ d = mkEdgeData (link_bw_get u v)
               (edge_weight (mode st) (link_bw_get u v)))
  ∧ (∀ lk, lk ∈ links topo →
       ∃ d, (src_dpid lk, dst_dpid lk, d) ∈ ls
            ∨ (dst_dpid lk, src_dpid lk, d) ∈ ls).
Proof.
  cbv zeta. rewrite build_graph_state, build_graph_trace.
  cbn [G mode set_graph]. unfold rest_topology. cbn [G mode set_graph].
  set (g := (build_tables (mode st) topo).1.1).
  pose proof (build_tables_NoDup (mode st) topo) as Hnd. fold g in Hnd.
  pose proof (nbrs_ok_build (mode st) topo) as Hok. fold g in Hok.
  assert (∀ n nbrs, (n, nbrs) ∈ g → NoDup (od_keys nbrs)) as Hall.
  { intros n nbrs Hin. apply (Hok n). by apply od_get_elem_NoDup. }
  assert (∀ u v d, (u, v, d) ∈ nx.edges g → nx.get_edge_data g u v = Some d)
    as Hdata.
  { intros u v d [_ (nb & Hnb & Hv)]%elem_of_edges_from.
    unfold nx.get_edge_data. rewrite (od_get_elem_NoDup g u nb) by done.
    cbn [mbind option_bind]. apply od_get_elem_NoDup; [|done].
    by apply (Hall u). }
  destruct topo as [sw l]. cbn [links] in *.
  split_and!.
  - done.
  - unfold nx.number_of_nodes, nx.number_of_edges, nx.nodes, od_keys.
    by rewrite length_map.
  - apply NoDup_fmap_2_strong; [|by apply edges_from_NoDup].
    intros [[u v] d] [[u' v'] d'] H1 H2 Hk. cbn [fst snd] in Hk.
    apply undirected_key_eq in Hk as [[-> ->]|[-> ->]].
    + apply Hdata in H1. apply Hdata in H2. congruence.
    + assert (u' = v') as -> by (by eapply edges_from_one_way).
      apply Hdata in H1. apply Hdata in H2. congruence.
  - intros u v d Hin%Hdata. by apply build_edges in Hin.
  - intros lk Hlk.
    set (d := mkEdgeData (link_bw_get (src_dpid lk) (dst_dpid lk))
                (edge_weight (mode st)
                   (link_bw_get (src_dpid lk) (dst_dpid lk)))).
    assert (nx.get_edge_data g (src_dpid lk) (dst_dpid lk) = Some d) as H1.
    { apply build_edges. split; [exists lk; tauto|done]. }
    assert (nx.get_edge_data g (dst_dpid lk) (src_dpid lk) = Some d) as H2.
    { apply build_edges. split; [exists lk; tauto|].
      subst d. by rewrite (link_bw_get_sym (dst_dpid lk)). }
    unfold nx.get_edge_data in H1, H2.
    destruct (od_get g (src_dpid lk)) as [nu|] eqn:Hu; [|done].
    destruct (od_get g (dst_dpid lk)) as [nv|] eqn:Hv; [|done].
    cbn [mbind option_bind] in H1, H2.
    exists d. apply (edges_from_listed g [] _ _ nu nv); try done;
      try (by apply od_get_Some_elem); apply not_elem_of_nil.
Qed.

(** ** The summary of the management plane *)

Lemma sum_Q_lower {A} (f : A → Q) (l : list A) (lo : Q) :
  (∀ x, x ∈ l → (lo <= f x)%Q) →
  (lo * inject_Z (Z.of_nat (length l)) <= sum_Q f l)%Q.
Proof.
  unfold sum_Q. intros Hall.
  assert (∀ a : Q,
            (a + lo * inject_Z (Z.of_nat (length l))
             <= foldl (λ acc x, acc + f x) a l)%Q) as Hgen.
  { induction l as [|x l IH]; intros a.
    - cbn [foldl length]. change (inject_Z (Z.of_nat 0)) with 0%Q. lra.
    - cbn [foldl length]. rewrite Nat2Z.inj_succ.
      unfold Z.succ. rewrite inject_Z_plus. change (inject_Z 1) with 1%Q.
      pose proof (Hall x ltac:(left)) as Hlo.
      pose proof (IH (λ y Hy, Hall y ltac:(by right)) (a + f x)%Q) as H1.
      lra. }
  pose proof (Hgen 0%Q) as H1. lra.
Qed.

Lemma sum_Q_upper {A} (f : A → Q) (l : list A) (hi : Q) :
  (∀ x, x ∈ l → (f x <= hi)%Q) →
  (sum_Q f l <= hi * inject_Z (Z.of_nat (length l)))%Q.
Proof.
  unfold sum_Q. intros Hall.
  assert (∀ a : Q,
            (foldl (λ acc x, acc + f x) a l
             <= a + hi * inject_Z (Z.of_nat (length l)))%Q) as Hgen.
  { induction l as [|x l IH]; intros a.
    - cbn [foldl length]. change (inject_Z (Z.of_nat 0)) with 0%Q. lra.
    - cbn [foldl length]. rewrite Nat2Z.inj_succ.
      unfold Z.succ. rewrite inject_Z_plus. change (inject_Z 1) with 1%Q.
      pose proof (Hall x ltac:(left)) as Hhi.
      pose proof (IH (λ y Hy, Hall y ltac:(by right)) (a + f x)%Q) as H1.
      lra. }
  pose proof (Hgen 0%Q) as H1. lra.
Qed.

Lemma link_row_loss_nonneg (tie : Q → bool) (st : State) (row : LinkStat) :
  row ∈ get_link_stats tie st → (0 <= ls_packet_loss_rate row)%Q.
Proof.
  unfold get_link_stats. intros ([[u v] p] & _ & Hrow)%list_elem_of_omap.
  apply link_stat_Some in Hrow
    as (_ & pu & pv & su & sv & _ & _ & _ & _ & _ & _
        & _ & _ & _ & _ & _ & -> & _).
  apply (round2_bounds tie _ 0). apply link_rates_loss.
Qed.

(** X29. The summary computed by the management plane from the
    controller's link table and switch table: it counts one switch per
    registered datapath and at most one link per entry of the port map, and
    its total loss rate is not negative; before any link is known the totals
    and the average utilization are 0 (the average is not computed on an
    empty table); whatever the tables, the average utilization stays between
    two bounds that hold for the utilization of every link, such as 0 and
    100; and a failed request to the controller gives the error answer. *)
Theorem summary_of_the_tables
    (tie : Q → bool) (flow_stats : gmap Z (list FlowEntry)) (st : State)
    (ls : list LinkStat) (sws : list SwitchStat) (lo hi : Z) :
  (∃ s, get_stats_summary tie (Some (get_link_stats tie st))
          (Some (stats_switches flow_stats st)) = Some s
     ∧ total_switches s = Z.of_nat (length (datapaths st))
     ∧ total_links s ≤ Z.of_nat (length (adj st))
     ∧ (0 <= total_packet_loss_rate s)%Q
     ∧ (adj st = [] →
        total_links s = 0 ∧ total_throughput_mbps s = 0%Q
        ∧ avg_link_utilization s = 0%Q ∧ total_packet_loss_rate s = 0%Q))
  ∧ (∃ s, get_stats_summary tie (Some ls) (Some sws) = Some s
       ∧ total_links s = Z.of_nat (length ls)
       ∧ total_switches s = Z.of_nat (length sws)
       ∧ (ls ≠ [] →
          (∀ row, row ∈ ls →
             (inject_Z lo <= ls_utilization row)%Q
             ∧ (ls_utilization row <= inject_Z hi)%Q) →
          (inject_Z lo <= avg_link_utilization s)%Q
          ∧ (avg_link_utilization s <= inject_Z hi)%Q))
  ∧ get_stats_summary tie None (Some sws) = None
  ∧ get_stats_summary tie (Some ls) None = None.
Proof.
  split_and!; [| |done|done].
  - eexists. split; [reflexivity|].
    cbn [total_switches total_links total_packet_loss_rate
         total_throughput_mbps avg_link_utilization].
    split_and!.
    + unfold stats_switches. by rewrite length_map.
    + apply inj_le, omap_length_le.
    + apply (round2_bounds tie _ 0).
      pose proof (sum_Q_lower ls_packet_loss_rate (get_link_stats tie st) 0
                    (link_row_loss_nonneg tie st)) as H.
      change (inject_Z 0) with 0%Q. lra.
    + intros Hadj. unfold get_link_stats. rewrite Hadj. by vm_compute.
  - eexists. split; [reflexivity|].
    cbn [total_switches total_links avg_link_utilization].
    split_and!; [done|done|]. intros Hne Hall.
    destruct ls as [|row0 ls']; [done|]. set (l := row0 :: ls') in *.
    assert (0 < inject_Z (Z.of_nat (length l)))%Q as Hn.
    { rewrite <- (Zlt_Qlt 0). subst l. cbn [length]. lia. }
    pose proof (sum_Q_lower ls_utilization l (inject_Z lo)
                  (λ row Hrow, proj1 (Hall row Hrow))) as H1.
    pose proof (sum_Q_upper ls_utilization l (inject_Z hi)
                  (λ row Hrow, proj2 (Hall row Hrow))) as H2.
    split.
    + apply (round2_bounds tie _ lo). apply Qle_shift_div_l; [done|]. lra.
    + apply (round2_bounds tie _ hi). apply Qle_shift_div_r; [done|]. lra.
Qed.
